(** * fMRI tool-representation study: the preprocessing pipeline, embedded

  A shallow embedding of [analysis/preprocessing.py],
  [analysis/brain_image_processor.py] and [run_analysis.py].

  Conventions.
  - A Python [str] is a [string]; the development covers ASCII text, so
    [\d], [\w], [str.isspace] and [str.lower] are their ASCII restrictions.
  - A Python [float] is a binary64 value, [spec_float] with precision 53
    and maximal exponent 1024.
  - A dictionary with a fixed set of keys is a record; a dictionary whose
    keys vary (a trial record) is a [gmap string value].
  - Code that can raise returns the state reached together with the
    exception, so that a handler can return the partially filled state. *)

From Stdlib Require Import ZArith Ascii String List Lia Bool Sorted.
From Stdlib Require Import SpecFloat.
From stdpp Require Import base option list gmap strings pretty.

Local Open Scope list_scope.

(* ===================================================================== *)
(** * Python string primitives *)
(* ===================================================================== *)

Module PyStr.

Definition code (c : ascii) : N := N_of_ascii c.

Definition in_range (lo hi : N) (c : ascii) : bool :=
  (lo <=? code c)%N && (code c <=? hi)%N.

(** [\d] *)
Definition is_digit (c : ascii) : bool := in_range 48 57 c.

(** [\w] *)
Definition is_word (c : ascii) : bool :=
  in_range 48 57 c || in_range 65 90 c || in_range 97 122 c
  || (code c =? 95)%N.

(** [str.isspace] on one character: tab, newline, vertical tab, form
    feed, carriage return, the four separators 0x1c-0x1f, and space. *)
Definition is_space (c : ascii) : bool :=
  in_range 9 13 c || in_range 28 32 c.

Definition chr_eqb (a b : ascii) : bool := (code a =? code b)%N.

Definition tab : ascii := ascii_of_N 9.
Definition newline : ascii := ascii_of_N 10.

Definition lower_chr (c : ascii) : ascii :=
  if in_range 65 90 c then ascii_of_N (code c + 32) else c.

(** [s.lower()] *)
Fixpoint lower (s : string) : string :=
  match s with
  | EmptyString => EmptyString
  | String c s' => String (lower_chr c) (lower s')
  end.

Fixpoint all_chars (p : ascii -> bool) (s : string) : bool :=
  match s with
  | EmptyString => true
  | String c s' => p c && all_chars p s'
  end.

Fixpoint take (n : nat) (s : string) : string :=
  match n, s with
  | S n', String c s' => String c (take n' s')
  | _, _ => EmptyString
  end.

Fixpoint repeat_chr (c : ascii) (n : nat) : string :=
  match n with
  | O => EmptyString
  | S n' => String c (repeat_chr c n')
  end.

(** [s.startswith(p)] *)
Fixpoint startswith (p s : string) : bool :=
  match p, s with
  | EmptyString, _ => true
  | String a p', String b s' => chr_eqb a b && startswith p' s'
  | String _ _, EmptyString => false
  end.

(** [sub in s] *)
Fixpoint contains (sub s : string) : bool :=
  startswith sub s
  || match s with
     | EmptyString => false
     | String _ s' => contains sub s'
     end.

Fixpoint lstrip (s : string) : string :=
  match s with
  | String c s' => if is_space c then lstrip s' else s
  | EmptyString => EmptyString
  end.

Fixpoint rstrip (s : string) : string :=
  match s with
  | EmptyString => EmptyString
  | String c s' =>
      match rstrip s' with
      | EmptyString => if is_space c then EmptyString else String c EmptyString
      | r => String c r
      end
  end.

(** [s.strip()] *)
Definition strip (s : string) : string := rstrip (lstrip s).

(** [s.split(sep)] for a one-character separator: empty fields are kept
    and the result always has at least one field. *)
Fixpoint split_on (sep : ascii) (s : string) : list string :=
  match s with
  | EmptyString => [EmptyString]
  | String c s' =>
      if chr_eqb c sep then EmptyString :: split_on sep s'
      else match split_on sep s' with
           | f :: fs => String c f :: fs
           | [] => [String c EmptyString]
           end
  end.

(** [s.split()]: fields separated by runs of whitespace, none empty. *)
Fixpoint split_ws_go (cur : string) (s : string) : list string :=
  match s with
  | EmptyString =>
      match cur with EmptyString => [] | _ => [cur] end
  | String c s' =>
      if is_space c then
        match cur with
        | EmptyString => split_ws_go EmptyString s'
        | _ => cur :: split_ws_go EmptyString s'
        end
      else split_ws_go (cur +:+ String c EmptyString) s'
  end.

Definition split_ws (s : string) : list string := split_ws_go EmptyString s.

(** [sep.join(l)] *)
Fixpoint join (sep : string) (l : list string) : string :=
  match l with
  | [] => EmptyString
  | [x] => x
  | x :: rest => x +:+ sep +:+ join sep rest
  end.

(** [s.zfill(width)]: zeros are inserted after a leading sign. *)
Definition zfill (width : nat) (s : string) : string :=
  let n := String.length s in
  if (width <=? n)%nat then s
  else
    let zeros := repeat_chr "0"%char (width - n) in
    match s with
    | String c s' =>
        if chr_eqb c "+"%char || chr_eqb c "-"%char
        then String c (zeros +:+ s')
        else zeros +:+ s
    | EmptyString => zeros
    end.

(** [os.path.basename(p)] on a POSIX system: what follows the last
    slash. *)
Fixpoint basename_go (cur : string) (p : string) : string :=
  match p with
  | EmptyString => cur
  | String c p' =>
      if chr_eqb c "/"%char then basename_go EmptyString p'
      else basename_go (cur +:+ String c EmptyString) p'
  end.

Definition basename (p : string) : string := basename_go EmptyString p.

(** [f.readlines()] on the text of a file: every line keeps its
    terminating newline; a last line without one is kept as it is. *)
Fixpoint readlines_go (cur : string) (s : string) : list string :=
  match s with
  | EmptyString =>
      match cur with EmptyString => [] | _ => [cur] end
  | String c s' =>
      if chr_eqb c newline
      then (cur +:+ String c EmptyString) :: readlines_go EmptyString s'
      else readlines_go (cur +:+ String c EmptyString) s'
  end.

Definition readlines (s : string) : list string := readlines_go EmptyString s.

Definition is_alpha (c : ascii) : bool :=
  in_range 65 90 c || in_range 97 122 c.

Definition upper_chr (c : ascii) : ascii :=
  if in_range 97 122 c then ascii_of_N (code c - 32) else c.

(** [s.title()]: a letter is put in upper case when it does not follow a
    letter and in lower case when it does. *)
Fixpoint title_go (after_letter : bool) (s : string) : string :=
  match s with
  | EmptyString => EmptyString
  | String c s' =>
      String (if is_alpha c
              then if after_letter then lower_chr c else upper_chr c
              else c)
             (title_go (is_alpha c) s')
  end.

Definition title (s : string) : string := title_go false s.

(** [int(s)] for a string of decimal digits. *)
Definition digit_val (c : ascii) : Z := Z.of_N (code c) - 48.

Fixpoint int_of_digits_go (acc : Z) (s : string) : Z :=
  match s with
  | EmptyString => acc
  | String c s' => int_of_digits_go (10 * acc + digit_val c) s'
  end.

Definition int_of_digits (s : string) : Z := int_of_digits_go 0 s.

End PyStr.

(* ===================================================================== *)
(** * The regular expressions of the source, and a backtracking matcher *)
(* ===================================================================== *)

Module Regex.
Import PyStr.

(** The fragment of [re] syntax the source uses. Groups are numbered
    from the left and never nested. *)
Inductive regex : Type :=
| Lit (s : string)                 (* literal text *)
| Plus (p : ascii -> bool)         (* [c+], greedy *)
| Seq (r1 r2 : regex)
| Group (r : regex)                (* [( ... )] *)
| Bol.                             (* [^] *)

Fixpoint drop_prefix (p s : string) : option string :=
  match p, s with
  | EmptyString, _ => Some s
  | String a p', String b s' =>
      if chr_eqb a b then drop_prefix p' s' else None
  | String _ _, EmptyString => None
  end.

(** The remainders after [c+], the longest run first. *)
Fixpoint star_rests (p : ascii -> bool) (s : string) : list string :=
  match s with
  | String c s' => if p c then star_rests p s' ++ [s] else [s]
  | EmptyString => [EmptyString]
  end.

Definition plus_rests (p : ascii -> bool) (s : string) : list string :=
  match s with
  | String c s' => if p c then star_rests p s' else []
  | EmptyString => []
  end.

(** The text consumed between a position [s] and a later one [rest]. *)
Definition consumed (s rest : string) : string :=
  take (String.length s - String.length rest) s.

(** Every way to match [r] at offset [pos], where [s] is the text from
    that offset on: the groups captured and the text left, in the order
    in which a backtracking matcher tries them. *)
Fixpoint exec (r : regex) (pos : nat) (s : string)
  : list (list string * string) :=
  match r with
  | Lit l =>
      match drop_prefix l s with
      | Some rest => [([], rest)]
      | None => []
      end
  | Plus p => map (fun rest => ([], rest)) (plus_rests p s)
  | Seq r1 r2 =>
      flat_map
        (fun '(c1, s1) =>
           map (fun '(c2, s2) => (c1 ++ c2, s2))
             (exec r2 (pos + (String.length s - String.length s1)) s1))
        (exec r1 pos s)
  | Group r1 =>
      map (fun '(c, rest) => (consumed s rest :: c, rest)) (exec r1 pos s)
  | Bol => if (pos =? 0)%nat then [([], s)] else []
  end.

(** [re.match(r, s)]: the groups of the first match at offset 0. *)
Definition re_match (r : regex) (s : string) : option (list string) :=
  match exec r 0 s with
  | (c, _) :: _ => Some c
  | [] => None
  end.

Fixpoint search_from (r : regex) (pos : nat) (s : string)
  : option (list string) :=
  match exec r pos s with
  | (c, _) :: _ => Some c
  | [] =>
      match s with
      | EmptyString => None
      | String _ s' => search_from r (S pos) s'
      end
  end.

(** [re.search(r, s)]: the groups of the leftmost match. *)
Definition re_search (r : regex) (s : string) : option (list string) :=
  search_from r 0 s.

(** [m.group(n)], [n >= 1]. *)
Definition group (n : nat) (caps : list string) : string :=
  nth (n - 1) caps EmptyString.

End Regex.

(* ===================================================================== *)
(** * Python floats: binary64 *)
(* ===================================================================== *)

Module PyFloat.
Import PyStr.

Definition prec : Z := 53.
Definition emax : Z := 1024.

Abbreviation float := spec_float.

Definition fzero : float := S754_zero false.
Definition fnan : float := S754_nan.
Definition finf (neg : bool) : float := S754_infinity neg.

(** [x - y] *)
Definition fsub (x y : float) : float := SFsub prec emax x y.

(** The mantissa of a finite value as a signed integer at exponent [ez],
    for [ez] not above the exponent of the value. *)
Definition aligned (ez : Z) (x : float) : Z :=
  match x with
  | S754_finite s m e => cond_Zopp s (Zpos (fst (shl_align m e ez)))
  | _ => 0
  end.

Definition exponent_or (d : Z) (x : float) : Z :=
  match x with
  | S754_finite _ _ e => e
  | _ => d
  end.

(** The comparison of two floats by value; [None] when one is a NaN. *)
Definition fcompare (x y : float) : option comparison :=
  match x, y with
  | S754_nan, _ | _, S754_nan => None
  | S754_infinity s1, S754_infinity s2 =>
      Some match s1, s2 with
           | true, true | false, false => Eq
           | true, false => Lt
           | false, true => Gt
           end
  | S754_infinity s, _ => Some (if s then Lt else Gt)
  | _, S754_infinity s => Some (if s then Gt else Lt)
  | _, _ =>
      let ez := Z.min (exponent_or (exponent_or 0 y) x)
                      (exponent_or (exponent_or 0 x) y) in
      Some (Z.compare (aligned ez x) (aligned ez y))
  end.

(** [x < y], [x > y], [x <= y], [x >= y] *)
Definition fltb (x y : float) : bool :=
  match fcompare x y with Some Lt => true | _ => false end.
Definition fgtb (x y : float) : bool :=
  match fcompare x y with Some Gt => true | _ => false end.
Definition fleb (x y : float) : bool :=
  match fcompare x y with Some (Lt | Eq) => true | _ => false end.
Definition fgeb (x y : float) : bool :=
  match fcompare x y with Some (Gt | Eq) => true | _ => false end.

Definition is_nan (x : float) : bool :=
  match x with S754_nan => true | _ => false end.

Definition is_finite (x : float) : bool :=
  match x with S754_zero _ | S754_finite _ _ _ => true | _ => false end.

(** [max(l)] and [min(l)]: the first element is kept until a later one
    compares strictly greater (smaller). An empty list raises
    [ValueError]. *)
Fixpoint max_go (cur : float) (l : list float) : float :=
  match l with
  | [] => cur
  | x :: l' => max_go (if fgtb x cur then x else cur) l'
  end.

Fixpoint min_go (cur : float) (l : list float) : float :=
  match l with
  | [] => cur
  | x :: l' => min_go (if fltb x cur then x else cur) l'
  end.

Definition py_max (l : list float) : option float :=
  match l with [] => None | x :: l' => Some (max_go x l') end.

Definition py_min (l : list float) : option float :=
  match l with [] => None | x :: l' => Some (min_go x l') end.

(** ** [float(s)] *)

(** The value [d * 10 ^ e10], rounded to nearest, ties to even. *)
Definition of_decimal (neg : bool) (d : N) (e10 : Z) : float :=
  match d with
  | N0 => S754_zero neg
  | Npos m =>
      if (0 <=? e10)%Z then
        binary_round prec emax neg (m * Z.to_pos (10 ^ e10)) 0
      else
        let '(q, e, l) :=
          SFdiv_core_binary prec emax (Zpos m) 0 (10 ^ (- e10)) 0 in
        binary_round_aux prec emax neg q e l
  end.

(** Underscores may only stand between two digits. *)
Fixpoint underscores_ok (prev : option ascii) (s : string) : bool :=
  match s with
  | EmptyString =>
      match prev with
      | Some p => negb (chr_eqb p "_"%char)
      | None => true
      end
  | String c s' =>
      let prev_digit := match prev with Some p => is_digit p | None => false end in
      let prev_under :=
        match prev with Some p => chr_eqb p "_"%char | None => false end in
      if chr_eqb c "_"%char
      then prev_digit && underscores_ok (Some c) s'
      else (negb prev_under || is_digit c) && underscores_ok (Some c) s'
  end.

Fixpoint remove_underscores (s : string) : string :=
  match s with
  | EmptyString => EmptyString
  | String c s' =>
      if chr_eqb c "_"%char then remove_underscores s'
      else String c (remove_underscores s')
  end.

(** A run of digits at the head of [s]: their value continued from
    [acc], how many there are, and the text after them. *)
Fixpoint digits_go (acc : N) (n : nat) (s : string) : N * nat * string :=
  match s with
  | String c s' =>
      if is_digit c
      then digits_go (10 * acc + (code c - 48))%N (S n) s'
      else (acc, n, s)
  | EmptyString => (acc, n, s)
  end.

Definition take_sign (s : string) : bool * string :=
  match s with
  | String c s' =>
      if chr_eqb c "-"%char then (true, s')
      else if chr_eqb c "+"%char then (false, s')
      else (false, s)
  | EmptyString => (false, s)
  end.

(** The optional exponent part; [None] when an [e] is followed by no
    digits or by other text. *)
Definition parse_exponent (s : string) : option Z :=
  match s with
  | EmptyString => Some 0%Z
  | String c s' =>
      if chr_eqb (lower_chr c) "e"%char then
        let '(neg, s1) := take_sign s' in
        match digits_go 0 0 s1 with
        | (v, S _, EmptyString) => Some (cond_Zopp neg (Z.of_N v))
        | _ => None
        end
      else None
  end.

Definition parse_number (neg : bool) (s : string) : option float :=
  let '(ip, ni, s1) := digits_go 0 0 s in
  let '(m, nf, s2) :=
    match s1 with
    | String c s1' =>
        if chr_eqb c "."%char then digits_go ip 0 s1' else (ip, O, s1)
    | EmptyString => (ip, O, s1)
    end in
  match (ni + nf)%nat with
  | O => None
  | S _ =>
      match parse_exponent s2 with
      | Some e => Some (of_decimal neg m (e - Z.of_nat nf))
      | None => None
      end
  end.

Definition string_eqb (a b : string) : bool := String.eqb a b.

(** [float(s)] for a string [s]; [None] stands for [ValueError]. *)
Definition py_float (s : string) : option float :=
  let s0 := strip s in
  if negb (underscores_ok None s0) then None
  else
    let '(neg, body) := take_sign (remove_underscores s0) in
    let low := lower body in
    if string_eqb low "inf" || string_eqb low "infinity"
    then Some (finf neg)
    else if string_eqb low "nan" then Some fnan
    else parse_number neg body.

(** [repr(s)] of a string, for the text of a [ValueError]. *)
Definition hex_digit (n : N) : ascii :=
  if (n <? 10)%N then ascii_of_N (48 + n) else ascii_of_N (87 + n).

Fixpoint repr_body (q : ascii) (s : string) : string :=
  match s with
  | EmptyString => EmptyString
  | String c s' =>
      let rest := repr_body q s' in
      let bs : ascii := ascii_of_N 92 in
      if chr_eqb c q || chr_eqb c bs then String bs (String c rest)
      else if chr_eqb c tab then String bs (String "t"%char rest)
      else if chr_eqb c newline then String bs (String "n"%char rest)
      else if (code c =? 13)%N then String bs (String "r"%char rest)
      else if (code c <? 32)%N || (code c =? 127)%N
      then String bs (String "x"%char
             (String (hex_digit (code c / 16)) (String (hex_digit (code c mod 16)) rest)))
      else String c rest
  end.

Definition has_chr (c : ascii) (s : string) : bool :=
  negb (all_chars (fun x => negb (chr_eqb x c)) s).

Definition repr (s : string) : string :=
  let sq : ascii := ascii_of_N 39 in
  let dq : ascii := ascii_of_N 34 in
  let q := if has_chr sq s && negb (has_chr dq s) then dq else sq in
  String q (repr_body q s +:+ String q EmptyString).

End PyFloat.

(* ===================================================================== *)
(** * The environment: log records, exceptions, the file system *)
(* ===================================================================== *)

Module Env.

(** The levels of [logging] in increasing severity. *)
Inductive level : Type := DEBUG | INFO | WARNING | ERROR.

Record log_entry : Type := Log { lvl : level; msg : string }.

Definition info (m : string) : log_entry := Log INFO m.
Definition warning (m : string) : log_entry := Log WARNING m.
Definition error (m : string) : log_entry := Log ERROR m.

(** The exceptions the modelled code meets; each carries [str(e)]. *)
Inductive exn : Type :=
| OSError (text : string)
| ValueError (text : string)
| IndexError (text : string)
| KeyError (text : string)
| TypeError (text : string)
| UnboundLocalError (text : string).

Definition exn_str (e : exn) : string :=
  match e with
  | OSError t | ValueError t | IndexError t | KeyError t | TypeError t
  | UnboundLocalError t => t
  end.

(** What the code observes of the file system. [fs_open p] is the text
    that opening and reading [p] yields, or the text of the exception
    that doing so raises. [fs_iterdir d] lists a directory as names
    flagged as directories or not, or gives the text of the exception
    raised, [fs_glob d suffix] the names in [d] that end in [suffix]. *)
Record filesystem : Type := {
  fs_exists : string -> bool;
  fs_open : string -> string + string;
  fs_iterdir : string -> list (string * bool) + string;
  fs_glob : string -> string -> list string
}.

(** The truth value of a list. *)
Definition nonempty {A : Type} (l : list A) : bool :=
  match l with [] => false | _ :: _ => true end.

(** [dir / name] for a relative [name]. *)
Definition path_join (dir name : string) : string := dir +:+ "/" +:+ name.

(** [float(s)] with its exception. *)
Definition float_of (s : string) : PyFloat.float + exn :=
  match PyFloat.py_float s with
  | Some f => inl f
  | None =>
      inr (ValueError ("could not convert string to float: " +:+ PyFloat.repr s))
  end.

End Env.

(* ===================================================================== *)
(** * [analysis/preprocessing.py] *)
(* ===================================================================== *)

(** The dictionary that [parse_psychopy_logs] fills. The keys
    [stimulus_timings] and [keypresses] are absent until first used. *)
Module LogData.
Import PyFloat.

Record trial_info : Type := {
  trial_timestamp : float;
  trial_index : option Z;
  trial_rep : option Z;
  image_file : option string;
  stimulus_type : option string
}.

Record stimulus_timing : Type := { stimulus : string; onset : float }.

Record keypress : Type := { key : string; timestamp : float }.

Record t : Type := {
  file_path : string;
  participant_id : option string;
  condition : option string;
  trials : list trial_info;
  timing_info : list (string * float);
  scan_start : option float;
  scan_end : option float;
  stimulus_timings : option (list stimulus_timing);
  keypresses : option (list keypress)
}.

End LogData.

(** The dictionary that [parse_condition_files] fills. *)
Module CondData.
Import PyFloat.

Record t : Type := {
  file_path : string;
  participant_id : option string;
  condition_type : option string;
  stimulus_type : option string;
  timing_points : list float;
  duration : option float
}.

End CondData.

Module Preprocessing.
Import PyStr PyFloat Regex Env.

(** ** Helper methods on file names *)

(** [r'S(\d+)'], [r'^(\d+)_'] and [r'(\w+)_(\d+)_'] *)
Definition re_S_digits : regex := Seq (Lit "S") (Group (Plus is_digit)).
Definition re_leading_digits : regex :=
  Seq Bol (Seq (Group (Plus is_digit)) (Lit "_")).
Definition re_name_digits : regex :=
  Seq (Group (Plus is_word))
    (Seq (Lit "_") (Seq (Group (Plus is_digit)) (Lit "_"))).

Definition _extract_participant_id (filename : string) : string :=
  match re_search re_S_digits filename with
  | Some m => "S" +:+ zfill 2 (group 1 m)
  | None =>
      match re_search re_leading_digits filename with
      | Some m => "S" +:+ zfill 2 (group 1 m)
      | None =>
          match re_search re_name_digits filename with
          | Some m => "S" +:+ zfill 2 (group 2 m)
          | None => "Unknown"
          end
      end
  end.

Definition _extract_condition (filename : string) : string :=
  let filename_lower := lower filename in
  if contains "passive" filename_lower || contains "pv" filename_lower
  then "passive_viewing"
  else if contains "active" filename_lower || contains "grasp" filename_lower
  then "active_grasp"
  else if contains "clench" filename_lower
  then "clench"
  else if contains "imagined" filename_lower || contains "ig" filename_lower
  then "imagined_grasp"
  else "unknown".

(** [r'S\d+_(\w+)_(\w+)\.txt'] *)
Definition re_condition_filename : regex :=
  Seq (Lit "S") (Seq (Plus is_digit) (Seq (Lit "_")
    (Seq (Group (Plus is_word)) (Seq (Lit "_")
      (Seq (Group (Plus is_word)) (Lit ".txt")))))).

Definition _parse_condition_filename (filename : string) : string * string :=
  match re_match re_condition_filename filename with
  | Some m => (group 1 m, group 2 m)
  | None => ("unknown", "unknown")
  end.

(** ** [parse_psychopy_logs] *)

(** The state of the loop over the lines: the dictionary being filled,
    the flag [scan_started] and the log written so far. *)
Record pstate : Type := {
  pdata : LogData.t;
  scan_started : bool;
  plog : list log_entry
}.

(** A statement: the state it leaves, and the exception it raised if
    any. *)
Definition stmt : Type := pstate -> pstate * option exn.

Definition skip : stmt := fun st => (st, None).

Definition then_ (a b : stmt) : stmt :=
  fun st => match a st with
            | (st', None) => b st'
            | (st', Some e) => (st', Some e)
            end.

Infix ">->" := then_ (at level 62, right associativity).

Definition when (c : pstate -> bool) (a : stmt) : stmt :=
  fun st => if c st then a st else (st, None).

Definition with_float (s : string) (k : float -> stmt) : stmt :=
  fun st => match float_of s with
            | inl f => k f st
            | inr e => (st, Some e)
            end.

Definition modify (f : LogData.t -> LogData.t) : stmt :=
  fun st => ({| pdata := f (pdata st); scan_started := scan_started st;
                plog := plog st |}, None).

Definition set_started : stmt :=
  fun st => ({| pdata := pdata st; scan_started := true; plog := plog st |},
             None).

Definition emit (e : log_entry) : stmt :=
  fun st => ({| pdata := pdata st; scan_started := scan_started st;
                plog := plog st ++ [e] |}, None).

Definition set_ids (pid cond : string) (d : LogData.t) : LogData.t :=
  {| LogData.file_path := LogData.file_path d;
     LogData.participant_id := Some pid;
     LogData.condition := Some cond;
     LogData.trials := LogData.trials d;
     LogData.timing_info := LogData.timing_info d;
     LogData.scan_start := LogData.scan_start d;
     LogData.scan_end := LogData.scan_end d;
     LogData.stimulus_timings := LogData.stimulus_timings d;
     LogData.keypresses := LogData.keypresses d |}.

Definition set_scan_start (f : float) (d : LogData.t) : LogData.t :=
  {| LogData.file_path := LogData.file_path d;
     LogData.participant_id := LogData.participant_id d;
     LogData.condition := LogData.condition d;
     LogData.trials := LogData.trials d;
     LogData.timing_info := LogData.timing_info d;
     LogData.scan_start := Some f;
     LogData.scan_end := LogData.scan_end d;
     LogData.stimulus_timings := LogData.stimulus_timings d;
     LogData.keypresses := LogData.keypresses d |}.

Definition set_scan_end (f : float) (d : LogData.t) : LogData.t :=
  {| LogData.file_path := LogData.file_path d;
     LogData.participant_id := LogData.participant_id d;
     LogData.condition := LogData.condition d;
     LogData.trials := LogData.trials d;
     LogData.timing_info := LogData.timing_info d;
     LogData.scan_start := LogData.scan_start d;
     LogData.scan_end := Some f;
     LogData.stimulus_timings := LogData.stimulus_timings d;
     LogData.keypresses := LogData.keypresses d |}.

Definition set_trials (l : list LogData.trial_info) (d : LogData.t)
  : LogData.t :=
  {| LogData.file_path := LogData.file_path d;
     LogData.participant_id := LogData.participant_id d;
     LogData.condition := LogData.condition d;
     LogData.trials := l;
     LogData.timing_info := LogData.timing_info d;
     LogData.scan_start := LogData.scan_start d;
     LogData.scan_end := LogData.scan_end d;
     LogData.stimulus_timings := LogData.stimulus_timings d;
     LogData.keypresses := LogData.keypresses d |}.

Definition set_stimulus_timings (l : list LogData.stimulus_timing)
  (d : LogData.t) : LogData.t :=
  {| LogData.file_path := LogData.file_path d;
     LogData.participant_id := LogData.participant_id d;
     LogData.condition := LogData.condition d;
     LogData.trials := LogData.trials d;
     LogData.timing_info := LogData.timing_info d;
     LogData.scan_start := LogData.scan_start d;
     LogData.scan_end := LogData.scan_end d;
     LogData.stimulus_timings := Some l;
     LogData.keypresses := LogData.keypresses d |}.

Definition set_keypresses (l : list LogData.keypress) (d : LogData.t)
  : LogData.t :=
  {| LogData.file_path := LogData.file_path d;
     LogData.participant_id := LogData.participant_id d;
     LogData.condition := LogData.condition d;
     LogData.trials := LogData.trials d;
     LogData.timing_info := LogData.timing_info d;
     LogData.scan_start := LogData.scan_start d;
     LogData.scan_end := LogData.scan_end d;
     LogData.stimulus_timings := LogData.stimulus_timings d;
     LogData.keypresses := Some l |}.

(** [r'rep=(\d+)'], [r'index=(\d+)'], [r"imagefile', '([^']+)'"] and
    [r"type', '([^']+)'"] *)
Definition not_quote (c : ascii) : bool := negb (chr_eqb c "'"%char).
Definition re_rep : regex := Seq (Lit "rep=") (Group (Plus is_digit)).
Definition re_index : regex := Seq (Lit "index=") (Group (Plus is_digit)).
Definition re_imagefile : regex :=
  Seq (Lit "imagefile', '") (Seq (Group (Plus not_quote)) (Lit "'")).
Definition re_type : regex :=
  Seq (Lit "type', '") (Seq (Group (Plus not_quote)) (Lit "'")).

Definition _parse_trial_line (content timestamp : string)
  : LogData.trial_info + exn :=
  match float_of timestamp with
  | inr e => inr e
  | inl f =>
      let rep_match := re_search re_rep content in
      let index_match := re_search re_index content in
      let image_match := re_search re_imagefile content in
      let type_match := re_search re_type content in
      inl {| LogData.trial_timestamp := f;
             LogData.trial_index :=
               (fun m => int_of_digits (group 1 m)) <$> index_match;
             LogData.trial_rep :=
               (fun m => int_of_digits (group 1 m)) <$> rep_match;
             LogData.image_file := group 1 <$> image_match;
             LogData.stimulus_type := group 1 <$> type_match |}
  end.

(** [r'(\w+): autoDraw = True'] *)
Definition re_autodraw : regex :=
  Seq (Group (Plus is_word)) (Lit ": autoDraw = True").

(** The key [stimulus_timings] is created before [float(timestamp)] is
    evaluated for the entry to append. *)
Definition _parse_stimulus_presentation (content timestamp : string) : stmt :=
  match re_search re_autodraw content with
  | Some m =>
      let stimulus_name := group 1 m in
      modify (fun d =>
                match LogData.stimulus_timings d with
                | Some _ => d
                | None => set_stimulus_timings [] d
                end) >->
      with_float timestamp (fun f =>
        modify (fun d =>
          set_stimulus_timings
            (default [] (LogData.stimulus_timings d)
               ++ [{| LogData.stimulus := stimulus_name;
                      LogData.onset := f |}]) d))
  | None => skip
  end.

(** [r'Keypress: (\w+)'] *)
Definition re_keypress : regex := Seq (Lit "Keypress: ") (Group (Plus is_word)).

Definition _parse_keypress (content timestamp : string) : stmt :=
  match re_search re_keypress content with
  | Some m =>
      let key := group 1 m in
      modify (fun d =>
                match LogData.keypresses d with
                | Some _ => d
                | None => set_keypresses [] d
                end) >->
      with_float timestamp (fun f =>
        modify (fun d =>
          set_keypresses
            (default [] (LogData.keypresses d)
               ++ [{| LogData.key := key; LogData.timestamp := f |}]) d))
  | None => skip
  end.

(** The fields of a line that is neither blank nor without a tab:
    [(timestamp, log_level, content)]. *)
Definition line_fields (raw : string) : option (string * string * string) :=
  let line := strip raw in
  if string_eqb line "" then None
  else
    let parts := split_on tab line in
    if (length parts <? 2)%nat then None
    else
      let timestamp := nth 0 parts "" in
      let log_level := nth 1 parts "" in
      let content :=
        if (2 <? length parts)%nat
        then join (String tab "") (drop 2 parts) else "" in
      Some (timestamp, log_level, content).

(** The body of the loop over the lines. *)
Definition process_line (raw : string) : stmt :=
  match line_fields raw with
  | None => skip
  | Some (timestamp, _, content) =>
      when (fun _ => contains "start of scan" content)
        (with_float timestamp (fun f =>
           modify (set_scan_start f) >-> set_started >->
           emit (info ("Scan started at " +:+ timestamp +:+ "s")))) >->
      when (fun st =>
              contains "window1: mouseVisible = True" content
              && scan_started st)
        (with_float timestamp (fun f =>
           modify (set_scan_end f) >->
           emit (info ("Scan ended at " +:+ timestamp +:+ "s")))) >->
      when (fun st => scan_started st && contains "New trial" content)
        (fun st =>
           match _parse_trial_line content timestamp with
           | inl trial_info =>
               modify (fun d =>
                         set_trials (LogData.trials d ++ [trial_info]) d) st
           | inr e => (st, Some e)
           end) >->
      when (fun st => scan_started st && contains "autoDraw = True" content)
        (_parse_stimulus_presentation content timestamp) >->
      when (fun st => scan_started st && contains "Keypress:" content)
        (_parse_keypress content timestamp)
  end.

Fixpoint run_lines (lines : list string) : stmt :=
  match lines with
  | [] => skip
  | line :: rest => process_line line >-> run_lines rest
  end.

Definition initial_log_data (log_file_path : string) : LogData.t :=
  {| LogData.file_path := log_file_path;
     LogData.participant_id := None;
     LogData.condition := None;
     LogData.trials := [];
     LogData.timing_info := [];
     LogData.scan_start := None;
     LogData.scan_end := None;
     LogData.stimulus_timings := None;
     LogData.keypresses := None |}.

(** What stands inside [try:]. *)
Definition parse_psychopy_logs_body (fs : filesystem) (log_file_path : string)
  : stmt :=
  fun st =>
    match fs_open fs log_file_path with
    | inr text => (st, Some (OSError text))
    | inl text =>
        let lines := readlines text in
        let filename := basename log_file_path in
        (modify (set_ids (_extract_participant_id filename)
                         (_extract_condition filename)) >->
         run_lines lines >->
         (fun st' =>
            emit (info ("Parsed "
                        +:+ pretty (length (LogData.trials (pdata st')))
                        +:+ " trials from " +:+ log_file_path)) st')) st
    end.

(** The whole method: the handler returns the dictionary as the body
    left it. *)
Definition initial_pstate (log_file_path : string) : pstate :=
  {| pdata := initial_log_data log_file_path;
     scan_started := false;
     plog := [info ("Parsing PsychoPy log: " +:+ log_file_path)] |}.

Definition parse_psychopy_logs (fs : filesystem) (log_file_path : string)
  : LogData.t * list log_entry :=
  match parse_psychopy_logs_body fs log_file_path
          (initial_pstate log_file_path) with
  | (st, None) => (pdata st, plog st)
  | (st, Some e) =>
      (pdata st,
       plog st ++ [error ("Error parsing log file " +:+ log_file_path
                          +:+ ": " +:+ exn_str e)])
  end.

(** ** [parse_condition_files] *)

Definition initial_cond_data (condition_file_path : string) : CondData.t :=
  {| CondData.file_path := condition_file_path;
     CondData.participant_id := None;
     CondData.condition_type := None;
     CondData.stimulus_type := None;
     CondData.timing_points := [];
     CondData.duration := None |}.

Definition set_metadata (pid ctype stype : string) (d : CondData.t)
  : CondData.t :=
  {| CondData.file_path := CondData.file_path d;
     CondData.participant_id := Some pid;
     CondData.condition_type := Some ctype;
     CondData.stimulus_type := Some stype;
     CondData.timing_points := CondData.timing_points d;
     CondData.duration := CondData.duration d |}.

Definition set_timing_points (l : list float) (d : CondData.t) : CondData.t :=
  {| CondData.file_path := CondData.file_path d;
     CondData.participant_id := CondData.participant_id d;
     CondData.condition_type := CondData.condition_type d;
     CondData.stimulus_type := CondData.stimulus_type d;
     CondData.timing_points := l;
     CondData.duration := CondData.duration d |}.

Definition set_duration (f : float) (d : CondData.t) : CondData.t :=
  {| CondData.file_path := CondData.file_path d;
     CondData.participant_id := CondData.participant_id d;
     CondData.condition_type := CondData.condition_type d;
     CondData.stimulus_type := CondData.stimulus_type d;
     CondData.timing_points := CondData.timing_points d;
     CondData.duration := Some f |}.

(** The inner loop: a token whose part before the first colon does not
    convert is passed over. *)
Definition clean_point (point : string) : string :=
  hd "" (split_on ":"%char point).

Definition parse_timing_points (content : string) : list float :=
  omap (fun point => py_float (clean_point point)) (split_ws content).

(** What stands inside [try:]; the only statement that can raise with an
    exception that is not caught on the spot is the opening of the
    file. *)
Definition parse_condition_files_body (fs : filesystem)
  (condition_file_path : string) (d : CondData.t) : CondData.t * option exn :=
  let filename := basename condition_file_path in
  let '(ctype, stype) := _parse_condition_filename filename in
  let d1 := set_metadata (_extract_participant_id filename) ctype stype d in
  match fs_open fs condition_file_path with
  | inr text => (d1, Some (OSError text))
  | inl text =>
      let content := strip text in
      if negb (string_eqb content "") && negb (startswith "*" content) then
        let timing_points := parse_timing_points content in
        let d2 := set_timing_points timing_points d1 in
        if nonempty timing_points then
          match py_max timing_points, py_min timing_points with
          | Some hi, Some lo => (set_duration (fsub hi lo) d2, None)
          | _, _ => (d2, Some (ValueError "max() arg is an empty sequence"))
          end
        else (d2, None)
      else (d1, None)
  end.

Definition parse_condition_files (fs : filesystem)
  (condition_file_path : string) : CondData.t * list log_entry :=
  let log0 := [info ("Parsing condition file: " +:+ condition_file_path)] in
  match parse_condition_files_body fs condition_file_path
          (initial_cond_data condition_file_path) with
  | (d, None) =>
      (d, log0 ++ [info ("Parsed "
                         +:+ pretty (length (CondData.timing_points d))
                         +:+ " timing points from " +:+ condition_file_path)])
  | (d, Some e) =>
      (d, log0 ++ [error ("Error parsing condition file "
                          +:+ condition_file_path +:+ ": " +:+ exn_str e)])
  end.

(** ** Matching a log with a condition file *)

Definition condition_mapping : list (string * string) :=
  [("passive_viewing", "PV");
   ("active_grasp", "IG");
   ("clench", "clench");
   ("imagined_grasp", "IG")].

(** [d.get(k)] on a dictionary written as its items. *)
Fixpoint dict_get (d : list (string * string)) (k : string) : option string :=
  match d with
  | [] => None
  | (k', v) :: d' => if string_eqb k' k then Some v else dict_get d' k
  end.

Definition opt_string_eqb (a b : option string) : bool :=
  match a, b with
  | Some x, Some y => string_eqb x y
  | None, None => true
  | _, _ => false
  end.

Definition _match_log_condition (log_data : LogData.t) (cond_data : CondData.t)
  : bool :=
  if negb (opt_string_eqb (LogData.participant_id log_data)
                          (CondData.participant_id cond_data))
  then false
  else
    let log_condition_code :=
      match LogData.condition log_data with
      | Some c => default "" (dict_get condition_mapping c)
      | None => ""
      end in
    opt_string_eqb (Some log_condition_code) (CondData.condition_type cond_data).

(** ** Trial records *)

Inductive value : Type :=
| VNone
| VStr (s : string)
| VInt (n : Z)
| VFloat (f : float)
| VList (l : list float).

#[global] Instance float_eq_dec : EqDecision float.
Proof. solve_decision. Defined.

#[global] Instance value_eq_dec : EqDecision value.
Proof. solve_decision. Defined.

Definition of_opt_str (o : option string) : value :=
  match o with Some s => VStr s | None => VNone end.

Definition of_opt_float (o : option float) : value :=
  match o with Some f => VFloat f | None => VNone end.

(** A trial record is a dictionary from column names to values. *)
Abbreviation record := (gmap string value).

Definition trial_record (log_data : LogData.t) (cond_data : CondData.t)
  (i : nat) (trial : LogData.trial_info) : record :=
  let base : record :=
    <["condition_duration" := of_opt_float (CondData.duration cond_data)]>
    (<["timing_points" := VList (CondData.timing_points cond_data)]>
    (<["scan_end" := of_opt_float (LogData.scan_end log_data)]>
    (<["scan_start" := of_opt_float (LogData.scan_start log_data)]>
    (<["image_file" := of_opt_str (LogData.image_file trial)]>
    (<["trial_timestamp" := VFloat (LogData.trial_timestamp trial)]>
    (<["trial_number" := VInt (Z.of_nat i + 1)]>
    (<["stimulus_type" := of_opt_str (CondData.stimulus_type cond_data)]>
    (<["condition" := of_opt_str (LogData.condition log_data)]>
    (<["participant_id" := of_opt_str (LogData.participant_id log_data)]>
     ∅))))))))) in
  match LogData.stimulus_timings log_data with
  | Some timings =>
      match timings !! i with
      | Some stim_timing =>
          <["stimulus_name" := VStr (LogData.stimulus stim_timing)]>
          (<["stimulus_onset" := VFloat (LogData.onset stim_timing)]> base)
      | None => base
      end
  | None => base
  end.

Definition _combine_log_condition_data (log_data : LogData.t)
  (cond_data : CondData.t) : list record :=
  imap (trial_record log_data cond_data) (LogData.trials log_data).

(** ** The three runs of participant S01 *)

Module RunInfo.
Record t : Type := {
  log_file : string;
  condition : string;
  run_number : Z;
  description : string
}.
End RunInfo.

Definition s01_runs : list RunInfo.t :=
  [ {| RunInfo.log_file :=
         "S01/experimental_runs/run01_passive_viewing/S01_run01_passive_viewing_2020_Mar_11_1324.log";
       RunInfo.condition := "passive_viewing";
       RunInfo.run_number := 1;
       RunInfo.description := "Passive Viewing Task" |};
    {| RunInfo.log_file :=
         "S01/experimental_runs/run02_imagined_grasp/S01_run02_imagined_grasp_2020_Mar_11_1335.log";
       RunInfo.condition := "imagined_grasp";
       RunInfo.run_number := 2;
       RunInfo.description := "Imagined Grasp Task" |};
    {| RunInfo.log_file :=
         "S01/experimental_runs/run03_clench/S01_run03_clench_2020_Mar_11_1350.log";
       RunInfo.condition := "clench";
       RunInfo.run_number := 3;
       RunInfo.description := "Clench Localizer Task" |} ].

Section WithFiles.

(** The file system, and [str(self.raw_data_path)]. *)
Variable fs : filesystem.
Variable raw_data_path : string.

Definition s01_patterns (condition : string) : option (list string) :=
  if string_eqb condition "passive_viewing" then
    Some ["S01_PV_tool.txt"; "S01_PV_Shape.txt"; "S01_PV_SCRtool.txt";
          "S01_PV_SCRshape.txt"]
  else if string_eqb condition "imagined_grasp" then
    Some ["S01_IG_tool.txt"; "S01_IG_shape.txt"; "S01_IG_SCRtool.txt";
          "S01_IG_SCRshape.txt"]
  else if string_eqb condition "clench" then
    Some ["S01_clench.txt"]
  else None.

Definition s01_condition_dir : string :=
  path_join (path_join raw_data_path "S01") "condition_files".

(** The loop over the patterns: the files found, and the log. *)
Fixpoint collect_condition_files (patterns : list string)
  : list string * list log_entry :=
  match patterns with
  | [] => ([], [])
  | pattern :: rest =>
      let file_path := path_join s01_condition_dir pattern in
      let '(files, log) := collect_condition_files rest in
      if fs_exists fs file_path
      then (file_path :: files, log)
      else (files,
            warning ("Condition file not found: " +:+ file_path) :: log)
  end.

Definition _get_s01_condition_files (condition : string)
  : list string * list log_entry :=
  match s01_patterns condition with
  | Some patterns => collect_condition_files patterns
  | None => ([], [warning ("Unknown condition: " +:+ condition)])
  end.

(** The four assignments made to every trial of a run. *)
Definition add_run_information (run_info : RunInfo.t) (trial : record)
  : record :=
  <["condition" := VStr (RunInfo.condition run_info)]>
  (<["participant_id" := VStr "S01"]>
  (<["run_description" := VStr (RunInfo.description run_info)]>
  (<["run_number" := VInt (RunInfo.run_number run_info)]> trial))).

(** The state of the loops of [_process_s01_complete_design]: the list
    [all_trials], the local variable [trials], which is unbound until the
    inner loop has run once, and the log. *)
Record s01_state : Type := {
  all_trials : list record;
  trials_var : option (list record);
  s01_log : list log_entry
}.

(** The inner loop, over the condition files of one run. *)
Fixpoint process_condition_files (log_data : LogData.t)
  (run_info : RunInfo.t) (condition_files : list string) (st : s01_state)
  : s01_state :=
  match condition_files with
  | [] => st
  | condition_file :: rest =>
      let '(cond_data, log) := parse_condition_files fs condition_file in
      let trials :=
        add_run_information run_info
          <$> _combine_log_condition_data log_data cond_data in
      process_condition_files log_data run_info rest
        {| all_trials := all_trials st ++ trials;
           trials_var := Some trials;
           s01_log := s01_log st ++ log |}
  end.

(** One turn of the outer loop. The line logged after the inner loop
    reads [trials], and raises when no value was ever assigned to it. *)
Definition process_run (run_info : RunInfo.t) (st : s01_state)
  : s01_state * option exn :=
  let log_path := path_join raw_data_path (RunInfo.log_file run_info) in
  if fs_exists fs log_path then
    let '(log_data, log1) := parse_psychopy_logs fs log_path in
    let '(condition_files, log2) :=
      _get_s01_condition_files (RunInfo.condition run_info) in
    let st1 :=
      process_condition_files log_data run_info condition_files
        {| all_trials := all_trials st;
           trials_var := trials_var st;
           s01_log :=
             s01_log st
             ++ [info ("Processing " +:+ RunInfo.description run_info
                       +:+ " (Run " +:+ pretty (RunInfo.run_number run_info)
                       +:+ ")")]
             ++ log1 ++ log2 |} in
    match trials_var st1 with
    | Some trials =>
        ({| all_trials := all_trials st1;
            trials_var := trials_var st1;
            s01_log :=
              s01_log st1
              ++ [info ("✓ Processed " +:+ pretty (length trials)
                        +:+ " trials for " +:+ RunInfo.description run_info)] |},
         None)
    | None =>
        (st1,
         Some (UnboundLocalError
                 "cannot access local variable 'trials' where it is not associated with a value"))
    end
  else
    ({| all_trials := all_trials st;
        trials_var := trials_var st;
        s01_log := s01_log st
                   ++ [warning ("Log file not found: " +:+ log_path)] |},
     None).

Fixpoint process_runs (runs : list RunInfo.t) (st : s01_state)
  : s01_state * option exn :=
  match runs with
  | [] => (st, None)
  | run_info :: rest =>
      match process_run run_info st with
      | (st', None) => process_runs rest st'
      | (st', Some e) => (st', Some e)
      end
  end.

(** The method has no handler: an exception leaves it, with the log
    written so far. *)
Definition _process_s01_complete_design
  : (list record + exn) * list log_entry :=
  let st0 :=
    {| all_trials := [];
       trials_var := None;
       s01_log :=
         [info "Processing S01 complete experimental design (3 runs)"] |} in
  match process_runs s01_runs st0 with
  | (st, None) =>
      (inl (all_trials st),
       s01_log st
       ++ [info ("S01 processing complete: "
                 +:+ pretty (length (all_trials st)) +:+ " total trials")])
  | (st, Some e) => (inr e, s01_log st)
  end.

(** ** Listing participants and their files *)

Fixpoint insert_sorted (x : string) (l : list string) : list string :=
  match l with
  | [] => [x]
  | y :: l' => if String.leb x y then x :: l else y :: insert_sorted x l'
  end.

(** [sorted(list(set(l)))] *)
Definition sorted_set (l : list string) : list string :=
  foldr insert_sorted [] (remove_dups l).

Definition _get_all_participants : list string + exn :=
  match fs_iterdir fs raw_data_path with
  | inl items =>
      inl (sorted_set
             (fst <$> filter (fun item => snd item && startswith "S" (fst item))
                        items))
  | inr text => inr (OSError text)
  end.

Definition _get_participant_log_files (participant_id : string) : list string :=
  let participant_dir := path_join raw_data_path participant_id in
  if fs_exists fs participant_dir
  then fs_glob fs participant_dir "*.log"
  else [].

Definition _get_participant_condition_files (participant_id : string)
  : list string :=
  let participant_dir := path_join raw_data_path participant_id in
  if fs_exists fs participant_dir then
    let condition_dir := path_join participant_dir "Condition Files" in
    if fs_exists fs condition_dir
    then fs_glob fs condition_dir "*.txt"
    else []
  else [].

(** ** [create_trial_dataframe]: collecting the trials *)

(** The inner loop of the standard path: one log against every condition
    file. The condition file is parsed again for every log. *)
Fixpoint match_condition_files (log_data : LogData.t)
  (condition_files : list string) : list record * list log_entry :=
  match condition_files with
  | [] => ([], [])
  | condition_file :: rest =>
      let '(cond_data, log) := parse_condition_files fs condition_file in
      let trials :=
        if _match_log_condition log_data cond_data
        then _combine_log_condition_data log_data cond_data
        else [] in
      let '(more, log') := match_condition_files log_data rest in
      (trials ++ more, log ++ log')
  end.

Fixpoint process_log_files (log_files condition_files : list string)
  : list record * list log_entry :=
  match log_files with
  | [] => ([], [])
  | log_file :: rest =>
      let '(log_data, log1) := parse_psychopy_logs fs log_file in
      let '(trials, log2) := match_condition_files log_data condition_files in
      let '(more, log3) := process_log_files rest condition_files in
      (trials ++ more, log1 ++ log2 ++ log3)
  end.

(** One turn of the loop over the participants. *)
Definition process_participant (pid : string)
  : (list record + exn) * list log_entry :=
  let log0 := [info ("Processing participant: " +:+ pid)] in
  if string_eqb pid "S01" then
    let '(r, log) := _process_s01_complete_design in
    (r, log0 ++ log)
  else
    let '(trials, log) :=
      process_log_files (_get_participant_log_files pid)
                        (_get_participant_condition_files pid) in
    (inl trials, log0 ++ log).

Fixpoint process_participants (participants : list string)
  : (list record + exn) * list log_entry :=
  match participants with
  | [] => (inl [], [])
  | pid :: rest =>
      match process_participant pid with
      | (inr e, log) => (inr e, log)
      | (inl trials, log) =>
          match process_participants rest with
          | (inr e, log') => (inr e, log ++ log')
          | (inl more, log') => (inl (trials ++ more), log ++ log')
          end
      end
  end.

(** The list [all_trials] from which the data frame is built. An empty
    or absent argument selects every participant. *)
Definition collect_all_trials (participant_id : option string)
  : (list record + exn) * list log_entry :=
  let log0 := [info "Creating comprehensive trial dataframe"] in
  let participants :=
    match participant_id with
    | Some p => if string_eqb p "" then _get_all_participants else inl [p]
    | None => _get_all_participants
    end in
  match participants with
  | inr e => (inr e, log0)
  | inl ps =>
      let '(r, log) := process_participants ps in
      (r, log0 ++ log)
  end.

End WithFiles.

(** ** The data frame *)

(** A [pandas.DataFrame] built from a list of dictionaries: the set of its
    columns (their order is not modelled) and its rows. A cell whose key
    is absent from the row is missing. *)
Module DataFrame.
Record t : Type := {
  columns : gset string;
  rows : list record
}.
End DataFrame.

(** [pd.DataFrame(records)] *)
Definition make_dataframe (records : list record) : DataFrame.t :=
  {| DataFrame.columns := ⋃ (dom <$> records);
     DataFrame.rows := records |}.

(** [df.empty] *)
Definition df_empty (df : DataFrame.t) : bool :=
  negb (nonempty (DataFrame.rows df))
  || bool_decide (DataFrame.columns df = ∅).

Definition has_column (df : DataFrame.t) (c : string) : bool :=
  bool_decide (c ∈ DataFrame.columns df).

(** The missing value of pandas. *)
Definition missing : value := VFloat fnan.

Definition cell (r : record) (c : string) : value :=
  default missing (r !! c).

(** [df[c] = ...], computed row by row. *)
Definition assign (c : string) (f : record -> value) (df : DataFrame.t)
  : DataFrame.t :=
  {| DataFrame.columns := {[c]} ∪ DataFrame.columns df;
     DataFrame.rows := (fun r => <[c := f r]> r) <$> DataFrame.rows df |}.

(** The difference of two cells of float columns; a missing or [None]
    operand gives a missing result. *)
Definition cell_sub (a b : value) : value :=
  match a, b with
  | VFloat x, VFloat y => VFloat (fsub x y)
  | _, _ => missing
  end.

(** [a + '_' + b] on two cells of string columns. *)
Definition cell_join (a b : value) : value :=
  match a, b with
  | VStr x, VStr y => VStr (x +:+ "_" +:+ y)
  | _, _ => missing
  end.

Definition _add_derived_columns (df : DataFrame.t) : DataFrame.t :=
  if df_empty df then df
  else
    let df1 :=
      if has_column df "stimulus_onset" && has_column df "stimulus_offset"
      then assign "stimulus_duration"
             (fun r => cell_sub (cell r "stimulus_offset")
                                (cell r "stimulus_onset")) df
      else df in
    let df2 :=
      if has_column df1 "scan_start" && has_column df1 "stimulus_onset"
      then assign "relative_onset"
             (fun r => cell_sub (cell r "stimulus_onset")
                                (cell r "scan_start")) df1
      else df1 in
    if has_column df2 "condition" && has_column df2 "stimulus_type"
    then assign "condition_stimulus"
           (fun r => cell_join (cell r "condition") (cell r "stimulus_type"))
           df2
    else df2.

(** The order of [sort_values(['participant_id', 'trial_number'])] on
    the values these two columns hold, strings and integers; anything
    else sorts last. *)
Definition cell_compare (a b : value) : comparison :=
  match a, b with
  | VStr x, VStr y => String.compare x y
  | VInt x, VInt y => Z.compare x y
  | (VStr _ | VInt _), _ => Lt
  | _, (VStr _ | VInt _) => Gt
  | _, _ => Eq
  end.

Definition row_leb (r1 r2 : record) : bool :=
  match cell_compare (cell r1 "participant_id") (cell r2 "participant_id") with
  | Lt => true
  | Gt => false
  | Eq =>
      match cell_compare (cell r1 "trial_number") (cell r2 "trial_number") with
      | Gt => false
      | _ => true
      end
  end.

Fixpoint insert_row (r : record) (l : list record) : list record :=
  match l with
  | [] => [r]
  | r' :: l' => if row_leb r r' then r :: l else r' :: insert_row r l'
  end.

(** A stable sort of the rows. *)
Definition sort_values (df : DataFrame.t) : DataFrame.t :=
  {| DataFrame.columns := DataFrame.columns df;
     DataFrame.rows := foldr insert_row [] (DataFrame.rows df) |}.

Definition is_missing (v : value) : bool :=
  match v with
  | VNone => true
  | VFloat f => is_nan f
  | _ => false
  end.

(** [df[c].nunique()]: the number of distinct values of a column, the
    missing ones left out. *)
Definition nunique (df : DataFrame.t) (c : string) : nat :=
  length (remove_dups
            (omap (fun r => match r !! c with
                            | Some v => if is_missing v then None else Some v
                            | None => None
                            end) (DataFrame.rows df))).

(** [df.groupby(c).size().get(v, 0)]: the number of rows whose column
    [c] holds [v]. *)
Definition group_size (df : DataFrame.t) (c : string) (v : value) : nat :=
  length (List.filter (fun r => bool_decide (r !! c = Some v))
            (DataFrame.rows df)).

Definition create_trial_dataframe (fs : filesystem) (raw_data_path : string)
  (participant_id : option string)
  : (DataFrame.t + exn) * list log_entry :=
  match collect_all_trials fs raw_data_path participant_id with
  | (inr e, log) => (inr e, log)
  | (inl all_trials, log) =>
      let df := make_dataframe all_trials in
      if negb (df_empty df) then
        let df' := sort_values (_add_derived_columns df) in
        (inl df',
         log ++ [info ("Created dataframe with "
                       +:+ pretty (length (DataFrame.rows df'))
                       +:+ " trials across "
                       +:+ pretty (nunique df' "participant_id")
                       +:+ " participants")])
      else (inl df, log)
  end.

End Preprocessing.

(* ===================================================================== *)
(** * [analysis/preprocessing.py]: validation and the quality report *)
(* ===================================================================== *)

Module Quality.
Import PyStr PyFloat Env Preprocessing.

(** [abs(x)] and [x * y] *)
Definition fabs (x : float) : float := SFabs x.
Definition fmul (x y : float) : float := SFmul prec emax x y.

(** The float [3.0]. *)
Definition three : float := S754_finite false 3 0.

(** The float of a cell of a float column; a cell that holds no float is
    missing. *)
Definition cell_float (v : value) : float :=
  match v with VFloat f => f | _ => fnan end.

(** [len(df[mask])] for a mask computed row by row. *)
Definition count_rows (mask : record -> bool) (df : DataFrame.t) : nat :=
  length (List.filter mask (DataFrame.rows df)).

(** [df[c]] as the list of its cells. *)
Definition column (df : DataFrame.t) (c : string) : list value :=
  (fun r => cell r c) <$> DataFrame.rows df.

(** The dictionary that [validate_timing_consistency] returns, for a
    type [stats] of the dictionaries made of [describe()]. *)
Module Validation.
Record t (stats : Type) : Type := {
  total_trials : nat;
  timing_errors : list string;
  missing_data : list string;
  outliers : list string;
  summary_stats : list (string * stats)
}.
Arguments total_trials {stats} _.
Arguments timing_errors {stats} _.
Arguments missing_data {stats} _.
Arguments outliers {stats} _.
Arguments summary_stats {stats} _.
End Validation.

Section WithStatistics.

(** The statistics of pandas are not modelled: [describe] stands for
    [Series.describe()], with the four entries of its result that the
    code reads. *)
Variable stats : Type.
Variable describe : list value -> stats.
Variable stats_mean stats_std stats_min stats_max : stats -> float.

(** [f"{x:.3f}"], and [datetime.now().strftime('%Y-%m-%d %H:%M:%S')] *)
Variable format_3f : float -> string.
Variable now : string.

(** One entry of a list of issues: appended when the rows selected are
    not none. *)
Definition issue (n : nat) (what : string) : list string :=
  if (0 <? n)%nat then [pretty n +:+ what] else [].

Definition validate_timing_consistency (df : DataFrame.t)
  : Validation.t stats * list log_entry :=
  let log0 := [info "Validating timing consistency"] in
  let total := length (DataFrame.rows df) in
  if df_empty df then
    ({| Validation.total_trials := total;
        Validation.timing_errors := [];
        Validation.missing_data := [];
        Validation.outliers := [];
        Validation.summary_stats := [] |}, log0)
  else
    let missing_onset :=
      if has_column df "stimulus_onset"
      then issue (count_rows (fun r => is_missing (cell r "stimulus_onset")) df)
             " trials with missing stimulus onset"
      else [] in
    let missing_offset :=
      if has_column df "stimulus_offset"
      then issue (count_rows (fun r => is_missing (cell r "stimulus_offset")) df)
             " trials with missing stimulus offset"
      else [] in
    let '(summary, outliers) :=
      if has_column df "stimulus_duration" then
        let duration_stats := describe (column df "stimulus_duration") in
        let mean_duration := stats_mean duration_stats in
        let std_duration := stats_std duration_stats in
        ([("duration", duration_stats)],
         issue (count_rows
                  (fun r =>
                     fgtb (fabs (fsub (cell_float (cell r "stimulus_duration"))
                                   mean_duration))
                          (fmul three std_duration)) df)
           " trials with duration outliers")
      else ([], []) in
    let timing_errors :=
      if has_column df "stimulus_duration"
      then issue (count_rows
                    (fun r => fltb (cell_float (cell r "stimulus_duration"))
                                fzero) df)
             " trials with negative durations"
      else [] in
    ({| Validation.total_trials := total;
        Validation.timing_errors := timing_errors;
        Validation.missing_data := missing_onset ++ missing_offset;
        Validation.outliers := outliers;
        Validation.summary_stats := summary |},
     log0 ++ [info ("Validation complete: " +:+ pretty (length timing_errors)
                    +:+ " errors found")]).

(** [df[c].nunique() if not df.empty else 0]: indexing a column that
    the data frame does not have raises [KeyError]. *)
Definition nunique_or_zero (df : DataFrame.t) (c : string) : nat + exn :=
  if df_empty df then inl 0%nat
  else if has_column df c then inl (nunique df c)
  else inr (KeyError (repr c)).

(** A section of the issues: its entries under a title, or a line
    saying that there is none. *)
Definition issues_section (title none : string) (entries : list string)
  : list string :=
  if nonempty entries
  then title :: ((fun e => "  - " +:+ e) <$> entries)
  else [none].

Definition generate_data_quality_report (df : DataFrame.t)
  : (string + exn) * list log_entry :=
  let log0 := [info "Generating data quality report"] in
  match nunique_or_zero df "participant_id" with
  | inr e => (inr e, log0)
  | inl participants =>
  match nunique_or_zero df "condition" with
  | inr e => (inr e, log0)
  | inl conditions =>
  match nunique_or_zero df "stimulus_type" with
  | inr e => (inr e, log0)
  | inl stimulus_types =>
      let head :=
        [repeat_chr "=" 60;
         "fMRI Tool Representation Study - Data Quality Report";
         repeat_chr "=" 60;
         "Generated: " +:+ now;
         "";
         "BASIC STATISTICS";
         repeat_chr "-" 20;
         "Total trials: " +:+ pretty (length (DataFrame.rows df));
         "Participants: " +:+ pretty participants;
         "Conditions: " +:+ pretty conditions;
         "Stimulus types: " +:+ pretty stimulus_types;
         ""] in
      let timing :=
        if negb (df_empty df) && has_column df "stimulus_duration" then
          let duration_stats := describe (column df "stimulus_duration") in
          ["TIMING STATISTICS";
           repeat_chr "-" 20;
           "Mean duration: " +:+ format_3f (stats_mean duration_stats) +:+ "s";
           "Std duration: " +:+ format_3f (stats_std duration_stats) +:+ "s";
           "Min duration: " +:+ format_3f (stats_min duration_stats) +:+ "s";
           "Max duration: " +:+ format_3f (stats_max duration_stats) +:+ "s";
           ""]
        else [] in
      let '(validation, log1) := validate_timing_consistency df in
      let issues :=
        ["DATA QUALITY ISSUES"; repeat_chr "-" 20]
        ++ issues_section "Timing Errors:" "No timing errors detected"
             (Validation.timing_errors validation)
        ++ issues_section "Missing Data:" "No missing data detected"
             (Validation.missing_data validation)
        ++ issues_section "Outliers:" "No outliers detected"
             (Validation.outliers validation)
        ++ [""; repeat_chr "=" 60] in
      (inl (join (String newline "") (head ++ timing ++ issues)), log0 ++ log1)
  end end end.

End WithStatistics.

End Quality.

(* ===================================================================== *)
(** * [analysis/brain_image_processor.py] *)
(* ===================================================================== *)

Module BrainImages.
Import PyStr PyFloat Env.

(** A float literal of the source. *)
Definition lit (s : string) : float := default fnan (py_float s).

Record coord : Type := { x : Z; y : Z; z : Z }.

Record stat : Type := { threshold : float; p : float; q : float }.

(** The values under [mni_coords] and [stats] are either one dictionary
    or a list of dictionaries. *)
Inductive one_or_list (A : Type) : Type :=
| One (a : A)
| Many (l : list A).
Arguments One {A} a.
Arguments Many {A} l.

Module Info.
Record t : Type := {
  filename : string;
  condition : string;
  description : string;
  regions : list string;
  mni_coords : one_or_list coord;
  stats : one_or_list stat
}.
End Info.

(** The four values of [self.brain_image_mapping]. *)
Definition clench_info : Info.t :=
  {| Info.filename := "clench_afni.png";
     Info.condition := "Clench Localizer";
     Info.description := "Finger clenching task - M1 activation";
     Info.regions :=
       ["Primary Motor Cortex (M1)"; "Brodmann Area 4"; "Brodmann Area 6"];
     Info.mni_coords := One {| x := -40; y := 22; z := 62 |};
     Info.stats :=
       One {| threshold := lit "3.7037"; p := lit "2.3e-4";
              q := lit "0.0047" |} |}.

Definition imagined_grasp_info : Info.t :=
  {| Info.filename := "IGshape_tool_vs_PVshape_tool_GLT#0_Tstat.png";
     Info.condition := "Imagined Grasp (Tools + Shapes)";
     Info.description := "Imagined grasping task - combined tools and shapes";
     Info.regions :=
       ["Left superior frontal gyrus"; "Parietal lobe";
        "LOC (Lateral Occipital Complex)"];
     Info.mni_coords :=
       Many [ {| x := 24; y := -58; z := 22 |};
              {| x := 24; y := 50; z := 54 |};
              {| x := 24; y := 90; z := 24 |} ];
     Info.stats :=
       Many [ {| threshold := lit "3.5391"; p := lit "0.0016";
                 q := lit "0.0199" |};
              {| threshold := lit "3.5391"; p := lit "0.0016";
                 q := lit "0.0199" |};
              {| threshold := lit "3.1687"; p := lit "0.0016";
                 q := lit "0.0199" |} ] |}.

Definition passive_viewing_info : Info.t :=
  {| Info.filename := "results.png";
     Info.condition := "Passive Viewing: Tool vs Shape";
     Info.description := "Passive viewing contrast - tools vs shapes";
     Info.regions :=
       ["LOC; V1; V2; BA 18/17"; "Left Pre/Postcentral Gyrus; BA 3-5"];
     Info.mni_coords :=
       Many [ {| x := 22; y := 100; z := -2 |};
              {| x := 10; y := 44; z := 70 |} ];
     Info.stats :=
       Many [ {| threshold := lit "3.5802"; p := lit "3.7e-4";
                 q := lit "0.0111" |};
              {| threshold := lit "3.5802"; p := lit "3.7e-4";
                 q := lit "0.0111" |} ] |}.

Definition imagined_vs_passive_info : Info.t :=
  {| Info.filename := "Screen Shot 2020-04-21 at 4.01.26 AM.png";
     Info.condition := "Average Imagined Grasp vs Passive Viewing";
     Info.description := "Contrast between imagined grasp and passive viewing";
     Info.regions :=
       ["Left superior frontal gyrus"; "Brodmann Area 6";
        "Left superior parietal lobe"];
     Info.mni_coords :=
       Many [ {| x := 22; y := -54; z := 18 |};
              {| x := 22; y := 10; z := 68 |};
              {| x := 22; y := 48; z := 68 |} ];
     Info.stats :=
       Many [ {| threshold := lit "3.5391"; p := lit "4.4e-4";
                 q := lit "0.0533" |};
              {| threshold := lit "3.5391"; p := lit "4.4e-4";
                 q := lit "0.0533" |};
              {| threshold := lit "3.5391"; p := lit "4.4e-4";
                 q := lit "0.0533" |} ] |}.

(** [self.brain_image_mapping], in the order of the source. *)
Definition brain_image_mapping : list (string * Info.t) :=
  [ ("clench", clench_info);
    ("imagined_grasp", imagined_grasp_info);
    ("passive_viewing", passive_viewing_info);
    ("imagined_vs_passive", imagined_vs_passive_info) ].

(** An entry of [brain_data], for a type [image] of loaded images. *)
Module Data.
Record t (image : Type) : Type := {
  image_ : image;
  path : string;
  condition : string;
  description : string;
  regions : list string;
  mni_coords : one_or_list coord;
  stats : one_or_list stat;
  filename : string
}.
Arguments image_ {image} _.
Arguments path {image} _.
Arguments condition {image} _.
Arguments description {image} _.
Arguments regions {image} _.
Arguments mni_coords {image} _.
Arguments stats {image} _.
Arguments filename {image} _.
End Data.

(** A row of a statistical table. *)
Module Row.
Record t : Type := {
  region : string;
  mni_x : Z;
  mni_y : Z;
  mni_z : Z;
  threshold : float;
  p_value : float;
  q_value : float
}.
End Row.

Section WithImages.

(** The images of PIL, and [Image.open]: the image read from a path or
    the text of the exception raised. *)
Variable image : Type.
Variable image_open : string -> image + string.

Variable fs : filesystem.
Variable raw_data_path : string.

(** The loop of [load_brain_images] over the items of the mapping: the
    entries stored, in order of insertion, and the log. An image that
    exists but cannot be opened is logged as an error and passed over. *)
Fixpoint load_entries (items : list (string * Info.t))
  : list (string * Data.t image) * list log_entry :=
  match items with
  | [] => ([], [])
  | (condition, info_) :: rest =>
      let image_path := path_join raw_data_path (Info.filename info_) in
      let '(brain_data, log) := load_entries rest in
      if fs_exists fs image_path then
        match image_open image_path with
        | inl img =>
            ((condition,
              {| Data.image_ := img;
                 Data.path := image_path;
                 Data.condition := Info.condition info_;
                 Data.description := Info.description info_;
                 Data.regions := Info.regions info_;
                 Data.mni_coords := Info.mni_coords info_;
                 Data.stats := Info.stats info_;
                 Data.filename := Info.filename info_ |}) :: brain_data,
             info ("✓ Loaded " +:+ condition +:+ ": " +:+ Info.condition info_)
             :: log)
        | inr text =>
            (brain_data,
             error ("Error loading " +:+ Info.filename info_ +:+ ": " +:+ text)
             :: log)
        end
      else
        (brain_data,
         info ("Image not found (skipping): " +:+ image_path) :: log)
  end.

Definition load_brain_images : list (string * Data.t image) * list log_entry :=
  let '(brain_data, log) := load_entries brain_image_mapping in
  (brain_data,
   [info "Loading brain activation images..."] ++ log
   ++ [if nonempty brain_data
       then info ("Successfully loaded " +:+ pretty (length brain_data)
                  +:+ " brain images")
       else info "No brain images found - using demo mode with simulated data"]).

Definition make_row (region : string) (c : coord) (s : stat) : Row.t :=
  {| Row.region := region;
     Row.mni_x := x c; Row.mni_y := y c; Row.mni_z := z c;
     Row.threshold := threshold s; Row.p_value := p s; Row.q_value := q s |}.

(** [coords[i]] and [stats[i]] on a list. *)
Definition index {A : Type} (l : list A) (i : nat) : A + exn :=
  match l !! i with
  | Some a => inl a
  | None => inr (IndexError "list index out of range")
  end.

(** The loop over [enumerate(regions)] when [coords] is a list. Indexing
    a dictionary of statistics with a number raises [KeyError]. *)
Fixpoint rows_from (i : nat) (regions : list string) (coords : list coord)
  (stats : one_or_list stat) : list Row.t + exn :=
  match regions with
  | [] => inl []
  | region :: rest =>
      match index coords i with
      | inr e => inr e
      | inl c =>
          match stats with
          | One _ => inr (KeyError (pretty i))
          | Many l =>
              match index l i with
              | inr e => inr e
              | inl s =>
                  match rows_from (S i) rest coords stats with
                  | inl rows => inl (make_row region c s :: rows)
                  | inr e => inr e
                  end
              end
          end
      end
  end.

(** The table of one condition. *)
Definition table_of (data : Data.t image) : list Row.t + exn :=
  match Data.mni_coords data with
  | Many coords => rows_from 0 (Data.regions data) coords (Data.stats data)
  | One c =>
      match index (Data.regions data) 0 with
      | inr e => inr e
      | inl region =>
          match Data.stats data with
          | One s => inl [make_row region c s]
          | Many _ =>
              inr (TypeError "list indices must be integers or slices, not str")
          end
      end
  end.

Fixpoint tables_of (brain_data : list (string * Data.t image))
  : (list (string * list Row.t) + exn) * list log_entry :=
  match brain_data with
  | [] => (inl [], [])
  | (condition, data) :: rest =>
      match table_of data with
      | inr e => (inr e, [])
      | inl table_data =>
          let line :=
            info ("✓ Generated statistical table for " +:+ condition) in
          match tables_of rest with
          | (inl tables, log) => (inl ((condition, table_data) :: tables),
                                  line :: log)
          | (inr e, log) => (inr e, line :: log)
          end
      end
  end.

Definition generate_statistical_tables (brain_data : list (string * Data.t image))
  : (list (string * list Row.t) + exn) * list log_entry :=
  let '(r, log) := tables_of brain_data in
  (r, info "Generating statistical tables for brain activations..." :: log).

End WithImages.

End BrainImages.

(* ===================================================================== *)
(** * [analysis/brain_image_processor.py]: summary, export, and the whole *)
(* ===================================================================== *)

Module BrainProcessing.
Import PyStr PyFloat Env BrainImages.

(** [s.upper()] *)
Fixpoint upper (s : string) : string :=
  match s with
  | EmptyString => EmptyString
  | String c s' => String (upper_chr c) (upper s')
  end.

(** [f"({coords['x']}, {coords['y']}, {coords['z']})"] *)
Definition format_coord (c : coord) : string :=
  "(" +:+ pretty (x c) +:+ ", " +:+ pretty (y c) +:+ ", " +:+ pretty (z c)
  +:+ ")".

(** What [process_all_brain_data] returns. *)
Module Results.
Record t (image : Type) : Type := {
  brain_data : list (string * Data.t image);
  summary : string;
  exported_files : list (string * string);
  statistical_tables : list (string * list Row.t);
  total_images : nat
}.
Arguments brain_data {image} _.
Arguments summary {image} _.
Arguments exported_files {image} _.
Arguments statistical_tables {image} _.
Arguments total_images {image} _.
End Results.

Section WithImages.

Variable image : Type.
Variable image_open : string -> image + string.

(** [image.save(path, 'PNG')] and [path.mkdir(exist_ok=True)]: the text
    of the exception raised, if any. *)
Variable image_save : image -> string -> option string.
Variable mkdir : string -> option string.

Variable fs : filesystem.
(** [str(self.raw_data_path)] and [str(self.processed_data_path)] *)
Variable raw_data_path : string.
Variable processed_data_path : string.

(** The loop over [enumerate(data['mni_coords'])]: a line for each
    coordinate, named by the region of the same index. *)
Fixpoint coordinate_lines (i : nat) (regions : list string)
  (coords : list coord) : list string + exn :=
  match coords with
  | [] => inl []
  | c :: rest =>
      match index regions i with
      | inr e => inr e
      | inl region =>
          match coordinate_lines (S i) regions rest with
          | inl lines =>
              inl (("    " +:+ region +:+ ": " +:+ format_coord c) :: lines)
          | inr e => inr e
          end
      end
  end.

(** The lines of one condition. *)
Definition condition_lines (data : Data.t image) : list string + exn :=
  let head :=
    [upper (Data.condition data) +:+ ":";
     "  Description: " +:+ Data.description data;
     "  Brain Regions: " +:+ join ", " (Data.regions data)] in
  match Data.mni_coords data with
  | Many coords =>
      match coordinate_lines 0 (Data.regions data) coords with
      | inl lines => inl (head ++ ["  MNI Coordinates:"] ++ lines ++ [""])
      | inr e => inr e
      end
  | One c => inl (head ++ ["  MNI Coordinates: " +:+ format_coord c; ""])
  end.

Fixpoint summary_lines (brain_data : list (string * Data.t image))
  : list string + exn :=
  match brain_data with
  | [] => inl []
  | (_, data) :: rest =>
      match condition_lines data with
      | inr e => inr e
      | inl lines =>
          match summary_lines rest with
          | inl more => inl (lines ++ more)
          | inr e => inr e
          end
      end
  end.

Definition create_brain_image_summary (brain_data : list (string * Data.t image))
  : string + exn :=
  match summary_lines brain_data with
  | inl lines =>
      inl (join (String newline "")
             (["BRAIN IMAGE PROCESSING SUMMARY"; repeat_chr "=" 50; ""] ++ lines))
  | inr e => inr e
  end.

(** The loop of [export_brain_images]: an image that cannot be saved is
    logged as an error and left out. *)
Fixpoint export_entries (output_dir : string)
  (brain_data : list (string * Data.t image))
  : list (string * string) * list log_entry :=
  match brain_data with
  | [] => ([], [])
  | (condition, data) :: rest =>
      let filename := condition +:+ "_brain_activation.png" in
      let output_path := path_join output_dir filename in
      let '(exported_files, log) := export_entries output_dir rest in
      match image_save (Data.image_ data) output_path with
      | None =>
          ((condition, output_path) :: exported_files,
           info ("✓ Exported " +:+ condition +:+ " brain image: "
                 +:+ output_path) :: log)
      | Some text =>
          (exported_files,
           error ("Error exporting " +:+ condition +:+ " brain image: "
                  +:+ text) :: log)
      end
  end.

(** [output_dir], when given, is the text of a path as [Path] prints
    it. Creating the directory stands outside [try]. *)
Definition export_brain_images (brain_data : list (string * Data.t image))
  (output_dir : option string)
  : (list (string * string) + exn) * list log_entry :=
  let dir :=
    match output_dir with
    | None => path_join processed_data_path "brain_images"
    | Some d => d
    end in
  match mkdir dir with
  | Some text => (inr (OSError text), [])
  | None =>
      let '(exported_files, log) := export_entries dir brain_data in
      (inl exported_files, log)
  end.

Definition process_all_brain_data
  : (Results.t image + exn) * list log_entry :=
  let log0 := [info "Processing all brain image data..."] in
  let '(brain_data, log1) :=
    load_brain_images image image_open fs raw_data_path in
  match create_brain_image_summary brain_data with
  | inr e => (inr e, log0 ++ log1)
  | inl summary =>
      match export_brain_images brain_data None with
      | (inr e, log2) => (inr e, log0 ++ log1 ++ log2)
      | (inl exported_files, log2) =>
          match generate_statistical_tables image brain_data with
          | (inr e, log3) => (inr e, log0 ++ log1 ++ log2 ++ log3)
          | (inl statistical_tables, log3) =>
              (inl {| Results.brain_data := brain_data;
                      Results.summary := summary;
                      Results.exported_files := exported_files;
                      Results.statistical_tables := statistical_tables;
                      Results.total_images := length brain_data |},
               log0 ++ log1 ++ log2 ++ log3
               ++ [info ("Brain image processing complete: "
                         +:+ pretty (length brain_data)
                         +:+ " images processed")])
          end
      end
  end.

End WithImages.

End BrainProcessing.

(* ===================================================================== *)
(** * [run_analysis.py] *)
(* ===================================================================== *)

Module RunAnalysis.
Import PyStr PyFloat Env Preprocessing.

(** ** The command line *)

(** An argument declared with [parser.add_argument]. *)
Record argument : Type := {
  arg_name : string;
  arg_action : string;
  arg_help : string
}.

(** The arguments that [main] declares. *)
Definition parser_arguments : list argument :=
  [ {| arg_name := "--verbose";
       arg_action := "store_true";
       arg_help := "Enable verbose logging output" |} ].

(** The level of the root logger, and that of the loggers of the five
    modules. *)
Definition root_level (verbose : bool) : level :=
  if verbose then DEBUG else INFO.

Definition module_loggers : list string :=
  ["preprocessing"; "statistical_analysis"; "brain_image_processor";
   "results_summary"; "visualization"].

Definition module_level (verbose : bool) : level :=
  if verbose then INFO else ERROR.

(** ** Standard output *)

(** A computation that prints lines and returns a value or raises: the
    lines printed, in order, and the outcome. *)
Definition io (A : Type) : Type := list string * (A + exn).

Definition ret {A : Type} (a : A) : io A := ([], inl a).

Definition bind {A B : Type} (m : io A) (k : A -> io B) : io B :=
  match m with
  | (lines, inl a) =>
      match k a with
      | (lines', r) => (lines ++ lines', r)
      end
  | (lines, inr e) => (lines, inr e)
  end.

Notation "x <~ m ; k" := (bind m (fun x => k))
  (at level 100, m at next level, right associativity).
Notation "m >> k" := (bind m (fun _ => k))
  (at level 100, right associativity).

(** [print(s)], and [print()] for the empty line. *)
Definition print (s : string) : io unit := ([s], inl tt).

(** The result of a call into code that is not modelled. *)
Definition call {A : Type} (r : A + exn) : io A := ([], r).

Fixpoint print_all (lines : list string) : io unit :=
  match lines with
  | [] => ret tt
  | l :: rest => print l >> print_all rest
  end.

Definition rule (c : ascii) (n : nat) : string := repeat_chr c n.

(** ** What the calls outside the model return *)

(** Each field is the outcome of one call of [main], in the order of the
    calls: a value or the exception raised. Where [main] only prints a
    count or an entry of what is returned, the field holds that. *)
Record outcomes : Type := {
  (** [datetime.now().strftime(...)] at the start and at the end *)
  started : string;
  completed : string;
  (** [DataProcessor(str(data_root))], which creates a directory *)
  new_processor : unit + exn;
  (** [processor.generate_data_quality_report(df)] *)
  quality_report : string + exn;
  (** [processor.export_processed_data(df)] *)
  exported_files : list (string * string) + exn;
  (** [brain_processor.process_all_brain_data()]: [total_images] and
      [summary] *)
  brain_results : nat * string + exn;
  (** [analyzer.generate_comprehensive_report()] *)
  comprehensive_report : unit + exn;
  (** the numbers of analyses of the three research questions *)
  research_questions : nat * nat * nat + exn;
  (** [analyzer.compare_tools_vs_shapes()]: the p-value to three decimals
      and the significance as printed, when a t-test is present *)
  tools_vs_shapes : option (string * string) + exn;
  (** [visualizer.export_all_plots(...)] *)
  exported_plots : list (string * string) + exn;
  (** [summarizer.generate_summary_stats()] *)
  summary_stats : unit + exn;
  (** [len(summarizer.create_results_table())] *)
  results_table : nat + exn;
  (** [summarizer.export_for_publication(...)] *)
  publication_files : list (string * string) + exn;
  (** [summarizer.write_results_report(...)] *)
  report_path : string + exn
}.

(** [d.get(k, 'N/A')] *)
Definition get_or_na (d : list (string * string)) (k : string) : string :=
  default "N/A" (dict_get d k).

Section Main.

Variable fs : filesystem.
(** [str(data_root)] *)
Variable data_root : string.
Variable o : outcomes.

Definition raw_data_path : string := path_join data_root "raw".

Definition banner : io unit :=
  print (rule "=" 80) >>
  print "fMRI Tool Representation Study - Complete Analysis Pipeline" >>
  print (rule "=" 80) >>
  print ("Started: " +:+ started o) >>
  print "".

(** Phase 1. The value returned is the data frame with the files
    exported, or [None] when [main] returns because the data frame is
    empty. *)
Definition phase_1 : io (option (DataFrame.t * list (string * string))) :=
  print "PHASE 1: DATA PROCESSING" >>
  print (rule "-" 40) >>
  call (new_processor o) >>
  print "Processing S01 representative subject data..." >>
  df <~ call (fst (create_trial_dataframe fs raw_data_path (Some "S01")));
  if df_empty df then
    print "ERROR: No S01 data could be processed!" >>
    ret None
  else
    print ("✓ Successfully processed "
           +:+ pretty (length (DataFrame.rows df)) +:+ " trials") >>
    print "✓ Participant: S01 - Representative Subject" >>
    print ("✓ Experimental Runs: "
           +:+ (if has_column df "run_number"
                then pretty (nunique df "run_number") else "N/A")) >>
    print ("✓ Conditions: " +:+ pretty (nunique df "condition")) >>
    print ("✓ Stimulus types: " +:+ pretty (nunique df "stimulus_type")) >>
    (if has_column df "run_number" then
       print ("✓ Run 1 (Passive Viewing): "
              +:+ pretty (group_size df "run_number" (VInt 1)) +:+ " trials") >>
       print ("✓ Run 2 (Imagined Grasp): "
              +:+ pretty (group_size df "run_number" (VInt 2)) +:+ " trials") >>
       print ("✓ Run 3 (Clench Localizer): "
              +:+ pretty (group_size df "run_number" (VInt 3)) +:+ " trials")
     else ret tt) >>
    print "" >>
    print "Generating data quality report..." >>
    call (quality_report o) >>
    print "✓ Data quality report generated" >>
    print "" >>
    print "Exporting processed data..." >>
    files <~ call (exported_files o);
    print ("✓ Exported " +:+ pretty (length files) +:+ " data files") >>
    print "" >>
    ret (Some (df, files)).

Definition phase_2 : io (nat * string) :=
  print "PHASE 2: BRAIN IMAGE PROCESSING" >>
  print (rule "-" 40) >>
  print "Processing AFNI brain activation screenshots..." >>
  results <~ call (brain_results o);
  (if (0 <? fst results)%nat then
     print ("✓ Loaded " +:+ pretty (fst results)
            +:+ " brain activation images") >>
     print "✓ Clench localizer: M1 activation (MNI: -40, 22, 62)" >>
     print "✓ IG activation: Superior frontal gyrus, parietal lobe, LOC" >>
     print "✓ PV Tool vs Shape: LOC, V1/V2, pre/postcentral gyrus" >>
     print "✓ IG vs PV contrast: Superior frontal gyrus, BA6, superior parietal lobe" >>
     print "✓ Images integrated into visualization pipeline"
   else
     print "✓ Brain image processing: Demo mode (simulated activation data)" >>
     print "✓ Clench localizer: M1 activation patterns simulated" >>
     print "✓ IG activation: Parietofrontal network patterns simulated" >>
     print "✓ PV Tool vs Shape: Visual cortex patterns simulated" >>
     print "✓ IG vs PV contrast: Motor imagery patterns simulated" >>
     print "✓ Statistical results integrated from analysis pipeline") >>
  print "" >>
  ret results.

Definition phase_3 : io unit :=
  print "PHASE 3: STATISTICAL ANALYSIS" >>
  print (rule "-" 40) >>
  print "Running comprehensive statistical analysis..." >>
  call (comprehensive_report o) >>
  print "✓ Comprehensive statistical analysis completed" >>
  rq <~ call (research_questions o);
  print ("✓ RQ1 (Tools Special): " +:+ pretty (fst (fst rq)) +:+ " analyses") >>
  print ("✓ RQ2 (Action Potentiation): " +:+ pretty (snd (fst rq))
         +:+ " analyses") >>
  print ("✓ RQ3 (Functional vs Structural): " +:+ pretty (snd rq)
         +:+ " analyses") >>
  print "" >>
  print "Running tools vs shapes comparison..." >>
  t_test <~ call (tools_vs_shapes o);
  match t_test with
  | Some (p_value, significant) =>
      print ("✓ Tools vs Shapes: p = " +:+ p_value +:+ ", Significant = "
             +:+ significant)
  | None => ret tt
  end >>
  print "".

(** Phase 4 returns what phase 5 prints again: the plots, the files for
    publication and the path of the report. *)
Definition phase_4
  : io (list (string * string) * list (string * string) * string) :=
  print "PHASE 4: VISUALIZATION & RESULTS" >>
  print (rule "-" 40) >>
  print "Creating behavioral results plot..." >>
  plots <~ call (exported_plots o);
  print ("✓ Created " +:+ pretty (length plots) +:+ " visualization file") >>
  print "" >>
  print "Generating comprehensive results..." >>
  call (summary_stats o) >>
  rows <~ call (results_table o);
  print "✓ Summary statistics generated" >>
  print ("✓ Results table created (" +:+ pretty rows +:+ " rows)") >>
  print "" >>
  print "Exporting publication-ready results..." >>
  files <~ call (publication_files o);
  print ("✓ Exported " +:+ pretty (length files) +:+ " publication files") >>
  path <~ call (report_path o);
  print ("✓ Comprehensive report written to: " +:+ path) >>
  print "" >>
  ret (plots, files, path).

Definition phase_5 (df : DataFrame.t) (exported : list (string * string))
  (results : nat * string) (plots files : list (string * string))
  (path : string) : io unit :=
  print "PHASE 5: SUMMARY & DELIVERABLES" >>
  print (rule "-" 40) >>
  print "ANALYSIS PIPELINE COMPLETE!" >>
  print "" >>
  print "DELIVERABLES GENERATED:" >>
  print "" >>
  print "1. DATA PROCESSING (S01 Representative Subject):" >>
  print ("   • Clean dataset: " +:+ pretty (length (DataFrame.rows df))
         +:+ " trials processed") >>
  print "   • Run 1 (Passive Viewing): Complete experimental design" >>
  print "   • Run 2 (Imagined Grasp): Complete experimental design" >>
  print "   • Run 3 (Clench Localizer): Complete experimental design" >>
  print ("   • Quality report: " +:+ get_or_na exported "quality_report") >>
  print ("   • CSV export: " +:+ get_or_na exported "csv") >>
  print ("   • Excel export: " +:+ get_or_na exported "excel") >>
  print "" >>
  print "2. BRAIN IMAGE PROCESSING:" >>
  (if (0 <? fst results)%nat then
     print ("   • AFNI screenshots: " +:+ pretty (fst results)
            +:+ " brain activation images") >>
     print "   • Clench localizer: M1 activation patterns" >>
     print "   • Imagined grasp: Frontal-parietal network" >>
     print "   • Passive viewing: Tool vs shape contrasts" >>
     print "   • Statistical tables: MNI coordinates and p-values"
   else
     print "   • Brain image processing: Demo mode (simulated activation data)" >>
     print "   • Clench localizer: M1 activation patterns (simulated)" >>
     print "   • Imagined grasp: Frontal-parietal network (simulated)" >>
     print "   • Passive viewing: Tool vs shape contrasts (simulated)" >>
     print "   • Statistical tables: MNI coordinates and p-values") >>
  print "" >>
  print "3. STATISTICAL ANALYSIS:" >>
  print "   • Research Question 1: Tools vs Shapes analysis" >>
  print "   • Research Question 2: Action Potentiation analysis" >>
  print "   • Research Question 3: Functional vs Structural analysis" >>
  print "   • Motor network analysis" >>
  print "   • Effect size calculations" >>
  print "" >>
  print "4. BEHAVIORAL VISUALIZATION:" >>
  print_all ((fun item => "   • " +:+ title (fst item) +:+ ": " +:+ snd item)
               <$> plots) >>
  print "" >>
  print "5. BRAIN IMAGE PROCESSING:" >>
  print "   • Brain activation maps: Integrated with behavioral data" >>
  print "" >>
  print "6. RESULTS & REPORTING:" >>
  print_all ((fun item => "   • " +:+ title (fst item) +:+ ": " +:+ snd item)
               <$> files) >>
  print "" >>
  print "7. COMPREHENSIVE DOCUMENTATION:" >>
  print ("   • Analysis report: " +:+ path) >>
  print ("   • Brain image summary: " +:+ snd results) >>
  print "" >>
  print "KEY FINDINGS:" >>
  print "• Successfully processed S01 representative subject data" >>
  print "• Complete experimental design: 3 runs (PV, IG, Clench)" >>
  print "• Integrated real brain activation images from AFNI analysis" >>
  print "• Generated realistic statistical data matching actual results" >>
  print "• Demonstrated complete fMRI analysis pipeline" >>
  print "" >>
  print "TECHNICAL ACHIEVEMENTS:" >>
  print "• Professional Python code with comprehensive documentation" >>
  print "• Modular, reusable analysis components" >>
  print "• Automated data processing and quality control" >>
  print "• Brain image processing and integration" >>
  print "• Statistical analysis addressing research questions" >>
  print "• Automated results reporting" >>
  print "• Single-subject representative analysis pipeline" >>
  print "" >>
  print (rule "=" 80) >>
  print "ANALYSIS PIPELINE COMPLETED SUCCESSFULLY!" >>
  print ("Completed: " +:+ completed o) >>
  print (rule "=" 80).

(** [main()], after the arguments are parsed. *)
Definition main : io unit :=
  banner >>
  r <~ phase_1;
  match r with
  | None => ret tt
  | Some (df, exported) =>
      results <~ phase_2;
      phase_3 >>
      r4 <~ phase_4;
      phase_5 df exported results (fst (fst r4)) (snd (fst r4)) (snd r4)
  end.

(** The script: what is printed, and the exit status. An exception that
    leaves [main] is reported on two more lines and the status is 1. *)
Definition script : list string * Z :=
  match main with
  | (lines, inl _) => (lines, 0%Z)
  | (lines, inr e) => (lines ++ [""; "ERROR: " +:+ exn_str e], 1%Z)
  end.

End Main.

End RunAnalysis.

(* ===================================================================== *)
(** * Sample inputs *)
(* ===================================================================== *)

(** Inputs on which the statements below are evaluated. *)
Module Samples.
Import Env.

(** A file system holding one file. *)
Definition single_file (path text : string) : filesystem :=
  {| fs_exists := fun p => String.eqb p path;
     fs_open := fun p =>
       if String.eqb p path then inl text
       else inr ("[Errno 2] No such file or directory: " +:+ PyFloat.repr p);
     fs_iterdir := fun _ => inl [];
     fs_glob := fun _ _ => [] |}.

(** A file system holding the files listed, and no directory. *)
Fixpoint lookup_file (files : list (string * string)) (p : string)
  : option string :=
  match files with
  | [] => None
  | (q, text) :: rest => if String.eqb q p then Some text else lookup_file rest p
  end.

Definition of_files (files : list (string * string)) : filesystem :=
  {| fs_exists := fun p =>
       match lookup_file files p with Some _ => true | None => false end;
     fs_open := fun p =>
       match lookup_file files p with
       | Some text => inl text
       | None =>
           inr ("[Errno 2] No such file or directory: " +:+ PyFloat.repr p)
       end;
     fs_iterdir := fun _ => inl [];
     fs_glob := fun _ _ => [] |}.

(** A file system with nothing in it. *)
Definition empty_fs : filesystem := of_files [].

(** A line of a PsychoPy log: three fields separated by tabs. *)
Definition log_line (timestamp level content : string) : string :=
  timestamp +:+ String PyStr.tab "" +:+ level +:+ String PyStr.tab ""
  +:+ content +:+ String PyStr.newline "".

Definition log_path : string := "raw/S02/S02_passive.log".

(** A stimulus shown before the scan starts, then the start, a trial,
    a stimulus and a key press. *)
Definition log_text : string :=
  log_line "0.5" "EXP" "image_1: autoDraw = True"
  +:+ log_line "1.0" "EXP" "start of scan"
  +:+ log_line "2.0" "EXP"
        "New trial (rep=0, index=3): OrderedDict([('imagefile', 'a.png'), ('type', 'tool')])"
  +:+ log_line "2.5" "EXP" "image_2: autoDraw = True"
  +:+ log_line "3.0" "DATA" "Keypress: 5".

(** The same log followed by a key press whose time stamp is no
    number. *)
Definition broken_log_text : string :=
  log_text +:+ log_line "x" "DATA" "Keypress: 6".

(** A log that never starts the scan. *)
Definition unstarted_log_text : string :=
  log_line "0.5" "EXP" "image_1: autoDraw = True"
  +:+ log_line "3.0" "DATA" "Keypress: 5".

(** A log of one line, which starts the scan and reports a key press. *)
Definition start_and_keypress_text : string :=
  log_line "1.0" "DATA" "start of scan Keypress: 5".

(** A log with two trials after the start and one stimulus. *)
Definition two_trials_log_text : string :=
  log_text
  +:+ log_line "4.0" "EXP"
        "New trial (rep=0, index=1): OrderedDict([('imagefile', 'b.png'), ('type', 'shape')])".

Definition condition_path : string := "raw/S02/Condition Files/S02_PV_tool.txt".

Definition two_trials_fs : filesystem :=
  of_files [(log_path, two_trials_log_text); (condition_path, "10 20 30")].

(** The four brain images, with any content. *)
Definition images_fs : filesystem :=
  of_files [("raw/clench_afni.png", "");
            ("raw/IGshape_tool_vs_PVshape_tool_GLT#0_Tstat.png", "");
            ("raw/results.png", "");
            ("raw/Screen Shot 2020-04-21 at 4.01.26 AM.png", "")].

(** Only the image of the clench localizer. *)
Definition clench_image_fs : filesystem :=
  of_files [("raw/clench_afni.png", "")].

(** A stand-in for [Image.open] that succeeds on every path. *)
Definition open_any (path : string) : unit + string := inl tt.

(** The clench run of S01 and its condition file, under [data/raw]. *)
Definition data_fs : filesystem :=
  of_files
    [("data/raw/S01/experimental_runs/run03_clench/S01_run03_clench_2020_Mar_11_1350.log",
      log_text);
     ("data/raw/S01/condition_files/S01_clench.txt", "10 20 30")].

(** The clench run of S01 and its condition file. *)
Definition s01_clench_log : string :=
  "raw/S01/experimental_runs/run03_clench/S01_run03_clench_2020_Mar_11_1350.log".

Definition s01_clench_condition : string :=
  "raw/S01/condition_files/S01_clench.txt".

Definition s01_clench_fs : filesystem :=
  of_files [(s01_clench_log, log_text); (s01_clench_condition, "10 20 30")].

(** The clench run of S01 without its condition file. *)
Definition s01_clench_only_log_fs : filesystem :=
  of_files [(s01_clench_log, log_text)].

(** Participant S02: one log of passive viewing, and the condition files
    of passive viewing and of imagined grasp for tools. *)
Definition s02_fs : filesystem :=
  {| fs_exists := fun p =>
       String.eqb p "raw/S02" || String.eqb p "raw/S02/Condition Files"
       || String.eqb p log_path
       || String.eqb p "raw/S02/Condition Files/S02_PV_tool.txt"
       || String.eqb p "raw/S02/Condition Files/S02_IG_tool.txt";
     fs_open := fun p =>
       if String.eqb p log_path then inl log_text
       else if String.eqb p "raw/S02/Condition Files/S02_PV_tool.txt"
       then inl "10 20 30"
       else if String.eqb p "raw/S02/Condition Files/S02_IG_tool.txt"
       then inl "40 50"
       else inr ("[Errno 2] No such file or directory: " +:+ PyFloat.repr p);
     fs_iterdir := fun p =>
       if String.eqb p "raw" then inl [("S02", true)]
       else inr ("[Errno 2] No such file or directory: " +:+ PyFloat.repr p);
     fs_glob := fun d pattern =>
       if String.eqb d "raw/S02" && String.eqb pattern "*.log"
       then [log_path]
       else if String.eqb d "raw/S02/Condition Files"
               && String.eqb pattern "*.txt"
       then ["raw/S02/Condition Files/S02_PV_tool.txt";
             "raw/S02/Condition Files/S02_IG_tool.txt"]
       else [] |}.

(** Outcomes in which every call returns. *)
Definition sample_outcomes : RunAnalysis.outcomes :=
  {| RunAnalysis.started := "2024-01-01 10:00:00";
     RunAnalysis.completed := "2024-01-01 10:00:05";
     RunAnalysis.new_processor := inl tt;
     RunAnalysis.quality_report := inl "report";
     RunAnalysis.exported_files :=
       inl [("csv", "data/processed/trial_data.csv");
            ("excel", "data/processed/trial_data.xlsx");
            ("quality_report", "data/processed/data_quality_report.txt")];
     RunAnalysis.brain_results := inl (0, "BRAIN IMAGE PROCESSING SUMMARY");
     RunAnalysis.comprehensive_report := inl tt;
     RunAnalysis.research_questions := inl (2, 1, 1);
     RunAnalysis.tools_vs_shapes := inl (Some ("0.512", "False"));
     RunAnalysis.exported_plots :=
       inl [("behavioral_results", "data/processed/plots/behavioral_results.png")];
     RunAnalysis.summary_stats := inl tt;
     RunAnalysis.results_table := inl 4;
     RunAnalysis.publication_files := inl [("results_table", "data/processed/publication/results.csv")];
     RunAnalysis.report_path := inl "data/processed/comprehensive_report.txt" |}.

End Samples.

(* ===================================================================== *)
(** * Properties *)
(* ===================================================================== *)

Module RegexFacts.
Import PyStr Regex.

Lemma length_app (a b : string) :
  String.length (a +:+ b) = (String.length a + String.length b)%nat.
Proof. induction a as [|c a IH]; simpl; [reflexivity | now rewrite IH]. Qed.

Lemma take_app (w rest : string) :
  take (String.length w) (w +:+ rest) = w.
Proof. induction w as [|c w IH]; simpl; [now destruct rest | now rewrite IH]. Qed.

Lemma consumed_app (w rest : string) : consumed (w +:+ rest) rest = w.
Proof.
  unfold consumed. rewrite length_app.
  replace (String.length w + String.length rest - String.length rest)%nat
    with (String.length w) by lia.
  apply take_app.
Qed.

(** A remainder after [c*] is what follows a run of characters of the
    class. *)
Lemma star_rests_spec (p : ascii -> bool) (s rest : string) :
  rest ∈ star_rests p s ->
  exists w, s = w +:+ rest /\ all_chars p w = true.
Proof.
  revert rest. induction s as [|c s IH]; simpl; intros rest Hin.
  - apply list_elem_of_singleton in Hin. subst. now exists EmptyString.
  - destruct (p c) eqn:Hp.
    + apply elem_of_app in Hin as [Hin | Hin].
      * destruct (IH _ Hin) as (w & -> & Hw).
        exists (String c w). simpl. now rewrite Hp.
      * apply list_elem_of_singleton in Hin. subst. now exists EmptyString.
    + apply list_elem_of_singleton in Hin. subst. now exists EmptyString.
Qed.

Lemma plus_rests_spec (p : ascii -> bool) (s rest : string) :
  rest ∈ plus_rests p s ->
  exists w, s = w +:+ rest /\ all_chars p w = true /\ w <> EmptyString.
Proof.
  destruct s as [|c s]; simpl; intros Hin.
  - now apply elem_of_nil in Hin.
  - destruct (p c) eqn:Hp; [|now apply elem_of_nil in Hin].
    destruct (star_rests_spec _ _ _ Hin) as (w & -> & Hw).
    exists (String c w). simpl. rewrite Hp. repeat split; auto; discriminate.
Qed.

(** The text of a group [(c+)]. *)
Definition run_of (p : ascii -> bool) (w : string) : Prop :=
  w <> EmptyString /\ all_chars p w = true.

Lemma exec_group_plus (p : ascii -> bool) (pos : nat) (s : string) c rest :
  (c, rest) ∈ exec (Group (Plus p)) pos s ->
  exists w, c = [w] /\ run_of p w.
Proof.
  simpl. intros Hin.
  apply list_elem_of_fmap in Hin as ([c0 r0] & Heq & Hin).
  apply list_elem_of_fmap in Hin as (r1 & Heq1 & Hin).
  inversion Heq1; subst. inversion Heq; subst.
  destruct (plus_rests_spec _ _ _ Hin) as (w & -> & Hw & Hne).
  exists w. rewrite consumed_app. now split.
Qed.

Lemma exec_lit (l : string) (pos : nat) (s : string) c rest :
  (c, rest) ∈ exec (Lit l) pos s -> c = [].
Proof.
  simpl. destruct (drop_prefix l s); intros Hin.
  - apply list_elem_of_singleton in Hin. now inversion Hin.
  - now apply elem_of_nil in Hin.
Qed.

Lemma exec_plus (p : ascii -> bool) (pos : nat) (s : string) c rest :
  (c, rest) ∈ exec (Plus p) pos s -> c = [].
Proof.
  simpl. intros Hin. apply list_elem_of_fmap in Hin as (r & Heq & _).
  now inversion Heq.
Qed.

Lemma exec_bol (pos : nat) (s : string) c rest :
  (c, rest) ∈ exec Bol pos s -> c = [].
Proof.
  simpl. destruct (pos =? 0)%nat; intros Hin.
  - apply list_elem_of_singleton in Hin. now inversion Hin.
  - now apply elem_of_nil in Hin.
Qed.

Lemma exec_seq (r1 r2 : regex) (pos : nat) (s : string) c rest :
  (c, rest) ∈ exec (Seq r1 r2) pos s ->
  exists c1 s1 c2 pos',
    (c1, s1) ∈ exec r1 pos s /\ (c2, rest) ∈ exec r2 pos' s1 /\ c = c1 ++ c2.
Proof.
  simpl. intros Hin.
  apply list_elem_of_In, in_flat_map in Hin as ([c1 s1] & H1 & H2).
  apply list_elem_of_In in H1. apply list_elem_of_In in H2.
  apply list_elem_of_fmap in H2 as ([c2 s2] & Heq & H2).
  inversion Heq; subst. eauto 10.
Qed.

Lemma search_from_spec (r : regex) (pos : nat) (s : string) m :
  search_from r pos s = Some m ->
  exists pos' s' rest, (m, rest) ∈ exec r pos' s'.
Proof.
  revert pos. induction s as [|c s IH]; intros pos; simpl.
  - destruct (exec r pos EmptyString) as [|[c0 r0] l] eqn:E; [discriminate|].
    intros [= <-]. exists pos, EmptyString, r0. rewrite E. left.
  - destruct (exec r pos (String c s)) as [|[c0 r0] l] eqn:E.
    + apply IH.
    + intros [= <-]. exists pos, (String c s), r0. rewrite E. left.
Qed.

Lemma re_search_spec (r : regex) (s : string) m :
  re_search r s = Some m -> exists pos' s' rest, (m, rest) ∈ exec r pos' s'.
Proof. apply search_from_spec. Qed.

Lemma re_match_spec (r : regex) (s : string) m :
  re_match r s = Some m -> exists rest, (m, rest) ∈ exec r 0 s.
Proof.
  unfold re_match. destruct (exec r 0 s) as [|[c0 r0] l] eqn:E; [discriminate|].
  intros [= <-]. exists r0. left.
Qed.

End RegexFacts.

Module ParticipantId.
Import PyStr Regex RegexFacts Preprocessing.

Lemma digit_not_sign (c : ascii) :
  is_digit c = true ->
  chr_eqb c "+"%char = false /\ chr_eqb c "-"%char = false.
Proof.
  unfold is_digit, in_range, chr_eqb. intros H.
  apply andb_true_iff in H as [H1 H2].
  apply N.leb_le in H1. apply N.leb_le in H2.
  split; apply N.eqb_neq; unfold code at 2; simpl; lia.
Qed.

(** Padding a run of digits: the run itself when it has two characters
    or more, one zero before it otherwise. *)
Lemma zfill_digits (w : string) :
  run_of is_digit w ->
  zfill 2 w = (if (2 <=? String.length w)%nat then w else "0" +:+ w)
  /\ (2 <= String.length (zfill 2 w))%nat
  /\ all_chars is_digit (zfill 2 w) = true.
Proof.
  intros [Hne Hall]. destruct w as [|c w]; [congruence|].
  simpl in Hall. apply andb_true_iff in Hall as [Hc Hw].
  destruct (digit_not_sign c Hc) as [Hp Hm].
  unfold zfill. destruct w as [|c' w].
  - simpl. rewrite Hp, Hm. simpl. rewrite Hc. repeat split; auto.
  - simpl String.length. simpl Nat.leb. simpl in *. rewrite Hc.
    repeat split; auto; lia.
Qed.

Lemma group1_S_digits (filename : string) m :
  re_search re_S_digits filename = Some m -> run_of is_digit (group 1 m).
Proof.
  intros H. apply re_search_spec in H as (pos & s & rest & H).
  apply exec_seq in H as (c1 & s1 & c2 & pos' & H1 & H2 & ->).
  apply exec_lit in H1 as ->.
  apply exec_group_plus in H2 as (w & -> & Hw). exact Hw.
Qed.

Lemma group1_leading_digits (filename : string) m :
  re_search re_leading_digits filename = Some m -> run_of is_digit (group 1 m).
Proof.
  intros H. apply re_search_spec in H as (pos & s & rest & H).
  apply exec_seq in H as (c1 & s1 & c2 & pos' & H1 & H2 & ->).
  apply exec_bol in H1 as ->.
  apply exec_seq in H2 as (c3 & s3 & c4 & pos3 & H3 & H4 & ->).
  apply exec_group_plus in H3 as (w & -> & Hw). exact Hw.
Qed.

Lemma group2_name_digits (filename : string) m :
  re_search re_name_digits filename = Some m -> run_of is_digit (group 2 m).
Proof.
  intros H. apply re_search_spec in H as (pos & s & rest & H).
  apply exec_seq in H as (c1 & s1 & c2 & pos' & H1 & H2 & ->).
  apply exec_group_plus in H1 as (w1 & -> & _).
  apply exec_seq in H2 as (c3 & s3 & c4 & pos3 & H3 & H4 & ->).
  apply exec_lit in H3 as ->.
  apply exec_seq in H4 as (c5 & s5 & c6 & pos5 & H5 & H6 & ->).
  apply exec_group_plus in H5 as (w & -> & Hw). exact Hw.
Qed.

(** C10. For every file name, [_extract_participant_id] returns either
    the text [Unknown] or the letter [S] followed by the digits matched,
    with a zero before them when there is only one digit, so that at
    least two digits follow the [S]; the result is never empty. The
    function is total: no input makes it raise. *)
Theorem extract_participant_id_shape (filename : string) :
  (_extract_participant_id filename = "Unknown"
   \/ exists digits,
        run_of is_digit digits
        /\ _extract_participant_id filename = "S" +:+ zfill 2 digits
        /\ zfill 2 digits
           = (if (2 <=? String.length digits)%nat then digits
              else "0" +:+ digits)
        /\ (2 <= String.length (zfill 2 digits))%nat
        /\ all_chars is_digit (zfill 2 digits) = true)
  /\ _extract_participant_id filename <> "".
Proof.
  assert (Hshape :
    _extract_participant_id filename = "Unknown"
    \/ exists digits,
         run_of is_digit digits
         /\ _extract_participant_id filename = "S" +:+ zfill 2 digits).
  { unfold _extract_participant_id.
    destruct (re_search re_S_digits filename) as [m|] eqn:E1.
    { right. exists (group 1 m). split; [eapply group1_S_digits; eauto | done]. }
    destruct (re_search re_leading_digits filename) as [m|] eqn:E2.
    { right. exists (group 1 m).
      split; [eapply group1_leading_digits; eauto | done]. }
    destruct (re_search re_name_digits filename) as [m|] eqn:E3.
    { right. exists (group 2 m).
      split; [eapply group2_name_digits; eauto | done]. }
    now left. }
  split.
  - destruct Hshape as [H | (d & Hd & H)]; [now left | right].
    exists d. destruct (zfill_digits d Hd) as (E & Hl & Ha). auto.
  - destruct Hshape as [-> | (d & _ & ->)]; discriminate.
Qed.

Example extract_participant_id_examples :
  _extract_participant_id "S01_PV_tool.txt" = "S01"
  /\ _extract_participant_id "S7.log" = "S07"
  /\ _extract_participant_id "123_pilot.log" = "S123"
  /\ _extract_participant_id "Annika_1_passive.log" = "S01"
  /\ _extract_participant_id "notes.txt" = "Unknown".
Proof. repeat split; vm_compute; reflexivity. Qed.

End ParticipantId.

Module FloatFacts.
Import PyFloat.
Local Open Scope Z_scope.

Lemma iter_xO_pow (m d : positive) :
  Zpos (Pos.iter xO m d) = Zpos m * 2 ^ Zpos d.
Proof.
  induction d as [|d IH] using Pos.peano_ind.
  - simpl. lia.
  - rewrite Pos.iter_succ, Pos2Z.inj_succ, Z.pow_succ_r by lia.
    rewrite Pos2Z.inj_xO, IH. lia.
Qed.

Lemma shl_align_value (m : positive) (e ez : Z) :
  ez <= e -> Zpos (fst (shl_align m e ez)) = Zpos m * 2 ^ (e - ez).
Proof.
  intros Hle. unfold shl_align.
  destruct (ez - e) as [|d|d] eqn:E; simpl fst.
  - replace (e - ez) with 0 by lia. simpl. lia.
  - lia.
  - rewrite iter_xO_pow. replace (e - ez) with (Zpos d) by lia. reflexivity.
Qed.

(** The value of a finite float in units of [2 ^ E]. *)
Definition scaled (E : Z) (x : float) : Z :=
  match x with
  | S754_finite s m e => cond_Zopp s (Zpos m * 2 ^ (e - E))
  | _ => 0
  end.

(** Minus infinity, the finite values, plus infinity. *)
Definition tier (x : float) : Z :=
  match x with
  | S754_infinity true => -1
  | S754_infinity false => 1
  | _ => 0
  end.

Definition above (E : Z) (x : float) : Prop :=
  match x with
  | S754_finite _ _ e => E <= e
  | _ => True
  end.

Definition key_compare (E : Z) (x y : float) : comparison :=
  match tier x ?= tier y with
  | Eq => scaled E x ?= scaled E y
  | c => c
  end.

Lemma aligned_scaled (ez : Z) (x : float) :
  above ez x -> aligned ez x = scaled ez x.
Proof.
  destruct x as [s|s| |s m e]; simpl; auto.
  intros H. now rewrite shl_align_value.
Qed.

Lemma scaled_rescale (E E' : Z) (x : float) :
  E' <= E -> above E x -> scaled E' x = scaled E x * 2 ^ (E - E').
Proof.
  intros HE. destruct x as [s|s| |s m e]; simpl; auto.
  intros He. replace (e - E') with ((e - E) + (E - E')) by lia.
  rewrite Z.pow_add_r by lia. destruct s; simpl; lia.
Qed.

Lemma compare_rescale (E E' : Z) (x y : float) :
  E' <= E -> above E x -> above E y ->
  (scaled E' x ?= scaled E' y) = (scaled E x ?= scaled E y).
Proof.
  intros HE Hx Hy.
  rewrite (scaled_rescale E E' x), (scaled_rescale E E' y) by auto.
  symmetry. apply Zmult_compare_compat_r.
  apply Z.lt_gt, Z.pow_pos_nonneg; lia.
Qed.

Lemma scaled_pos (E : Z) (m : positive) (e : Z) :
  E <= e -> 0 < Zpos m * 2 ^ (e - E).
Proof. intros. apply Z.mul_pos_pos; [lia | apply Z.pow_pos_nonneg; lia]. Qed.

(** The comparison of two floats that are not NaN is the comparison of
    their tiers, then of their values in any unit small enough. *)
Lemma fcompare_key (E : Z) (x y : float) :
  is_nan x = false -> is_nan y = false -> above E x -> above E y ->
  fcompare x y = Some (key_compare E x y).
Proof.
  intros Hx Hy Ax Ay. unfold key_compare.
  destruct x as [sx|sx| |sx mx ex]; try discriminate;
  destruct y as [sy|sy| |sy my ey]; try discriminate;
    try (destruct sx; destruct sy; reflexivity);
    try (destruct sx; reflexivity); try (destruct sy; reflexivity).
  - (* zero, finite *)
    simpl in Ay. unfold fcompare. cbn [exponent_or tier Z.compare].
    rewrite Z.min_id. rewrite !aligned_scaled by (simpl; lia).
    f_equal. apply eq_sym, compare_rescale; simpl; auto; lia.
  - simpl in Ax. unfold fcompare. cbn [exponent_or tier Z.compare].
    rewrite Z.min_id. rewrite !aligned_scaled by (simpl; lia).
    f_equal. apply eq_sym, compare_rescale; simpl; auto; lia.
  - simpl in Ax, Ay. unfold fcompare. cbn [exponent_or tier Z.compare].
    rewrite !aligned_scaled by (simpl; lia).
    f_equal. apply eq_sym, compare_rescale; simpl; auto; lia.
Qed.

(** [x <= y] for two floats that are not NaN, in the unit [2 ^ E]. *)
Definition key_le (E : Z) (x y : float) : Prop :=
  tier x < tier y \/ (tier x = tier y /\ scaled E x <= scaled E y).

(** Arithmetic on tiers and scaled values, once they are named. *)
Ltac key_lia :=
  unfold key_le in *;
  repeat match goal with
         | |- context [tier ?x] =>
             let t := fresh "t" in set (t := tier x) in *; clearbody t
         | |- context [scaled ?E ?x] =>
             let v := fresh "v" in set (v := scaled E x) in *; clearbody v
         | H : context [tier ?x] |- _ =>
             let t := fresh "t" in set (t := tier x) in *; clearbody t
         | H : context [scaled ?E ?x] |- _ =>
             let v := fresh "v" in set (v := scaled E x) in *; clearbody v
         end;
  lia.

Lemma key_compare_gt (E : Z) (x y : float) :
  key_compare E x y = Gt -> key_le E y x.
Proof.
  unfold key_compare.
  destruct (Z.compare_spec (tier x) (tier y)) as [T|T|T];
    [destruct (Z.compare_spec (scaled E x) (scaled E y)) as [S|S|S]| |];
    try discriminate; intros _; key_lia.
Qed.

Lemma key_compare_lt (E : Z) (x y : float) :
  key_compare E x y = Lt -> key_le E x y.
Proof.
  unfold key_compare.
  destruct (Z.compare_spec (tier x) (tier y)) as [T|T|T];
    [destruct (Z.compare_spec (scaled E x) (scaled E y)) as [S|S|S]| |];
    try discriminate; intros _; key_lia.
Qed.

Lemma key_le_refl (E : Z) (x : float) : key_le E x x.
Proof. unfold key_le. key_lia. Qed.

Lemma key_le_trans (E : Z) (x y z : float) :
  key_le E x y -> key_le E y z -> key_le E x z.
Proof. unfold key_le. key_lia. Qed.

Lemma fgtb_key (E : Z) (x y : float) :
  above E x -> above E y -> fgtb x y = true ->
  is_nan x = false /\ key_le E y x.
Proof.
  intros Ax Ay. unfold fgtb.
  destruct x as [sx|sx| |sx mx ex]; try discriminate;
  destruct y as [sy|sy| |sy my ey]; try discriminate;
    (rewrite (fcompare_key E) by auto;
     destruct (key_compare E _ _) eqn:K; try discriminate;
     intros _; split; [reflexivity | now apply key_compare_gt]).
Qed.

Lemma fltb_key (E : Z) (x y : float) :
  above E x -> above E y -> fltb x y = true ->
  is_nan x = false /\ key_le E x y.
Proof.
  intros Ax Ay. unfold fltb.
  destruct x as [sx|sx| |sx mx ex]; try discriminate;
  destruct y as [sy|sy| |sy my ey]; try discriminate;
    (rewrite (fcompare_key E) by auto;
     destruct (key_compare E _ _) eqn:K; try discriminate;
     intros _; split; [reflexivity | now apply key_compare_lt]).
Qed.

(** The running maximum starts at [cur] and only moves up; it is a NaN
    only if [cur] is. *)
Lemma max_go_spec (E : Z) (l : list float) (cur : float) :
  Forall (above E) l -> above E cur -> is_nan cur = false ->
  is_nan (max_go cur l) = false
  /\ above E (max_go cur l)
  /\ key_le E cur (max_go cur l)
  /\ (is_finite cur = true -> forallb is_finite l = true ->
      is_finite (max_go cur l) = true).
Proof.
  revert cur. induction l as [|x l IH]; intros cur Hl Ac Nc; simpl.
  - repeat split; auto. apply key_le_refl.
  - inversion Hl as [|? ? Ax Hl']; subst.
    destruct (fgtb x cur) eqn:G.
    + destruct (fgtb_key E x cur Ax Ac G) as [Nx Hle].
      destruct (IH x Hl' Ax Nx) as (N & A & L & F).
      repeat split; auto.
      * eapply key_le_trans; eauto.
      * intros _ Hf. apply andb_true_iff in Hf as [Hx Hf]. auto.
    + destruct (IH cur Hl' Ac Nc) as (N & A & L & F).
      repeat split; auto.
      intros Hc Hf. apply andb_true_iff in Hf as [Hx Hf]. auto.
Qed.

Lemma min_go_spec (E : Z) (l : list float) (cur : float) :
  Forall (above E) l -> above E cur -> is_nan cur = false ->
  is_nan (min_go cur l) = false
  /\ above E (min_go cur l)
  /\ key_le E (min_go cur l) cur
  /\ (is_finite cur = true -> forallb is_finite l = true ->
      is_finite (min_go cur l) = true).
Proof.
  revert cur. induction l as [|x l IH]; intros cur Hl Ac Nc; simpl.
  - repeat split; auto. apply key_le_refl.
  - inversion Hl as [|? ? Ax Hl']; subst.
    destruct (fltb x cur) eqn:G.
    + destruct (fltb_key E x cur Ax Ac G) as [Nx Hle].
      destruct (IH x Hl' Ax Nx) as (N & A & L & F).
      repeat split; auto.
      * eapply key_le_trans; eauto.
      * intros _ Hf. apply andb_true_iff in Hf as [Hx Hf]. auto.
    + destruct (IH cur Hl' Ac Nc) as (N & A & L & F).
      repeat split; auto.
      intros Hc Hf. apply andb_true_iff in Hf as [Hx Hf]. auto.
Qed.

(** Starting from a NaN, nothing compares greater or smaller. *)
Lemma max_go_nan (l : list float) : max_go fnan l = fnan.
Proof.
  induction l as [|x l IH]; simpl; auto.
  replace (fgtb x fnan) with false; auto.
  now destruct x.
Qed.

Lemma min_go_nan (l : list float) : min_go fnan l = fnan.
Proof.
  induction l as [|x l IH]; simpl; auto.
  replace (fltb x fnan) with false; auto.
  now destruct x.
Qed.

(** An exponent below those of a list of floats. *)
Definition low_exponent (l : list float) : Z :=
  foldr (fun x acc => Z.min (exponent_or acc x) acc) 0 l.

Lemma above_le (E E' : Z) (x : float) : E' <= E -> above E x -> above E' x.
Proof. destruct x; simpl; auto. lia. Qed.

Lemma low_exponent_spec (l : list float) : Forall (above (low_exponent l)) l.
Proof.
  induction l as [|x l IH]; simpl; constructor.
  - destruct x; simpl; auto. lia.
  - eapply Forall_impl; [exact IH|]. intros y. apply above_le. lia.
Qed.

(** ** The sign of a difference *)

(** Zero of either sign, a positive finite value, or plus infinity. *)
Definition positive_kind (x : float) : Prop :=
  match x with
  | S754_zero _ | S754_finite false _ _ | S754_infinity false => True
  | _ => False
  end.

(** [x >= 0] *)
Definition nonneg (x : float) : Prop := fleb fzero x = true.

Lemma positive_kind_nonneg (x : float) : positive_kind x -> nonneg x.
Proof.
  unfold nonneg, fleb, fzero.
  destruct x as [s|[]| |[] m e]; simpl; try contradiction; intros _; auto.
Qed.

Lemma iter_pos_invariant {A : Type} (P : A -> Prop) (f : A -> A) :
  (forall a, P a -> P (f a)) ->
  forall (n : positive) (a : A), P a -> P (SpecFloat.iter_pos f n a).
Proof.
  intros Hf. induction n as [n IH|n IH|]; intros a Ha; simpl; auto.
Qed.

Lemma shr_1_nonneg (mrs : shr_record) :
  0 <= shr_m mrs -> 0 <= shr_m (shr_1 mrs).
Proof.
  destruct mrs as [m r s]. simpl.
  destruct m as [|[p|p|]|[p|p|]]; simpl; lia.
Qed.

Lemma shr_fexp_nonneg (m e : Z) (l : location) :
  0 <= m -> 0 <= shr_m (fst (shr_fexp prec emax m e l)).
Proof.
  intros Hm. unfold shr_fexp, shr.
  assert (H0 : 0 <= shr_m (shr_record_of_loc m l)).
  { destruct l as [|[]]; simpl; exact Hm. }
  destruct (fexp prec emax (Zdigits2 m + e) - e) as [|n|n]; simpl; auto.
  apply (iter_pos_invariant (fun r => 0 <= shr_m r)); auto.
  apply shr_1_nonneg.
Qed.

Lemma round_nearest_even_nonneg (m : Z) (l : location) :
  0 <= m -> 0 <= round_nearest_even m l.
Proof.
  intros Hm. unfold round_nearest_even.
  destruct l as [|[]]; try destruct (Z.even m); lia.
Qed.

(** Rounding a mantissa that is not negative gives no negative value
    and no NaN. *)
Lemma binary_round_aux_positive (m e : Z) (l : location) :
  0 <= m -> positive_kind (binary_round_aux prec emax false m e l).
Proof.
  intros Hm. unfold binary_round_aux.
  pose proof (shr_fexp_nonneg m e l Hm) as H1.
  destruct (shr_fexp prec emax m e l) as [mrs' e'] eqn:E1. simpl in H1.
  pose proof (shr_fexp_nonneg _ e' loc_Exact
                (round_nearest_even_nonneg _ (loc_of_shr_record mrs') H1)) as H2.
  destruct (shr_fexp prec emax
              (round_nearest_even (shr_m mrs') (loc_of_shr_record mrs')) e'
              loc_Exact) as [mrs'' e''] eqn:E2.
  simpl in H2.
  destruct (shr_m mrs'') as [|p|p]; simpl; auto; try lia.
  destruct (e'' <=? emax - prec); simpl; auto.
Qed.

Lemma binary_normalize_positive (m e : Z) :
  0 <= m -> positive_kind (binary_normalize prec emax m e false).
Proof.
  intros Hm. destruct m as [|p|p]; simpl; auto; try lia.
  unfold binary_round.
  destruct (shl_align p e _) as [mz ez]. apply binary_round_aux_positive. lia.
Qed.

(** Subtracting a float from one that is not smaller gives a NaN, only
    for two infinities of the same sign, or a value that is not
    negative. *)
Lemma fsub_sign (E : Z) (x y : float) :
  is_nan x = false -> is_nan y = false -> above E x -> above E y ->
  key_le E y x ->
  (fsub x y = fnan \/ positive_kind (fsub x y))
  /\ (is_finite x = true -> is_finite y = true -> positive_kind (fsub x y)).
Proof.
  intros Nx Ny Ax Ay Hle.
  destruct x as [sx|sx| |sx mx ex]; try discriminate;
  destruct y as [sy|sy| |sy my ey]; try discriminate;
    unfold key_le in Hle; cbn [tier] in Hle.
  - (* zero, zero *)
    split; [right|intros _ _]; destruct sx, sy; simpl; auto.
  - (* zero, infinity *)
    destruct sy; simpl in Hle; [|lia].
    split; [right|discriminate]; simpl; auto.
  - (* zero, finite *)
    assert (sy = true) as ->.
    { destruct sy; auto. simpl in Ay, Hle.
      pose proof (scaled_pos E my ey Ay). lia. }
    split; [right|intros _ _]; simpl; auto.
  - (* infinity, zero *)
    destruct sx; simpl in Hle; [lia|].
    split; [right|discriminate]; simpl; auto.
  - (* infinity, infinity *)
    split; [|discriminate]. destruct sx, sy; simpl in *; auto; lia.
  - (* infinity, finite *)
    destruct sx; simpl in Hle; [lia|].
    split; [right|discriminate]; simpl; auto.
  - (* finite, zero *)
    assert (sx = false) as ->.
    { destruct sx; auto. simpl in Ax, Hle.
      pose proof (scaled_pos E mx ex Ax). lia. }
    split; [right|intros _ _]; simpl; auto.
  - (* finite, infinity *)
    destruct sy; simpl in Hle; [|lia].
    split; [right|discriminate]; simpl; auto.
  - simpl in Ax, Ay.
    assert (Hge : 0 <= aligned (Z.min ex ey) (S754_finite sx mx ex)
                       - aligned (Z.min ex ey) (S754_finite sy my ey)).
    { rewrite !aligned_scaled by (simpl; lia).
      destruct Hle as [Hle | [_ Hle]]; [lia|].
      rewrite (scaled_rescale (Z.min ex ey) E (S754_finite sx mx ex)),
              (scaled_rescale (Z.min ex ey) E (S754_finite sy my ey))
        in Hle by (simpl; lia).
      apply Z.mul_le_mono_pos_r in Hle; [lia|].
      apply Z.pow_pos_nonneg; lia. }
    assert (P : positive_kind (fsub (S754_finite sx mx ex) (S754_finite sy my ey))).
    { unfold fsub, SFsub. apply binary_normalize_positive. exact Hge. }
    split; auto.
Qed.

End FloatFacts.

Module ConditionFiles.
Import PyStr PyFloat Env Preprocessing FloatFacts.

(** ** Tokens *)

(** The part of a token before its first colon. *)
Fixpoint before_colon (s : string) : string :=
  match s with
  | EmptyString => EmptyString
  | String c s' =>
      if chr_eqb c ":"%char then EmptyString else String c (before_colon s')
  end.

Lemma clean_point_before_colon (point : string) :
  clean_point point = before_colon point.
Proof.
  unfold clean_point. induction point as [|c s IH]; simpl; auto.
  destruct (chr_eqb c ":"); simpl; auto.
  destruct (split_on ":" s) as [|f fs]; simpl in *; now rewrite <- IH.
Qed.

Lemma split_ws_go_rstrip (s cur : string) :
  split_ws_go cur (rstrip s) = split_ws_go cur s.
Proof.
  revert cur. induction s as [|c s IH]; intros cur; simpl; auto.
  destruct (rstrip s) as [|c' r] eqn:R.
  - destruct (is_space c) eqn:Sp; simpl.
    + rewrite <- (IH EmptyString). simpl. now destruct cur.
    + rewrite Sp. rewrite <- IH. reflexivity.
  - simpl. destruct (is_space c) eqn:Sp.
    + rewrite <- (IH EmptyString). reflexivity.
    + rewrite <- IH. reflexivity.
Qed.

Lemma split_ws_lstrip (s : string) : split_ws (lstrip s) = split_ws s.
Proof.
  unfold split_ws. induction s as [|c s IH]; simpl; auto.
  destruct (is_space c) eqn:Sp; auto.
  simpl. now rewrite Sp.
Qed.

(** Stripping a text does not change its fields. *)
Lemma split_ws_strip (s : string) : split_ws (strip s) = split_ws s.
Proof.
  unfold strip, split_ws at 1. rewrite split_ws_go_rstrip.
  apply split_ws_lstrip.
Qed.

(** The floats of a text, as the specification words them: its fields,
    each cut at its first colon, those that convert. *)
Definition floats_of_tokens (text : string) : list float :=
  omap (fun token => py_float (before_colon token)) (split_ws text).

Lemma parse_timing_points_tokens (text : string) :
  parse_timing_points (strip text) = floats_of_tokens text.
Proof.
  unfold parse_timing_points, floats_of_tokens. rewrite split_ws_strip.
  induction (split_ws text) as [|t l IH]; simpl; auto.
  rewrite clean_point_before_colon.
  destruct (py_float (before_colon t)); simpl; [f_equal|]; exact IH.
Qed.

Lemma split_ws_empty_strip (text : string) :
  strip text = EmptyString -> floats_of_tokens text = [].
Proof.
  intros H. unfold floats_of_tokens.
  rewrite <- split_ws_strip, H. reflexivity.
Qed.

(** ** The dictionary returned *)

Lemma parse_condition_files_fst (fs : filesystem) (path : string) :
  fst (parse_condition_files fs path)
  = fst (parse_condition_files_body fs path (initial_cond_data path)).
Proof.
  unfold parse_condition_files.
  now destruct (parse_condition_files_body fs path _) as [d [e|]].
Qed.

(** The dictionary is in one of three states: nothing read, or no
    timing point, or some timing points with their duration. *)
Lemma parse_condition_files_cases (fs : filesystem) (path : string) :
  let d := fst (parse_condition_files fs path) in
  (CondData.timing_points d = [] /\ CondData.duration d = None)
  \/ (exists x l,
        CondData.timing_points d = x :: l
        /\ CondData.duration d = Some (fsub (max_go x l) (min_go x l))).
Proof.
  cbv zeta. rewrite parse_condition_files_fst.
  unfold parse_condition_files_body.
  destruct (_parse_condition_filename (basename path)) as [ctype stype].
  destruct (fs_open fs path) as [text|err]; [|left; auto].
  destruct (negb (string_eqb (strip text) "") && negb (startswith "*" (strip text)));
    [|left; auto].
  destruct (parse_timing_points (strip text)) as [|x l] eqn:P; simpl.
  - left; auto.
  - right. exists x, l. auto.
Qed.

Lemma parse_condition_files_read (fs : filesystem) (path text : string) :
  fs_open fs path = inl text ->
  startswith "*" (strip text) = false ->
  CondData.timing_points (fst (parse_condition_files fs path))
  = floats_of_tokens text.
Proof.
  intros Ho Hs. rewrite parse_condition_files_fst.
  unfold parse_condition_files_body.
  destruct (_parse_condition_filename (basename path)) as [ctype stype].
  rewrite Ho, Hs. simpl negb at 2. rewrite andb_true_r.
  destruct (string_eqb (strip text) "") eqn:Em; simpl.
  - apply String.eqb_eq in Em. now rewrite split_ws_empty_strip.
  - rewrite <- parse_timing_points_tokens.
    destruct (parse_timing_points (strip text)); reflexivity.
Qed.

(** C2. For a condition file that can be read and whose content, that is
    its text with the surrounding whitespace stripped, does not start
    with a star, [timing_points] holds the floats of the whitespace
    separated tokens of the file, each token cut at its first colon and
    the tokens that do not convert left out; when [timing_points] is not
    empty, [duration] is [max(timing_points) - min(timing_points)]. *)
Theorem parse_condition_files_timing (fs : filesystem) (path text : string) :
  fs_open fs path = inl text ->
  startswith "*" (strip text) = false ->
  let d := fst (parse_condition_files fs path) in
  CondData.timing_points d = floats_of_tokens text
  /\ (CondData.timing_points d <> [] ->
      exists hi lo,
        py_max (CondData.timing_points d) = Some hi
        /\ py_min (CondData.timing_points d) = Some lo
        /\ CondData.duration d = Some (fsub hi lo)).
Proof.
  intros Ho Hs d. split.
  - now apply parse_condition_files_read.
  - intros Hne.
    destruct (parse_condition_files_cases fs path) as [[E _]|(x & l & E & D)].
    + contradiction.
    + subst d. rewrite E, D. simpl. eauto.
Qed.

Lemma parse_condition_files_timing_witness :
  let d := fst (parse_condition_files
                  (Samples.single_file "raw/S02/S02_PV_tool.txt" "10 20:16 x 5")
                  "raw/S02/S02_PV_tool.txt") in
  CondData.timing_points d = floats_of_tokens "10 20:16 x 5"
  /\ (CondData.timing_points d <> [] ->
      exists hi lo,
        py_max (CondData.timing_points d) = Some hi
        /\ py_min (CondData.timing_points d) = Some lo
        /\ CondData.duration d = Some (fsub hi lo)).
Proof.
  apply (parse_condition_files_timing
           (Samples.single_file "raw/S02/S02_PV_tool.txt" "10 20:16 x 5")
           "raw/S02/S02_PV_tool.txt" "10 20:16 x 5"); reflexivity.
Defined.

Example parse_condition_files_sample :
  let d := fst (parse_condition_files
                  (Samples.single_file "raw/S02/S02_PV_tool.txt" "10 20:16 x 5")
                  "raw/S02/S02_PV_tool.txt") in
  CondData.timing_points d = [BrainImages.lit "10"; BrainImages.lit "20"; BrainImages.lit "5"]
  /\ CondData.duration d = Some (BrainImages.lit "15").
Proof. vm_compute. split; reflexivity. Qed.

(** ** The sign of the duration *)

(** The difference between the maximum and the minimum of a list that
    is not empty: a NaN or a value that is not negative, and not a NaN
    when every point is finite. *)
Lemma max_minus_min_sign (x : float) (l : list float) :
  let dur := fsub (max_go x l) (min_go x l) in
  (dur = fnan \/ nonneg dur)
  /\ (forallb is_finite (x :: l) = true -> nonneg dur).
Proof.
  cbv zeta. destruct (is_nan x) eqn:Nx.
  - destruct x; try discriminate.
    change S754_nan with fnan. rewrite max_go_nan. split; [now left|].
    simpl. discriminate.
  - pose proof (low_exponent_spec (x :: l)) as Hall.
    set (E := low_exponent (x :: l)) in *.
    inversion Hall as [|? ? Ax Al]; subst.
    destruct (max_go_spec E l x Al Ax Nx) as (Nh & Ah & Lh & Fh).
    destruct (min_go_spec E l x Al Ax Nx) as (Nl & Alo & Ll & Fl).
    destruct (fsub_sign E (max_go x l) (min_go x l) Nh Nl Ah Alo
                (key_le_trans E _ _ _ Ll Lh)) as [Hor Hfin].
    split.
    + destruct Hor as [H|H]; [now left | right; now apply positive_kind_nonneg].
    + intros Hf. simpl in Hf. apply andb_true_iff in Hf as [Hx Hf].
      apply positive_kind_nonneg. auto.
Qed.

(** C9, as the code has it. [duration] is [None] exactly when
    [timing_points] is empty, which is the case whenever the content of
    the file starts with a star. When [timing_points] is not empty,
    [duration] is the maximum minus the minimum of the points; that
    difference is a NaN or is not negative, and it is not negative
    whenever every point is finite. *)
Theorem duration_none_iff_no_points (fs : filesystem) (path : string) :
  let d := fst (parse_condition_files fs path) in
  (CondData.duration d = None <-> CondData.timing_points d = [])
  /\ (forall text,
        fs_open fs path = inl text -> startswith "*" (strip text) = true ->
        CondData.timing_points d = [] /\ CondData.duration d = None)
  /\ (CondData.timing_points d <> [] ->
      exists hi lo dur,
        py_max (CondData.timing_points d) = Some hi
        /\ py_min (CondData.timing_points d) = Some lo
        /\ dur = fsub hi lo
        /\ CondData.duration d = Some dur
        /\ (dur = fnan \/ nonneg dur)
        /\ (forallb is_finite (CondData.timing_points d) = true -> nonneg dur)).
Proof.
  intros d.
  pose proof (parse_condition_files_cases fs path) as Hc. fold d in Hc.
  split; [|split].
  - destruct Hc as [[E D]|(x & l & E & D)]; rewrite E, D; split; auto;
      discriminate.
  - intros text Ho Hs. subst d. rewrite parse_condition_files_fst.
    unfold parse_condition_files_body.
    destruct (_parse_condition_filename (basename path)) as [ctype stype].
    rewrite Ho, Hs. rewrite andb_false_r. auto.
  - intros Hne. destruct Hc as [[E _]|(x & l & E & D)]; [contradiction|].
    rewrite E, D. exists (max_go x l), (min_go x l), (fsub (max_go x l) (min_go x l)).
    destruct (max_minus_min_sign x l) as [H1 H2]. simpl. auto 10.
Qed.

Lemma duration_none_iff_no_points_witness :
  let d := fst (parse_condition_files
                  (Samples.single_file "raw/S02/S02_PV_tool.txt" "10 20:16 x 5")
                  "raw/S02/S02_PV_tool.txt") in
  exists hi lo dur,
    py_max (CondData.timing_points d) = Some hi
    /\ py_min (CondData.timing_points d) = Some lo
    /\ dur = fsub hi lo
    /\ CondData.duration d = Some dur
    /\ (dur = fnan \/ nonneg dur)
    /\ (forallb is_finite (CondData.timing_points d) = true -> nonneg dur).
Proof.
  apply (duration_none_iff_no_points
           (Samples.single_file "raw/S02/S02_PV_tool.txt" "10 20:16 x 5")
           "raw/S02/S02_PV_tool.txt").
  vm_compute. discriminate.
Defined.

(** The token [nan] converts to a float: the file holding it has one
    timing point and a duration that is a NaN, which is not greater than
    or equal to zero. *)
Lemma duration_nan_not_nonneg :
  let d := fst (parse_condition_files
                  (Samples.single_file "raw/S02/S02_PV_tool.txt" "nan")
                  "raw/S02/S02_PV_tool.txt") in
  CondData.timing_points d = [fnan]
  /\ CondData.duration d = Some fnan
  /\ ~ (exists dur, CondData.duration d = Some dur /\ nonneg dur).
Proof.
  vm_compute. repeat split; auto.
  intros (dur & [= <-] & H). discriminate.
Qed.

(** So does [inf], and the difference of an infinity with itself is a
    NaN as well. *)
Example duration_of_infinity :
  CondData.duration
    (fst (parse_condition_files
            (Samples.single_file "raw/S02/S02_PV_tool.txt" "inf")
            "raw/S02/S02_PV_tool.txt"))
  = Some fnan.
Proof. reflexivity. Qed.

End ConditionFiles.

Module PsychopyLogs.
Import PyStr PyFloat Env Preprocessing.

(** ** What the statements of the loop leave unchanged *)

(** A statement keeps [file_path]. *)
Definition keeps_path (a : stmt) : Prop :=
  forall st st' r,
    a st = (st', r) ->
    LogData.file_path (pdata st') = LogData.file_path (pdata st).

Lemma keeps_path_skip : keeps_path skip.
Proof. intros st st' r [= <- <-]. reflexivity. Qed.

Lemma keeps_path_then (a b : stmt) :
  keeps_path a -> keeps_path b -> keeps_path (a >-> b).
Proof.
  intros Ha Hb st st' r. unfold then_.
  destruct (a st) as [st1 [e|]] eqn:E.
  - intros [= <- <-]. eapply Ha; eauto.
  - intros H. rewrite (Hb _ _ _ H). eapply Ha; eauto.
Qed.

Lemma keeps_path_when (c : pstate -> bool) (a : stmt) :
  keeps_path a -> keeps_path (when c a).
Proof.
  intros Ha st st' r. unfold when. destruct (c st).
  - apply Ha.
  - intros [= <- <-]. reflexivity.
Qed.

Lemma keeps_path_with_float (s : string) (k : float -> stmt) :
  (forall f, keeps_path (k f)) -> keeps_path (with_float s k).
Proof.
  intros Hk st st' r. unfold with_float. destruct (float_of s) as [f|e].
  - apply Hk.
  - intros [= <- <-]. reflexivity.
Qed.

Lemma keeps_path_modify (f : LogData.t -> LogData.t) :
  (forall d, LogData.file_path (f d) = LogData.file_path d) ->
  keeps_path (modify f).
Proof. intros Hf st st' r [= <- <-]. simpl. apply Hf. Qed.

Lemma keeps_path_emit (e : log_entry) : keeps_path (emit e).
Proof. intros st st' r [= <- <-]. reflexivity. Qed.

Lemma keeps_path_set_started : keeps_path set_started.
Proof. intros st st' r [= <- <-]. reflexivity. Qed.

Create HintDb keeps discriminated.
#[local] Hint Resolve keeps_path_skip keeps_path_then keeps_path_when
  keeps_path_with_float keeps_path_modify keeps_path_emit
  keeps_path_set_started : keeps.

Lemma keeps_path_stimulus (content timestamp : string) :
  keeps_path (_parse_stimulus_presentation content timestamp).
Proof.
  unfold _parse_stimulus_presentation.
  destruct (Regex.re_search re_autodraw content); auto with keeps.
  apply keeps_path_then.
  - apply keeps_path_modify. intros d.
    now destruct (LogData.stimulus_timings d).
  - apply keeps_path_with_float. intros f. now apply keeps_path_modify.
Qed.

Lemma keeps_path_keypress (content timestamp : string) :
  keeps_path (_parse_keypress content timestamp).
Proof.
  unfold _parse_keypress.
  destruct (Regex.re_search re_keypress content); auto with keeps.
  apply keeps_path_then.
  - apply keeps_path_modify. intros d. now destruct (LogData.keypresses d).
  - apply keeps_path_with_float. intros f. now apply keeps_path_modify.
Qed.

Lemma keeps_path_process_line (raw : string) : keeps_path (process_line raw).
Proof.
  unfold process_line.
  destruct (line_fields raw) as [[[timestamp level] content]|];
    auto with keeps.
  repeat apply keeps_path_then; apply keeps_path_when.
  - apply keeps_path_with_float. intros f. auto 6 with keeps.
  - apply keeps_path_with_float. intros f. auto 6 with keeps.
  - intros st st' r.
    destruct (_parse_trial_line content timestamp) as [ti|e].
    + now apply keeps_path_modify.
    + intros [= <- <-]. reflexivity.
  - apply keeps_path_stimulus.
  - apply keeps_path_keypress.
Qed.

Lemma keeps_path_run_lines (lines : list string) : keeps_path (run_lines lines).
Proof.
  induction lines as [|l ls IH]; simpl; auto with keeps.
  apply keeps_path_then; auto. apply keeps_path_process_line.
Qed.

Lemma keeps_path_body (fs : filesystem) (path : string) :
  keeps_path (parse_psychopy_logs_body fs path).
Proof.
  intros st st' r. unfold parse_psychopy_logs_body.
  destruct (fs_open fs path) as [text|err].
  - apply keeps_path_then; [now apply keeps_path_modify|].
    apply keeps_path_then; [apply keeps_path_run_lines|].
    intros s s' r'. apply keeps_path_emit.
  - intros [= <- <-]. reflexivity.
Qed.

Lemma parse_condition_files_body_path (fs : filesystem) (path : string)
  (d : CondData.t) :
  CondData.file_path (fst (parse_condition_files_body fs path d))
  = CondData.file_path d.
Proof.
  unfold parse_condition_files_body.
  destruct (_parse_condition_filename (basename path)) as [ctype stype].
  destruct (fs_open fs path) as [text|err]; auto.
  repeat case_match; reflexivity.
Qed.

(** C3. Neither parsing function lets an exception out. Each returns a
    dictionary whose [file_path] is the path given. When the body inside
    [try] raises, what is returned is the dictionary as the body had
    filled it up to then, and the log ends with an entry of level
    [ERROR]. *)
Theorem parsers_catch_exceptions (fs : filesystem) (path : string) :
  LogData.file_path (fst (parse_psychopy_logs fs path)) = path
  /\ (forall st e,
        parse_psychopy_logs_body fs path (initial_pstate path) = (st, Some e) ->
        parse_psychopy_logs fs path
        = (pdata st,
           plog st ++ [Log ERROR ("Error parsing log file " +:+ path +:+ ": "
                                  +:+ exn_str e)]))
  /\ CondData.file_path (fst (parse_condition_files fs path)) = path
  /\ (forall d e,
        parse_condition_files_body fs path (initial_cond_data path)
        = (d, Some e) ->
        parse_condition_files fs path
        = (d,
           [Log INFO ("Parsing condition file: " +:+ path);
            Log ERROR ("Error parsing condition file " +:+ path +:+ ": "
                       +:+ exn_str e)])).
Proof.
  repeat split.
  - unfold parse_psychopy_logs.
    destruct (parse_psychopy_logs_body fs path (initial_pstate path))
      as [st [e|]] eqn:E; simpl;
      apply (keeps_path_body fs path) in E; exact E.
  - intros st e E. unfold parse_psychopy_logs. now rewrite E.
  - rewrite ConditionFiles.parse_condition_files_fst.
    apply parse_condition_files_body_path.
  - intros d e E. unfold parse_condition_files. now rewrite E.
Qed.

(** ** Lines before the start of the scan *)

(** A line whose content holds the words that mark the start. *)
Definition is_scan_start (raw : string) : bool :=
  match line_fields raw with
  | Some (_, _, content) => contains "start of scan" content
  | None => false
  end.

Definition before_start (lines : list string) : bool :=
  forallb (fun raw => negb (is_scan_start raw)) lines.

(** The state in which the loop over the lines is entered. *)
Definition loop_entry (path : string) : pstate :=
  fst (modify (set_ids (_extract_participant_id (basename path))
                       (_extract_condition (basename path)))
         (initial_pstate path)).

(** While the scan has not started, a line that does not start it
    changes nothing and raises nothing. *)
Lemma process_line_before_start (raw : string) (st : pstate) :
  scan_started st = false -> is_scan_start raw = false ->
  process_line raw st = (st, None).
Proof.
  intros Hs Hl. unfold process_line, is_scan_start in *.
  destruct (line_fields raw) as [[[timestamp level] content]|]; auto.
  unfold then_, when.
  repeat first [ rewrite Hl | rewrite Hs | rewrite andb_false_r
               | progress cbn [andb] ].
  reflexivity.
Qed.

Lemma run_lines_app (pre rest : list string) (st : pstate) :
  run_lines (pre ++ rest) st
  = match run_lines pre st with
    | (st', None) => run_lines rest st'
    | (st', Some e) => (st', Some e)
    end.
Proof.
  revert st. induction pre as [|l pre IH]; intros st; simpl; auto.
  unfold then_. destruct (process_line l st) as [st1 [e|]]; auto.
Qed.

Lemma run_lines_before_start (pre : list string) (st : pstate) :
  scan_started st = false -> before_start pre = true ->
  run_lines pre st = (st, None).
Proof.
  intros Hs. induction pre as [|l pre IH]; simpl; auto.
  intros H. apply andb_true_iff in H as [Hl Hpre].
  apply negb_true_iff in Hl.
  unfold then_. rewrite process_line_before_start by auto. auto.
Qed.

Lemma parse_psychopy_logs_read (fs : filesystem) (path text : string) :
  fs_open fs path = inl text ->
  fst (parse_psychopy_logs fs path)
  = pdata (fst (run_lines (readlines text) (loop_entry path))).
Proof.
  intros Ho. unfold parse_psychopy_logs, parse_psychopy_logs_body.
  rewrite Ho. unfold then_ at 1. unfold loop_entry.
  destruct (modify _ (initial_pstate path)) as [st1 r1] eqn:E1.
  inversion E1; subst. simpl fst. unfold then_.
  destruct (run_lines (readlines text) _) as [st2 [e|]]; reflexivity.
Qed.

(** C8, as the code has it. Trials, stimulus presentations and key
    presses are recorded only from the first line whose content contains
    the words [start of scan] and from the lines after it: the lines
    before it leave the dictionary as it was, whatever follows them. If
    no line has these words in its content, the dictionary returned has
    no scan start, no trial, no stimulus timing and no key press. *)
Theorem records_only_from_scan_start (fs : filesystem) (path : string) :
  (forall pre rest st,
      scan_started st = false -> before_start pre = true ->
      run_lines (pre ++ rest) st = run_lines rest st)
  /\ (forall text pre rest,
        fs_open fs path = inl text -> readlines text = pre ++ rest ->
        before_start pre = true ->
        fst (parse_psychopy_logs fs path)
        = pdata (fst (run_lines rest (loop_entry path))))
  /\ ((forall text, fs_open fs path = inl text ->
                    before_start (readlines text) = true) ->
      let d := fst (parse_psychopy_logs fs path) in
      LogData.scan_start d = None
      /\ LogData.trials d = []
      /\ LogData.stimulus_timings d = None
      /\ LogData.keypresses d = None).
Proof.
  assert (Hpre : forall pre rest st,
             scan_started st = false -> before_start pre = true ->
             run_lines (pre ++ rest) st = run_lines rest st).
  { intros pre rest st Hs Hb.
    rewrite run_lines_app, run_lines_before_start by auto. reflexivity. }
  split; [exact Hpre|split].
  - intros text pre rest Ho Hr Hb.
    rewrite (parse_psychopy_logs_read fs path text Ho), Hr.
    now rewrite Hpre.
  - intros Hall.
    destruct (fs_open fs path) as [text|err] eqn:Ho.
    + cbv zeta. rewrite (parse_psychopy_logs_read fs path text Ho).
      rewrite run_lines_before_start; auto.
    + unfold parse_psychopy_logs, parse_psychopy_logs_body. rewrite Ho.
      simpl. auto.
Qed.

Lemma parsers_catch_exceptions_witness :
  parse_psychopy_logs
    (Samples.single_file Samples.log_path Samples.broken_log_text)
    Samples.log_path
  = (pdata (fst (parse_psychopy_logs_body
                   (Samples.single_file Samples.log_path
                      Samples.broken_log_text)
                   Samples.log_path (initial_pstate Samples.log_path))),
     plog (fst (parse_psychopy_logs_body
                  (Samples.single_file Samples.log_path
                     Samples.broken_log_text)
                  Samples.log_path (initial_pstate Samples.log_path)))
     ++ [Log ERROR
           ("Error parsing log file " +:+ Samples.log_path +:+ ": "
            +:+ exn_str
                  (ValueError "could not convert string to float: 'x'"))]).
Proof.
  apply (proj1 (proj2 (parsers_catch_exceptions
                         (Samples.single_file Samples.log_path
                            Samples.broken_log_text)
                         Samples.log_path))).
  vm_compute. reflexivity.
Defined.

(** What the broken log leaves: the trial, the stimulus and the first
    key press read before the exception. *)
Example broken_log_partial_result :
  let d := fst (parse_psychopy_logs
                  (Samples.single_file Samples.log_path
                     Samples.broken_log_text)
                  Samples.log_path) in
  length (LogData.trials d) = 1
  /\ option_map (@length _) (LogData.stimulus_timings d) = Some 1
  /\ option_map (@length _) (LogData.keypresses d) = Some 1
  /\ LogData.participant_id d = Some "S02".
Proof. vm_compute. auto. Qed.

Lemma records_only_from_scan_start_witness :
  let d := fst (parse_psychopy_logs
                  (Samples.single_file Samples.log_path
                     Samples.unstarted_log_text)
                  Samples.log_path) in
  LogData.scan_start d = None
  /\ LogData.trials d = []
  /\ LogData.stimulus_timings d = None
  /\ LogData.keypresses d = None.
Proof.
  apply (proj2 (proj2 (records_only_from_scan_start
                         (Samples.single_file Samples.log_path
                            Samples.unstarted_log_text)
                         Samples.log_path))).
  intros text H. vm_compute in H. injection H as <-. vm_compute. reflexivity.
Defined.

(** The stimulus shown before the start is not recorded, the one shown
    after it is. *)
Example log_text_result :
  let d := fst (parse_psychopy_logs
                  (Samples.single_file Samples.log_path Samples.log_text)
                  Samples.log_path) in
  option_map (map LogData.stimulus) (LogData.stimulus_timings d) = Some ["image_2"]
  /\ LogData.scan_start d = py_float "1.0".
Proof. vm_compute. auto. Qed.

(** ** The line that starts the scan is itself examined *)

Definition has_records (d : LogData.t) : bool :=
  nonempty (LogData.trials d)
  || nonempty (default [] (LogData.stimulus_timings d))
  || nonempty (default [] (LogData.keypresses d)).

(** Some line follows a line that starts the scan. *)
Definition line_after_start (lines : list string) : Prop :=
  exists pre line rest,
    lines = pre ++ line :: rest /\ existsb is_scan_start pre = true.

(** A log of one line that both starts the scan and reports a key
    press: the key press is recorded, although no line comes after a
    line that starts the scan. *)
Lemma record_from_the_starting_line :
  let d := fst (parse_psychopy_logs
                  (Samples.single_file Samples.log_path
                     Samples.start_and_keypress_text)
                  Samples.log_path) in
  option_map (map LogData.key) (LogData.keypresses d) = Some ["5"]
  /\ has_records d = true
  /\ ~ line_after_start (readlines Samples.start_and_keypress_text).
Proof.
  split; [|split]; [vm_compute; reflexivity..|].
  intros (pre & line & rest & H & E).
  destruct pre as [|a pre]; [discriminate|].
  apply (f_equal (@length string)) in H.
  replace (length (readlines Samples.start_and_keypress_text)) with 1%nat in H
    by (vm_compute; reflexivity).
  simpl in H. rewrite length_app in H. simpl in H. lia.
Qed.

End PsychopyLogs.

Module Matching.
Import PyStr PyFloat Regex RegexFacts Env Preprocessing.

Lemma opt_string_eqb_eq (a b : option string) :
  opt_string_eqb a b = true <-> a = b.
Proof.
  destruct a as [x|], b as [y|]; simpl; split; try discriminate; auto.
  - intros H. apply String.eqb_eq in H. now subst.
  - intros [= ->]. apply String.eqb_refl.
Qed.

(** The code of the condition of a log: its entry in the table, and the
    empty text for a condition that has none. *)
Definition mapped_code (condition : option string) : string :=
  match condition with
  | Some c => default "" (dict_get condition_mapping c)
  | None => ""
  end.

Lemma match_log_condition_iff (log_data : LogData.t) (cond_data : CondData.t) :
  _match_log_condition log_data cond_data = true
  <-> LogData.participant_id log_data = CondData.participant_id cond_data
      /\ CondData.condition_type cond_data
         = Some (mapped_code (LogData.condition log_data)).
Proof.
  unfold _match_log_condition. fold (mapped_code (LogData.condition log_data)).
  destruct (opt_string_eqb (LogData.participant_id log_data)
              (CondData.participant_id cond_data)) eqn:P; cbn [negb].
  - apply opt_string_eqb_eq in P. rewrite opt_string_eqb_eq.
    split; [intros H; split; auto | intros [_ H]; auto].
  - split; [discriminate|]. intros [H _].
    apply opt_string_eqb_eq in H. congruence.
Qed.

(** The condition type read off the name of a condition file is never
    empty. *)
Lemma condition_type_of_filename (filename : string) :
  fst (_parse_condition_filename filename) <> "".
Proof.
  unfold _parse_condition_filename.
  destruct (re_match re_condition_filename filename) as [m|] eqn:E;
    [|discriminate].
  apply re_match_spec in E as (rest & H). simpl fst.
  apply exec_seq in H as (c1 & s1 & c2 & p1 & H1 & H & ->).
  apply exec_lit in H1 as ->.
  apply exec_seq in H as (c1 & s2 & c3 & p2 & H1 & H & ->).
  apply exec_plus in H1 as ->.
  apply exec_seq in H as (c1 & s3 & c4 & p3 & H1 & H & ->).
  apply exec_lit in H1 as ->.
  apply exec_seq in H as (c1 & s4 & c5 & p4 & H1 & H & ->).
  apply exec_group_plus in H1 as (w & -> & Hne & _).
  exact Hne.
Qed.

Lemma parsed_condition_type (fs : filesystem) (path : string) :
  exists ctype,
    CondData.condition_type (fst (parse_condition_files fs path)) = Some ctype
    /\ ctype <> "".
Proof.
  rewrite ConditionFiles.parse_condition_files_fst.
  unfold parse_condition_files_body.
  pose proof (condition_type_of_filename (basename path)) as Hne.
  destruct (_parse_condition_filename (basename path)) as [ctype stype].
  exists ctype. split; [|exact Hne].
  destruct (fs_open fs path); auto. repeat case_match; reflexivity.
Qed.

(** ** Where the records of the standard path come from *)

Lemma match_condition_files_elem (fs : filesystem) (log_data : LogData.t)
  (condition_files : list string) (r : record) :
  r ∈ fst (match_condition_files fs log_data condition_files) ->
  exists condition_file,
    condition_file ∈ condition_files
    /\ _match_log_condition log_data
         (fst (parse_condition_files fs condition_file)) = true
    /\ r ∈ _combine_log_condition_data log_data
             (fst (parse_condition_files fs condition_file)).
Proof.
  induction condition_files as [|cf rest IH]; simpl.
  - intros H. now apply elem_of_nil in H.
  - destruct (parse_condition_files fs cf) as [cond_data log] eqn:E.
    destruct (match_condition_files fs log_data rest) as [more log'].
    simpl in *. intros H. apply elem_of_app in H as [H|H].
    + destruct (_match_log_condition log_data cond_data) eqn:M.
      * exists cf. rewrite E. simpl. repeat split; auto. left.
      * now apply elem_of_nil in H.
    + destruct (IH H) as (cf' & Hin & Hm & Hr).
      exists cf'. repeat split; auto. now right.
Qed.

Lemma process_log_files_elem (fs : filesystem)
  (log_files condition_files : list string) (r : record) :
  r ∈ fst (process_log_files fs log_files condition_files) ->
  exists log_file condition_file,
    log_file ∈ log_files
    /\ condition_file ∈ condition_files
    /\ _match_log_condition (fst (parse_psychopy_logs fs log_file))
         (fst (parse_condition_files fs condition_file)) = true
    /\ r ∈ _combine_log_condition_data
             (fst (parse_psychopy_logs fs log_file))
             (fst (parse_condition_files fs condition_file)).
Proof.
  induction log_files as [|lf rest IH]; simpl.
  - intros H. now apply elem_of_nil in H.
  - destruct (parse_psychopy_logs fs lf) as [log_data log1] eqn:E.
    pose proof (match_condition_files_elem fs log_data condition_files r) as Hm.
    destruct (match_condition_files fs log_data condition_files)
      as [trials log2].
    destruct (process_log_files fs rest condition_files) as [more log3].
    simpl in *. intros H. apply elem_of_app in H as [H|H].
    + destruct (Hm H) as (cf & Hin & Hmatch & Hr).
      exists lf, cf. rewrite E. simpl. repeat split; auto. left.
    + destruct (IH H) as (lf' & cf & Hl & Hc & Hmatch & Hr).
      exists lf', cf. repeat split; auto. now right.
Qed.

(** ** The path of S01 *)

(** The inner loop of S01 combines the log with every condition file
    handed to it; no pair is left out. *)
Lemma process_condition_files_all (fs : filesystem) (log_data : LogData.t)
  (run_info : RunInfo.t) (condition_files : list string) (st : s01_state) :
  all_trials (process_condition_files fs log_data run_info condition_files st)
  = all_trials st
    ++ concat
         (map (fun condition_file =>
                 add_run_information run_info
                   <$> _combine_log_condition_data log_data
                         (fst (parse_condition_files fs condition_file)))
              condition_files).
Proof.
  revert st. induction condition_files as [|cf rest IH]; intros st; simpl.
  - now rewrite app_nil_r.
  - destruct (parse_condition_files fs cf) as [cond_data log] eqn:E.
    rewrite IH. simpl. now rewrite <- app_assoc.
Qed.

(** The trials that the standard path collects for one participant. *)
Definition standard_trials (fs : filesystem) (raw_data_path pid : string)
  : list record :=
  fst (process_log_files fs
         (_get_participant_log_files fs raw_data_path pid)
         (_get_participant_condition_files fs raw_data_path pid)).

Lemma hd_elem_of {A : Type} (d : A) (l : list A) :
  nonempty l = true -> hd d l ∈ l.
Proof. destruct l; [discriminate|]. intros _. left. Qed.

(** C1, as the code has it. [_match_log_condition] is true exactly when
    the two participant ids are equal and the condition type of the
    condition file is the code of the condition of the log in the table
    passive_viewing -> PV, active_grasp -> IG, clench -> clench,
    imagined_grasp -> IG. For a participant other than S01 every trial
    record comes from a log and a condition file that match. For S01 the
    log of a run is combined with each of its condition files without
    that check. *)
Theorem match_log_condition_spec (fs : filesystem) (raw_data_path : string) :
  condition_mapping
  = [("passive_viewing", "PV"); ("active_grasp", "IG"); ("clench", "clench");
     ("imagined_grasp", "IG")]
  /\ (forall log_data cond_data,
        _match_log_condition log_data cond_data = true
        <-> LogData.participant_id log_data
            = CondData.participant_id cond_data
            /\ CondData.condition_type cond_data
               = Some (mapped_code (LogData.condition log_data)))
  /\ (forall log_data path,
        let cond_data := fst (parse_condition_files fs path) in
        _match_log_condition log_data cond_data = true
        <-> LogData.participant_id log_data
            = CondData.participant_id cond_data
            /\ exists c code,
                 LogData.condition log_data = Some c
                 /\ dict_get condition_mapping c = Some code
                 /\ CondData.condition_type cond_data = Some code)
  /\ (forall pid r,
        pid <> "S01" ->
        r ∈ standard_trials fs raw_data_path pid ->
        fst (process_participant fs raw_data_path pid)
        = inl (standard_trials fs raw_data_path pid)
        /\ exists log_file condition_file,
          log_file ∈ _get_participant_log_files fs raw_data_path pid
          /\ condition_file
             ∈ _get_participant_condition_files fs raw_data_path pid
          /\ _match_log_condition (fst (parse_psychopy_logs fs log_file))
               (fst (parse_condition_files fs condition_file)) = true
          /\ r ∈ _combine_log_condition_data
                   (fst (parse_psychopy_logs fs log_file))
                   (fst (parse_condition_files fs condition_file)))
  /\ (forall log_data run_info condition_files st,
        all_trials
          (process_condition_files fs log_data run_info condition_files st)
        = all_trials st
          ++ concat
               (map (fun condition_file =>
                       add_run_information run_info
                         <$> _combine_log_condition_data log_data
                               (fst (parse_condition_files fs condition_file)))
                    condition_files)).
Proof.
  split; [reflexivity|].
  split; [apply match_log_condition_iff|].
  split; [|split].
  - intros log_data path cond_data. rewrite match_log_condition_iff.
    destruct (parsed_condition_type fs path) as (ctype & Hct & Hne).
    fold cond_data in Hct. rewrite Hct.
    split; intros [Hp H]; split; auto.
    + injection H as ->. unfold mapped_code in *.
      destruct (LogData.condition log_data) as [c|]; [|congruence].
      destruct (dict_get condition_mapping c) as [code|] eqn:G;
        [|simpl in Hne; congruence].
      exists c, code. auto.
    + destruct H as (c & code & Hc & Hg & [= ->]).
      unfold mapped_code. now rewrite Hc, Hg.
  - intros pid r Hpid Hin. split.
    + unfold process_participant, standard_trials.
      apply String.eqb_neq in Hpid. unfold string_eqb. rewrite Hpid.
      now destruct (process_log_files fs _ _).
    + now apply process_log_files_elem.
  - apply process_condition_files_all.
Qed.

Lemma match_log_condition_spec_witness :
  fst (process_participant Samples.s02_fs "raw" "S02")
  = inl (standard_trials Samples.s02_fs "raw" "S02")
  /\ exists log_file condition_file,
       log_file ∈ _get_participant_log_files Samples.s02_fs "raw" "S02"
       /\ condition_file
          ∈ _get_participant_condition_files Samples.s02_fs "raw" "S02"
       /\ _match_log_condition
            (fst (parse_psychopy_logs Samples.s02_fs log_file))
            (fst (parse_condition_files Samples.s02_fs condition_file)) = true
       /\ hd ∅ (standard_trials Samples.s02_fs "raw" "S02")
          ∈ _combine_log_condition_data
              (fst (parse_psychopy_logs Samples.s02_fs log_file))
              (fst (parse_condition_files Samples.s02_fs condition_file)).
Proof.
  apply (proj1 (proj2 (proj2 (proj2
           (match_log_condition_spec Samples.s02_fs "raw"))))
         "S02" (hd ∅ (standard_trials Samples.s02_fs "raw" "S02"))).
  - discriminate.
  - apply hd_elem_of. vm_compute. reflexivity.
Defined.

(** Of the two condition files of S02 only the one of passive viewing
    matches the log: one trial record results. *)
Example s02_trials : length (standard_trials Samples.s02_fs "raw" "S02") = 1.
Proof. vm_compute. reflexivity. Qed.

(** The clench run of S01. The name [S01_clench.txt] does not have the
    form of a condition file name, so its condition type is [unknown] and
    the log of the clench run does not match it; its trials are recorded
    all the same. *)
Lemma s01_combines_unmatched_pair :
  let fs := Samples.s01_clench_fs in
  let log_data := fst (parse_psychopy_logs fs Samples.s01_clench_log) in
  let cond_data :=
    fst (parse_condition_files fs Samples.s01_clench_condition) in
  CondData.condition_type cond_data = Some "unknown"
  /\ LogData.condition log_data = Some "clench"
  /\ _match_log_condition log_data cond_data = false
  /\ length (_combine_log_condition_data log_data cond_data) = 1
  /\ match fst (collect_all_trials fs "raw" (Some "S01")) with
     | inl records =>
         map (fun r : record =>
                (r !! "participant_id", r !! "condition", r !! "run_number",
                 r !! "stimulus_type", r !! "image_file"))
           records
     | inr _ => []
     end
     = [(Some (VStr "S01"), Some (VStr "clench"), Some (VInt 3),
         Some (VStr "unknown"), Some (VStr "a.png"))].
Proof.
  cbv zeta. split; [|split; [|split; [|split]]]; vm_compute; reflexivity.
Qed.

End Matching.

Module TrialColumns.
Import PyStr PyFloat Env Preprocessing.

(** The columns that every trial record has, and the one that none
    has. *)
Definition well_formed (r : record) : Prop :=
  is_Some (r !! "participant_id")
  /\ is_Some (r !! "condition")
  /\ is_Some (r !! "stimulus_type")
  /\ is_Some (r !! "trial_number")
  /\ is_Some (r !! "trial_timestamp")
  /\ r !! "stimulus_offset" = None
  /\ r !! "stimulus_duration" = None.

Lemma is_Some_insert (k j : string) (v : value) (r : record) :
  is_Some (r !! j) -> is_Some (<[k := v]> r !! j).
Proof.
  intros H. destruct (decide (k = j)) as [->|Hne].
  - rewrite lookup_insert_eq. eauto.
  - now rewrite lookup_insert_ne.
Qed.

Lemma well_formed_insert (k : string) (v : value) (r : record) :
  k <> "stimulus_offset" -> k <> "stimulus_duration" ->
  well_formed r -> well_formed (<[k := v]> r).
Proof.
  intros Hk Hk' (H1 & H2 & H3 & H4 & H5 & H6 & H7).
  unfold well_formed.
  rewrite (lookup_insert_ne _ _ "stimulus_offset") by assumption.
  rewrite (lookup_insert_ne _ _ "stimulus_duration") by assumption.
  repeat split; auto using is_Some_insert.
Qed.

Lemma trial_record_well_formed (log_data : LogData.t) (cond_data : CondData.t)
  (i : nat) (trial : LogData.trial_info) :
  well_formed (trial_record log_data cond_data i trial).
Proof.
  unfold trial_record.
  assert (Hb : forall base : record,
             well_formed base ->
             well_formed
               match LogData.stimulus_timings log_data with
               | Some timings =>
                   match timings !! i with
                   | Some stim_timing =>
                       <["stimulus_name" := VStr (LogData.stimulus stim_timing)]>
                       (<["stimulus_onset" := VFloat (LogData.onset stim_timing)]>
                          base)
                   | None => base
                   end
               | None => base
               end).
  { intros base Hbase.
    destruct (LogData.stimulus_timings log_data) as [ts|]; auto.
    destruct (ts !! i); auto.
    repeat apply well_formed_insert; auto; discriminate. }
  apply Hb. unfold well_formed.
  repeat split; simplify_map_eq; eauto.
Qed.

(** The onset is carried exactly when the log has a stimulus timing of
    the same index as the trial. *)
Lemma trial_record_onset (log_data : LogData.t) (cond_data : CondData.t)
  (i : nat) (trial : LogData.trial_info) :
  trial_record log_data cond_data i trial !! "stimulus_onset"
  = match LogData.stimulus_timings log_data with
    | Some timings => (fun t => VFloat (LogData.onset t)) <$> timings !! i
    | None => None
    end.
Proof.
  unfold trial_record.
  destruct (LogData.stimulus_timings log_data) as [ts|];
    [destruct (ts !! i)|]; simplify_map_eq; reflexivity.
Qed.

Lemma combine_well_formed (log_data : LogData.t) (cond_data : CondData.t) :
  Forall well_formed (_combine_log_condition_data log_data cond_data).
Proof.
  apply Forall_forall. intros r Hr.
  apply elem_of_lookup_imap_1 in Hr as (i & trial & -> & _).
  apply trial_record_well_formed.
Qed.

Lemma add_run_information_well_formed (run_info : RunInfo.t) (r : record) :
  well_formed r -> well_formed (add_run_information run_info r).
Proof.
  intros H. unfold add_run_information.
  repeat apply well_formed_insert; auto; discriminate.
Qed.

(** ** The list [all_trials] *)

Section Collect.
Variable fs : filesystem.
Variable raw_data_path : string.

Lemma process_condition_files_well_formed (log_data : LogData.t)
  (run_info : RunInfo.t) (condition_files : list string) (st : s01_state) :
  Forall well_formed (all_trials st) ->
  Forall well_formed
    (all_trials
       (process_condition_files fs log_data run_info condition_files st)).
Proof.
  intros H. rewrite Matching.process_condition_files_all.
  apply Forall_app. split; auto.
  induction condition_files as [|cf rest IH]; simpl; [constructor|].
  apply Forall_app. split; auto.
  apply Forall_fmap. eapply Forall_impl; [apply combine_well_formed|].
  intros r Hr. now apply add_run_information_well_formed.
Qed.

Lemma process_run_well_formed (run_info : RunInfo.t) (st : s01_state) :
  Forall well_formed (all_trials st) ->
  Forall well_formed (all_trials (fst (process_run fs raw_data_path run_info st))).
Proof.
  intros H. unfold process_run.
  destruct (fs_exists fs _); [|exact H].
  destruct (parse_psychopy_logs fs _) as [log_data log1].
  destruct (_get_s01_condition_files fs raw_data_path _) as [cfs log2].
  match goal with
  | |- context [process_condition_files ?a ?c ?d ?e ?s] =>
      pose proof (process_condition_files_well_formed c d e s H) as Hw;
      destruct (process_condition_files a c d e s) as [tr tv lg]
  end.
  simpl in *. destruct tv; exact Hw.
Qed.

Lemma process_runs_well_formed (runs : list RunInfo.t) (st : s01_state) :
  Forall well_formed (all_trials st) ->
  Forall well_formed (all_trials (fst (process_runs fs raw_data_path runs st))).
Proof.
  revert st. induction runs as [|r rest IH]; intros st H; simpl; auto.
  pose proof (process_run_well_formed r st H) as Hr.
  destruct (process_run fs raw_data_path r st) as [st' [e|]]; simpl in *; auto.
Qed.

Lemma s01_well_formed (trials : list record) (log : list log_entry) :
  _process_s01_complete_design fs raw_data_path = (inl trials, log) ->
  Forall well_formed trials.
Proof.
  unfold _process_s01_complete_design.
  match goal with
  | |- context [process_runs ?a ?b ?c ?s] =>
      pose proof (process_runs_well_formed c s (Forall_nil_2 _)) as Hw;
      destruct (process_runs a b c s) as [st [e|]]
  end; [discriminate|].
  intros [= <- _]. exact Hw.
Qed.

Lemma match_condition_files_well_formed (log_data : LogData.t)
  (condition_files : list string) :
  Forall well_formed (fst (match_condition_files fs log_data condition_files)).
Proof.
  apply Forall_forall. intros r Hr.
  apply Matching.match_condition_files_elem in Hr as (cf & _ & _ & Hr).
  revert r Hr. apply Forall_forall. apply combine_well_formed.
Qed.

Lemma process_log_files_well_formed (log_files condition_files : list string) :
  Forall well_formed (fst (process_log_files fs log_files condition_files)).
Proof.
  apply Forall_forall. intros r Hr.
  apply Matching.process_log_files_elem in Hr as (lf & cf & _ & _ & _ & Hr).
  revert r Hr. apply Forall_forall. apply combine_well_formed.
Qed.

Lemma process_participant_well_formed (pid : string) (trials : list record)
  (log : list log_entry) :
  process_participant fs raw_data_path pid = (inl trials, log) ->
  Forall well_formed trials.
Proof.
  unfold process_participant. destruct (string_eqb pid "S01").
  - destruct (_process_s01_complete_design fs raw_data_path) as [r lg] eqn:E.
    intros [= -> _]. eapply s01_well_formed; eauto.
  - pose proof (process_log_files_well_formed
                  (_get_participant_log_files fs raw_data_path pid)
                  (_get_participant_condition_files fs raw_data_path pid)) as Hw.
    destruct (process_log_files fs _ _) as [ts lg]. intros [= <- _]. exact Hw.
Qed.

Lemma process_participants_well_formed (participants : list string)
  (trials : list record) (log : list log_entry) :
  process_participants fs raw_data_path participants = (inl trials, log) ->
  Forall well_formed trials.
Proof.
  revert trials log. induction participants as [|pid rest IH];
    intros trials log; simpl.
  - intros [= <- _]. constructor.
  - destruct (process_participant fs raw_data_path pid) as [[ts|e] lg] eqn:E;
      [|discriminate].
    destruct (process_participants fs raw_data_path rest) as [[more|e] lg'];
      [|discriminate].
    intros [= <- _]. apply Forall_app. split.
    + eapply process_participant_well_formed; eauto.
    + eapply IH; eauto.
Qed.

Lemma collect_all_trials_well_formed (participant_id : option string)
  (trials : list record) (log : list log_entry) :
  collect_all_trials fs raw_data_path participant_id = (inl trials, log) ->
  Forall well_formed trials.
Proof.
  unfold collect_all_trials.
  destruct (match participant_id with
            | Some p => if string_eqb p "" then _ else _
            | None => _
            end) as [ps|e]; [|discriminate].
  destruct (process_participants fs raw_data_path ps) as [r lg] eqn:E.
  intros [= -> _]. eapply process_participants_well_formed; eauto.
Qed.

End Collect.

(** ** The data frame *)

Definition frame_ok (df : DataFrame.t) : Prop :=
  ("stimulus_offset" ∉ DataFrame.columns df)
  /\ ("stimulus_duration" ∉ DataFrame.columns df)
  /\ Forall well_formed (DataFrame.rows df).

Lemma has_column_false (df : DataFrame.t) (c : string) :
  c ∉ DataFrame.columns df -> has_column df c = false.
Proof. intros H. unfold has_column. now apply bool_decide_eq_false. Qed.

Lemma assign_ok (c : string) (f : record -> value) (df : DataFrame.t) :
  c <> "stimulus_offset" -> c <> "stimulus_duration" ->
  frame_ok df -> frame_ok (assign c f df).
Proof.
  intros H1 H2 (Ho & Hd & Hr). unfold frame_ok, assign. simpl.
  repeat split.
  - rewrite elem_of_union, elem_of_singleton. intros [E|E]; auto.
  - rewrite elem_of_union, elem_of_singleton. intros [E|E]; auto.
  - apply Forall_fmap. eapply Forall_impl; [exact Hr|].
    intros r Hw. now apply well_formed_insert.
Qed.

Lemma add_derived_columns_ok (df : DataFrame.t) :
  frame_ok df -> frame_ok (_add_derived_columns df).
Proof.
  intros Hok. unfold _add_derived_columns.
  destruct (df_empty df); auto.
  rewrite (has_column_false df "stimulus_offset") by apply Hok.
  rewrite andb_false_r.
  destruct (has_column df "scan_start" && has_column df "stimulus_onset").
  - destruct (has_column _ "condition" && has_column _ "stimulus_type");
      repeat apply assign_ok; auto; discriminate.
  - destruct (has_column _ "condition" && has_column _ "stimulus_type");
      repeat apply assign_ok; auto; discriminate.
Qed.

Lemma insert_row_forall (P : record -> Prop) (r : record) (l : list record) :
  P r -> Forall P l -> Forall P (insert_row r l).
Proof.
  intros Hr. induction 1 as [|r' l Hr' Hl IH]; simpl.
  - repeat constructor; auto.
  - destruct (row_leb r r'); repeat constructor; auto.
Qed.

Lemma sort_values_ok (df : DataFrame.t) : frame_ok df -> frame_ok (sort_values df).
Proof.
  intros (Ho & Hd & Hr). unfold frame_ok, sort_values. simpl.
  repeat split; auto.
  induction Hr as [|r l Hr' Hl IH]; simpl; [constructor|].
  now apply insert_row_forall.
Qed.

Lemma make_dataframe_ok (records : list record) :
  Forall well_formed records -> frame_ok (make_dataframe records).
Proof.
  intros H. unfold frame_ok, make_dataframe. simpl.
  assert (Hcol : forall c, (forall r, well_formed r -> r !! c = None) ->
                           c ∉ ⋃ (dom <$> records)).
  { intros c Hc Hin. apply elem_of_union_list in Hin as (X & HX & Hin).
    apply list_elem_of_fmap in HX as (r & -> & Hr).
    rewrite Forall_forall in H. specialize (Hc r (H r Hr)).
    apply elem_of_dom in Hin. rewrite Hc in Hin. now destruct Hin. }
  repeat split; auto.
  - apply Hcol. intros r Hw. apply Hw.
  - apply Hcol. intros r Hw. apply Hw.
Qed.

(** C5, as the code has it. Every trial record combined from a log and a
    condition file has the keys [participant_id], [condition],
    [stimulus_type], [trial_number] and [trial_timestamp]. It has the key
    [stimulus_onset] exactly when the log holds a stimulus timing with
    the index of the trial. It never has the key [stimulus_offset]: no
    data frame that the pipeline returns has a column [stimulus_offset],
    nor the column [stimulus_duration] that would be derived from it. *)
Theorem trial_record_columns (fs : filesystem) (raw_data_path : string) :
  (forall log_data cond_data r,
      r ∈ _combine_log_condition_data log_data cond_data -> well_formed r)
  /\ (forall log_data cond_data i trial,
        trial_record log_data cond_data i trial !! "stimulus_onset"
        = match LogData.stimulus_timings log_data with
          | Some timings =>
              (fun t => VFloat (LogData.onset t)) <$> timings !! i
          | None => None
          end)
  /\ (forall participant_id df log,
        create_trial_dataframe fs raw_data_path participant_id = (inl df, log) ->
        frame_ok df).
Proof.
  split; [|split].
  - intros log_data cond_data. apply Forall_forall, combine_well_formed.
  - apply trial_record_onset.
  - intros pid df log. unfold create_trial_dataframe.
    destruct (collect_all_trials fs raw_data_path pid) as [[trials|e] lg] eqn:E;
      [|discriminate].
    apply collect_all_trials_well_formed in E.
    apply make_dataframe_ok in E.
    destruct (negb (df_empty (make_dataframe trials))); intros [= <- _]; auto.
    apply sort_values_ok, add_derived_columns_ok, E.
Qed.

Lemma trial_record_columns_witness :
  frame_ok
    match fst (create_trial_dataframe Samples.s02_fs "raw" (Some "S02")) with
    | inl df => df
    | inr _ => make_dataframe []
    end.
Proof.
  apply (proj2 (proj2 (trial_record_columns Samples.s02_fs "raw"))
           (Some "S02") _
           (snd (create_trial_dataframe Samples.s02_fs "raw" (Some "S02")))).
  vm_compute. reflexivity.
Defined.

Definition has_key (r : record) (k : string) : bool :=
  match r !! k with Some _ => true | None => false end.

(** A log and a condition file that match, with two trials and one
    stimulus after the start of the scan: the first record carries an
    onset, the second does not, and neither carries an offset. *)
Lemma matched_pair_without_offset :
  let log_data :=
    fst (parse_psychopy_logs Samples.two_trials_fs Samples.log_path) in
  let cond_data :=
    fst (parse_condition_files Samples.two_trials_fs Samples.condition_path) in
  _match_log_condition log_data cond_data = true
  /\ map (fun r => (has_key r "participant_id", has_key r "stimulus_onset",
                    has_key r "stimulus_offset"))
       (_combine_log_condition_data log_data cond_data)
     = [(true, true, false); (true, false, false)].
Proof. cbv zeta. split; vm_compute; reflexivity. Qed.

End TrialColumns.

Module MissingFiles.
Import PyStr PyFloat Env Preprocessing BrainImages.

(** ** Brain images *)

Section Images.
Variable image : Type.
Variable image_open : string -> image + string.
Variable fs : filesystem.
Variable raw_data_path : string.

(** What one item of the mapping contributes to [brain_data]. *)
Definition loaded (item : string * Info.t) : option (string * Data.t image) :=
  let image_path := path_join raw_data_path (Info.filename (snd item)) in
  if fs_exists fs image_path then
    match image_open image_path with
    | inl img =>
        Some (fst item,
              {| Data.image_ := img;
                 Data.path := image_path;
                 Data.condition := Info.condition (snd item);
                 Data.description := Info.description (snd item);
                 Data.regions := Info.regions (snd item);
                 Data.mni_coords := Info.mni_coords (snd item);
                 Data.stats := Info.stats (snd item);
                 Data.filename := Info.filename (snd item) |})
    | inr _ => None
    end
  else None.

(** The entries stored are those of the items that load, each item on
    its own: an item that does not load takes nothing away from the
    others. *)
Lemma load_entries_omap (items : list (string * Info.t)) :
  fst (load_entries image image_open fs raw_data_path items)
  = omap loaded items.
Proof.
  induction items as [|[condition info_] rest IH]; simpl; auto.
  destruct (load_entries image image_open fs raw_data_path rest)
    as [brain_data log].
  simpl in IH. unfold loaded at 1. simpl.
  destruct (fs_exists fs _); [destruct (image_open _)|]; simpl;
    [f_equal|..]; exact IH.
Qed.

Lemma load_entries_missing_logged (items : list (string * Info.t))
  (condition : string) (info_ : Info.t) :
  (condition, info_) ∈ items ->
  fs_exists fs (path_join raw_data_path (Info.filename info_)) = false ->
  Log INFO ("Image not found (skipping): "
            +:+ path_join raw_data_path (Info.filename info_))
  ∈ snd (load_entries image image_open fs raw_data_path items).
Proof.
  intros Hin Hex. induction items as [|[c i] rest IH]; simpl.
  - now apply elem_of_nil in Hin.
  - destruct (load_entries image image_open fs raw_data_path rest)
      as [brain_data log].
    apply elem_of_cons in Hin as [[= <- <-]|Hin].
    + rewrite Hex. simpl. left.
    + specialize (IH Hin). simpl in IH.
      destruct (fs_exists fs (path_join raw_data_path (Info.filename i)));
        [destruct (image_open (path_join raw_data_path (Info.filename i)))|];
        simpl; now right.
Qed.

Lemma loaded_key (item : string * Info.t) (c : string) (d : Data.t image) :
  loaded item = Some (c, d) ->
  c = fst item
  /\ fs_exists fs (path_join raw_data_path (Info.filename (snd item))) = true.
Proof.
  unfold loaded. destruct (fs_exists fs _); [|discriminate].
  destruct (image_open _); [|discriminate]. intros [= <- _]. auto.
Qed.

Lemma unique_key (items : list (string * Info.t)) (c : string)
  (a b : Info.t) :
  NoDup (fst <$> items) -> (c, a) ∈ items -> (c, b) ∈ items -> a = b.
Proof.
  induction items as [|[k v] rest IH]; simpl; intros Hnd Ha Hb.
  - now apply elem_of_nil in Ha.
  - apply NoDup_cons in Hnd as [Hk Hnd].
    apply elem_of_cons in Ha as [Ha|Ha]; apply elem_of_cons in Hb as [Hb|Hb];
      auto.
    + congruence.
    + injection Ha as -> ->. exfalso. apply Hk.
      apply list_elem_of_fmap. now exists (k, b).
    + injection Hb as -> ->. exfalso. apply Hk.
      apply list_elem_of_fmap. now exists (k, a).
Qed.

Lemma missing_not_loaded (items : list (string * Info.t)) (condition : string)
  (info_ : Info.t) :
  NoDup (fst <$> items) ->
  (condition, info_) ∈ items ->
  fs_exists fs (path_join raw_data_path (Info.filename info_)) = false ->
  condition ∉ (fst <$> omap loaded items).
Proof.
  intros Hnd Hin Hex Hc.
  apply list_elem_of_fmap in Hc as ([c d] & Hcd & Hc). simpl in Hcd. subst c.
  apply list_elem_of_omap in Hc as ([k i] & Hi & Hl).
  apply loaded_key in Hl as [Hk Hex']. simpl in Hk, Hex'. subst k.
  rewrite (unique_key items condition info_ i Hnd Hin Hi) in Hex. congruence.
Qed.

End Images.

Lemma mapping_keys :
  fst <$> brain_image_mapping
  = ["clench"; "imagined_grasp"; "passive_viewing"; "imagined_vs_passive"].
Proof. reflexivity. Qed.

Lemma mapping_keys_nodup : NoDup (fst <$> brain_image_mapping).
Proof.
  rewrite mapping_keys.
  repeat (apply NoDup_cons; split;
          [rewrite ?elem_of_cons, elem_of_nil; intuition discriminate|]).
  apply NoDup_nil_2.
Qed.

(** ** The files of S01 *)

Section S01.
Variable fs : filesystem.
Variable raw_data_path : string.

(** A run whose log is missing: a warning is logged, the trials and the
    local variable are as before, and the loop goes on. *)
Lemma process_run_missing (run_info : RunInfo.t) (st : s01_state) :
  fs_exists fs (path_join raw_data_path (RunInfo.log_file run_info)) = false ->
  process_run fs raw_data_path run_info st
  = ({| all_trials := all_trials st;
        trials_var := trials_var st;
        s01_log :=
          s01_log st
          ++ [Log WARNING
                ("Log file not found: "
                 +:+ path_join raw_data_path (RunInfo.log_file run_info))] |},
     None).
Proof. intros H. unfold process_run. now rewrite H. Qed.

(** The condition files found are those of the patterns that exist, in
    order; each of the others is logged with a warning. *)
Lemma collect_condition_files_spec (patterns : list string) :
  collect_condition_files fs raw_data_path patterns
  = (List.filter (fs_exists fs)
       (path_join (s01_condition_dir raw_data_path) <$> patterns),
     (fun file_path => Log WARNING ("Condition file not found: " +:+ file_path))
       <$> List.filter (fun file_path => negb (fs_exists fs file_path))
             (path_join (s01_condition_dir raw_data_path) <$> patterns)).
Proof.
  induction patterns as [|p rest IH]; simpl; auto.
  rewrite IH. destruct (fs_exists fs _); reflexivity.
Qed.

End S01.

(** ** The statement *)

Lemma load_brain_images_fst (image : Type) (image_open : string -> image + string)
  (fs : filesystem) (raw_data_path : string) :
  fst (load_brain_images image image_open fs raw_data_path)
  = fst (load_entries image image_open fs raw_data_path brain_image_mapping).
Proof.
  unfold load_brain_images. now destruct (load_entries _ _ _ _ _).
Qed.

Lemma load_brain_images_snd (image : Type) (image_open : string -> image + string)
  (fs : filesystem) (raw_data_path : string) (e : log_entry) :
  e ∈ snd (load_entries image image_open fs raw_data_path brain_image_mapping) ->
  e ∈ snd (load_brain_images image image_open fs raw_data_path).
Proof.
  unfold load_brain_images. destruct (load_entries _ _ _ _ _) as [bd log].
  simpl. intros H. right. apply elem_of_app. now left.
Qed.

(** C4, as the code has it. A brain image of the mapping that is missing
    is logged at level [INFO], adds no entry to the result, and the
    other images are loaded as they would be without it. A run of S01
    whose log is missing is logged at level [WARNING], adds no trial,
    and the loop goes on with the runs that remain. A condition file of
    S01 that is missing is logged at level [WARNING] and is not among
    the files returned, which are the files of the patterns that do
    exist. *)
Theorem missing_files_are_skipped (image : Type)
  (image_open : string -> image + string) (fs : filesystem)
  (raw_data_path : string) :
  fst (load_brain_images image image_open fs raw_data_path)
  = omap (loaded image image_open fs raw_data_path) brain_image_mapping
  /\ (forall condition info_,
        (condition, info_) ∈ brain_image_mapping ->
        fs_exists fs (path_join raw_data_path (Info.filename info_)) = false ->
        (condition
         ∉ (fst <$> fst (load_brain_images image image_open fs raw_data_path)))
        /\ Log INFO ("Image not found (skipping): "
                     +:+ path_join raw_data_path (Info.filename info_))
           ∈ snd (load_brain_images image image_open fs raw_data_path))
  /\ (forall run_info rest st,
        fs_exists fs (path_join raw_data_path (RunInfo.log_file run_info))
        = false ->
        process_runs fs raw_data_path (run_info :: rest) st
        = process_runs fs raw_data_path rest
            {| all_trials := all_trials st;
               trials_var := trials_var st;
               s01_log :=
                 s01_log st
                 ++ [Log WARNING
                       ("Log file not found: "
                        +:+ path_join raw_data_path
                              (RunInfo.log_file run_info))] |})
  /\ (forall condition patterns,
        s01_patterns condition = Some patterns ->
        _get_s01_condition_files fs raw_data_path condition
        = (List.filter (fs_exists fs)
             (path_join (s01_condition_dir raw_data_path) <$> patterns),
           (fun file_path =>
              Log WARNING ("Condition file not found: " +:+ file_path))
             <$> List.filter (fun file_path => negb (fs_exists fs file_path))
                   (path_join (s01_condition_dir raw_data_path) <$> patterns)))
  /\ (forall condition patterns pattern,
        s01_patterns condition = Some patterns ->
        pattern ∈ patterns ->
        fs_exists fs (path_join (s01_condition_dir raw_data_path) pattern)
        = false ->
        (path_join (s01_condition_dir raw_data_path) pattern
         ∉ fst (_get_s01_condition_files fs raw_data_path condition))
        /\ Log WARNING
             ("Condition file not found: "
              +:+ path_join (s01_condition_dir raw_data_path) pattern)
           ∈ snd (_get_s01_condition_files fs raw_data_path condition)).
Proof.
  assert (Hget : forall condition patterns,
             s01_patterns condition = Some patterns ->
             _get_s01_condition_files fs raw_data_path condition
             = (List.filter (fs_exists fs)
                  (path_join (s01_condition_dir raw_data_path) <$> patterns),
                (fun file_path =>
                   Log WARNING ("Condition file not found: " +:+ file_path))
                  <$> List.filter
                        (fun file_path => negb (fs_exists fs file_path))
                        (path_join (s01_condition_dir raw_data_path)
                           <$> patterns))).
  { intros condition patterns Hp. unfold _get_s01_condition_files.
    rewrite Hp. apply collect_condition_files_spec. }
  split; [|split; [|split; [|split]]].
  - rewrite load_brain_images_fst. apply load_entries_omap.
  - intros condition info_ Hin Hex. split.
    + rewrite load_brain_images_fst, load_entries_omap.
      apply (missing_not_loaded image image_open fs raw_data_path
               brain_image_mapping condition info_ mapping_keys_nodup Hin Hex).
    + apply load_brain_images_snd.
      apply (load_entries_missing_logged image image_open fs raw_data_path
               brain_image_mapping condition info_ Hin Hex).
  - intros run_info rest st Hex. simpl.
    now rewrite process_run_missing.
  - exact Hget.
  - intros condition patterns pattern Hp Hin Hex.
    rewrite (Hget condition patterns Hp). simpl. split.
    + intros H. apply list_elem_of_In, filter_In in H as [_ H]. congruence.
    + apply list_elem_of_fmap.
      exists (path_join (s01_condition_dir raw_data_path) pattern).
      split; auto. apply list_elem_of_In, filter_In. split.
      * apply list_elem_of_In, list_elem_of_fmap. eauto.
      * now rewrite Hex.
Qed.

Lemma missing_files_are_skipped_witness :
  ("clench"
   ∉ (fst <$> fst (load_brain_images unit (fun _ => inl tt)
                     Samples.empty_fs "raw")))
  /\ Log INFO "Image not found (skipping): raw/clench_afni.png"
     ∈ snd (load_brain_images unit (fun _ => inl tt) Samples.empty_fs "raw").
Proof.
  apply (proj1 (proj2 (missing_files_are_skipped unit (fun _ => inl tt)
                         Samples.empty_fs "raw"))
           "clench" clench_info).
  - left.
  - reflexivity.
Defined.

(** With no file at all, the three runs of S01 are passed over: each
    missing log is reported at level [WARNING], and no line of level
    [INFO] speaks of it. *)
Lemma s01_missing_log_is_a_warning :
  let log := snd (_process_s01_complete_design Samples.empty_fs "raw") in
  log
  = [Log INFO "Processing S01 complete experimental design (3 runs)";
     Log WARNING
       "Log file not found: raw/S01/experimental_runs/run01_passive_viewing/S01_run01_passive_viewing_2020_Mar_11_1324.log";
     Log WARNING
       "Log file not found: raw/S01/experimental_runs/run02_imagined_grasp/S01_run02_imagined_grasp_2020_Mar_11_1335.log";
     Log WARNING
       "Log file not found: raw/S01/experimental_runs/run03_clench/S01_run03_clench_2020_Mar_11_1350.log";
     Log INFO "S01 processing complete: 0 total trials"]
  /\ forallb (fun e => match lvl e with
                       | INFO => negb (contains "Log file not found" (msg e))
                       | _ => true
                       end) log = true
  /\ snd (_get_s01_condition_files Samples.empty_fs "raw" "clench")
     = [Log WARNING
          "Condition file not found: raw/S01/condition_files/S01_clench.txt"].
Proof. vm_compute. repeat split; reflexivity. Qed.

(** The log of the clench run exists and its condition file does not:
    the line logged after the inner loop reads a variable that was never
    assigned, and the method raises instead of going on. *)
Example s01_run_without_condition_file_raises :
  fst (_process_s01_complete_design Samples.s01_clench_only_log_fs "raw")
  = inr (UnboundLocalError
           "cannot access local variable 'trials' where it is not associated with a value").
Proof. vm_compute. reflexivity. Qed.

End MissingFiles.

Module StatisticalTables.
Import PyStr PyFloat Env BrainImages MissingFiles.

(** One row per region, from the coordinates and the statistics of the
    same index. *)
Fixpoint rows_zip (regions : list string) (coords : list coord)
  (stats : list stat) : list Row.t :=
  match regions, coords, stats with
  | region :: regions', c :: coords', s :: stats' =>
      make_row region c s :: rows_zip regions' coords' stats'
  | _, _, _ => []
  end.

(** The table that the metadata of a condition calls for: one row per
    region when coordinates and statistics are lists, and a single row
    for the first region when they are single dictionaries. *)
Definition rows_of (info_ : Info.t) : list Row.t :=
  match Info.mni_coords info_, Info.stats info_ with
  | Many coords, Many stats => rows_zip (Info.regions info_) coords stats
  | One c, One s => [make_row (hd "" (Info.regions info_)) c s]
  | _, _ => []
  end.

Section Tables.
Variable image : Type.
Variable image_open : string -> image + string.
Variable fs : filesystem.
Variable raw_data_path : string.

Lemma table_of_loaded (item : string * Info.t) (c : string) (d : Data.t image) :
  item ∈ brain_image_mapping ->
  loaded image image_open fs raw_data_path item = Some (c, d) ->
  c = fst item /\ table_of image d = inl (rows_of (snd item)).
Proof.
  intros Hin. unfold loaded.
  destruct (fs_exists fs _); [|discriminate].
  destruct (image_open _) as [img|]; [|discriminate].
  intros [= <- <-]. split; [reflexivity|].
  unfold brain_image_mapping in Hin.
  repeat (apply elem_of_cons in Hin as [->|Hin]; [reflexivity|]).
  now apply elem_of_nil in Hin.
Qed.

(** The tables of the entries loaded from a list of items of the
    mapping. *)
Lemma tables_of_loaded (items : list (string * Info.t)) :
  (forall item, item ∈ items -> item ∈ brain_image_mapping) ->
  fst (tables_of image (omap (loaded image image_open fs raw_data_path) items))
  = inl (omap (fun item =>
                 match loaded image image_open fs raw_data_path item with
                 | Some _ => Some (fst item, rows_of (snd item))
                 | None => None
                 end) items).
Proof.
  induction items as [|item rest IH]; intros Hsub; [reflexivity|].
  assert (Hrest : forall i, i ∈ rest -> i ∈ brain_image_mapping).
  { intros i Hi. apply Hsub. now right. }
  specialize (IH Hrest). cbn [omap list_omap].
  destruct (loaded image image_open fs raw_data_path item) as [[c d]|] eqn:L;
    [|exact IH].
  destruct (table_of_loaded item c d (Hsub item ltac:(left)) L) as [-> Ht].
  cbn [tables_of]. rewrite Ht.
  fold (@omap list _ _ _ (loaded image image_open fs raw_data_path) rest).
  destruct (tables_of image (omap _ rest)) as [[tables|e] log];
    simpl in IH; [|discriminate].
  injection IH as ->. reflexivity.
Qed.

Lemma tables_keys (items : list (string * Info.t)) :
  fst <$> omap (fun item =>
                  match loaded image image_open fs raw_data_path item with
                  | Some _ => Some (fst item, rows_of (snd item))
                  | None => None
                  end) items
  = fst <$> omap (loaded image image_open fs raw_data_path) items.
Proof.
  induction items as [|item rest IH]; [reflexivity|]. cbn [omap list_omap].
  destruct (loaded image image_open fs raw_data_path item) as [[c d]|] eqn:L;
    [|exact IH].
  apply loaded_key in L as [-> _]. cbn [fmap list_fmap]. simpl. f_equal.
  exact IH.
Qed.

(** C7, as the code has it. The mapping is a constant with the four
    keys clench, imagined_grasp, passive_viewing and imagined_vs_passive.
    For the conditions loaded, [generate_statistical_tables] returns one
    table per condition. The table of a condition other than clench has
    one row per region, with the coordinates, the threshold, the p-value
    and the q-value of that region. The table of clench, whose
    coordinates and statistics are single dictionaries, has one row, for
    the first of its three regions. *)
Theorem statistical_tables_spec :
  fst <$> brain_image_mapping
  = ["clench"; "imagined_grasp"; "passive_viewing"; "imagined_vs_passive"]
  /\ exists tables,
       fst (generate_statistical_tables image
              (fst (load_brain_images image image_open fs raw_data_path)))
       = inl tables
       /\ fst <$> tables
          = fst <$> fst (load_brain_images image image_open fs raw_data_path)
       /\ forall condition table,
            (condition, table) ∈ tables ->
            exists info_,
              (condition, info_) ∈ brain_image_mapping
              /\ table = rows_of info_
              /\ (condition <> "clench" ->
                  exists coords stats,
                    Info.mni_coords info_ = Many coords
                    /\ Info.stats info_ = Many stats
                    /\ table = rows_zip (Info.regions info_) coords stats
                    /\ length table = length (Info.regions info_)
                    /\ length coords = length (Info.regions info_)
                    /\ length stats = length (Info.regions info_))
              /\ (condition = "clench" ->
                  exists c s,
                    Info.mni_coords info_ = One c
                    /\ Info.stats info_ = One s
                    /\ table = [make_row "Primary Motor Cortex (M1)" c s]
                    /\ length (Info.regions info_) = 3).
Proof.
  split; [reflexivity|].
  exists (omap (fun item =>
                  match loaded image image_open fs raw_data_path item with
                  | Some _ => Some (fst item, rows_of (snd item))
                  | None => None
                  end) brain_image_mapping).
  split; [|split].
  - unfold generate_statistical_tables.
    rewrite load_brain_images_fst, load_entries_omap.
    pose proof (tables_of_loaded brain_image_mapping (fun _ H => H)) as Ht.
    destruct (tables_of image _) as [r log]. exact Ht.
  - rewrite load_brain_images_fst, load_entries_omap. apply tables_keys.
  - intros condition table Hin.
    apply list_elem_of_omap in Hin as ([c info_] & Hitem & Hl).
    destruct (loaded image image_open fs raw_data_path (c, info_));
      [|discriminate].
    injection Hl as <- <-. simpl.
    exists info_. split; [exact Hitem|]. split; [reflexivity|].
    unfold brain_image_mapping in Hitem.
    repeat (apply elem_of_cons in Hitem as [[= -> ->]|Hitem];
            [split;
             [first [ intros Hne; now contradiction Hne
                    | intros _; eexists; eexists; repeat split; reflexivity ]
             |first [ discriminate
                    | intros _; eexists; eexists; repeat split; reflexivity ]]
            |]).
    now apply elem_of_nil in Hitem.
Qed.

End Tables.

Lemma statistical_tables_spec_witness :
  exists info_,
    ("passive_viewing", info_) ∈ brain_image_mapping
    /\ rows_of passive_viewing_info = rows_of info_
    /\ ("passive_viewing" <> "clench" ->
        exists coords stats,
          Info.mni_coords info_ = Many coords
          /\ Info.stats info_ = Many stats
          /\ rows_of passive_viewing_info
             = rows_zip (Info.regions info_) coords stats
          /\ length (rows_of passive_viewing_info)
             = length (Info.regions info_)
          /\ length coords = length (Info.regions info_)
          /\ length stats = length (Info.regions info_))
    /\ ("passive_viewing" = "clench" ->
        exists c s,
          Info.mni_coords info_ = One c
          /\ Info.stats info_ = One s
          /\ rows_of passive_viewing_info
             = [make_row "Primary Motor Cortex (M1)" c s]
          /\ length (Info.regions info_) = 3).
Proof.
  destruct (statistical_tables_spec unit Samples.open_any Samples.images_fs
              "raw") as (_ & tables & Ht & _ & Hrows).
  apply (Hrows "passive_viewing" (rows_of passive_viewing_info)).
  vm_compute in Ht. injection Ht as <-.
  right. right. left.
Defined.

(** With the image of the clench localizer loaded, its table has one
    row although the condition has three regions. *)
Lemma clench_table_has_one_row :
  match fst (generate_statistical_tables unit
               (fst (load_brain_images unit Samples.open_any
                       Samples.clench_image_fs "raw"))) with
  | inl tables => map (fun t => (fst t, length (snd t))) tables
  | inr _ => []
  end
  = [("clench", 1)]
  /\ length (Info.regions clench_info) = 3.
Proof. split; vm_compute; reflexivity. Qed.

(** With every image loaded: four tables, of one, three, two and three
    rows. *)
Example table_sizes :
  match fst (generate_statistical_tables unit
               (fst (load_brain_images unit Samples.open_any
                       Samples.images_fs "raw"))) with
  | inl tables => map (fun t => (fst t, length (snd t))) tables
  | inr _ => []
  end
  = [("clench", 1); ("imagined_grasp", 3); ("passive_viewing", 2);
     ("imagined_vs_passive", 3)].
Proof. vm_compute. reflexivity. Qed.

End StatisticalTables.

Module Pipeline.
Import PyStr PyFloat Env Preprocessing RunAnalysis.

(** The lines that announce a phase. *)
Definition is_phase_header (s : string) : bool := startswith "PHASE " s.

Definition phases (lines : list string) : list string :=
  List.filter is_phase_header lines.

Definition all_phases : list string :=
  ["PHASE 1: DATA PROCESSING";
   "PHASE 2: BRAIN IMAGE PROCESSING";
   "PHASE 3: STATISTICAL ANALYSIS";
   "PHASE 4: VISUALIZATION & RESULTS";
   "PHASE 5: SUMMARY & DELIVERABLES"].

Lemma phases_app (l1 l2 : list string) :
  phases (l1 ++ l2) = phases l1 ++ phases l2.
Proof. unfold phases. apply List.filter_app. Qed.

Lemma phases_bind {A B : Type} (m : io A) (k : A -> io B) :
  phases (fst (bind m k))
  = phases (fst m)
    ++ match snd m with
       | inl a => phases (fst (k a))
       | inr _ => []
       end.
Proof.
  unfold bind. destruct m as [lines [a|e]]; simpl.
  - destruct (k a) as [lines' r]. simpl. apply phases_app.
  - now rewrite app_nil_r.
Qed.

Lemma snd_bind {A B : Type} (m : io A) (k : A -> io B) :
  snd (bind m k)
  = match snd m with
    | inl a => snd (k a)
    | inr e => inr e
    end.
Proof.
  unfold bind. destruct m as [lines [a|e]]; simpl; auto.
  now destruct (k a).
Qed.

Lemma phases_print (s : string) :
  phases (fst (print s)) = if is_phase_header s then [s] else [].
Proof. unfold phases, print. simpl. now destruct (is_phase_header s). Qed.

Lemma phases_print_all (lines : list string) :
  forallb (fun s => negb (is_phase_header s)) lines = true ->
  phases (fst (print_all lines)) = [].
Proof.
  induction lines as [|l rest IH]; cbn [print_all forallb]; auto.
  intros H. apply andb_true_iff in H as [Hl Hr].
  rewrite phases_bind, phases_print. apply negb_true_iff in Hl. rewrite Hl.
  simpl. auto.
Qed.

Lemma snd_print_all (lines : list string) : snd (print_all lines) = inl tt.
Proof.
  induction lines as [|l rest IH]; cbn [print_all]; auto.
  rewrite snd_bind. simpl. exact IH.
Qed.

Lemma bullet_lines_no_header (items : list (string * string)) :
  forallb (fun s => negb (is_phase_header s))
    ((fun item => "   • " +:+ title (fst item) +:+ ": " +:+ snd item) <$> items)
  = true.
Proof. induction items as [|i rest IH]; simpl; auto. Qed.

(** Evaluate the test on every line printed; the first characters of a
    line are always written in the source. *)
Ltac eval_headers :=
  repeat match goal with
         | |- context [is_phase_header ?s] =>
             let b := eval vm_compute in (is_phase_header s) in
             change (is_phase_header s) with b
         end.

Ltac run_io :=
  repeat first
    [ rewrite phases_bind
    | rewrite snd_bind
    | rewrite phases_print
    | rewrite snd_print_all
    | rewrite phases_print_all by apply bullet_lines_no_header
    | progress cbn [snd fst print call ret phases List.filter app] ];
  eval_headers; cbn [app].

(** ** Computations that print no header, and what they return *)

Definition quiet {A : Type} (m : io A) : Prop := phases (fst m) = [].

(** [m] returns a value that satisfies [P]. *)
Definition yields {A : Type} (m : io A) (P : A -> Prop) : Prop :=
  exists a, snd m = inl a /\ P a.

Lemma quiet_bind {A B : Type} (m : io A) (k : A -> io B) :
  quiet m -> (forall a, quiet (k a)) -> quiet (bind m k).
Proof.
  unfold quiet. intros Hm Hk. rewrite phases_bind, Hm.
  destruct (snd m); simpl; auto.
Qed.

Lemma quiet_print (s : string) : is_phase_header s = false -> quiet (print s).
Proof. unfold quiet. intros H. now rewrite phases_print, H. Qed.

Lemma quiet_call {A : Type} (r : A + exn) : quiet (call r).
Proof. reflexivity. Qed.

Lemma quiet_ret {A : Type} (a : A) : quiet (ret a).
Proof. reflexivity. Qed.

Lemma quiet_bullets (items : list (string * string)) :
  quiet (print_all ((fun item => "   • " +:+ title (fst item) +:+ ": "
                                 +:+ snd item) <$> items)).
Proof. apply phases_print_all, bullet_lines_no_header. Qed.

Lemma yields_bind {A B : Type} (m : io A) (k : A -> io B)
  (Q : A -> Prop) (P : B -> Prop) :
  yields m Q -> (forall a, Q a -> yields (k a) P) -> yields (bind m k) P.
Proof.
  intros (a & Ha & HQ) Hk. unfold yields. rewrite snd_bind, Ha.
  now apply Hk.
Qed.

Lemma yields_print (s : string) : yields (print s) (fun _ => True).
Proof. now exists tt. Qed.

Lemma yields_call {A : Type} (r : A + exn) (a : A) :
  r = inl a -> yields (call r) (fun x => x = a).
Proof. intros ->. now exists a. Qed.

Lemma yields_ret {A : Type} (a : A) : yields (ret a) (fun x => x = a).
Proof. now exists a. Qed.

Lemma yields_ret_any {A : Type} (a : A) : yields (ret a) (fun _ => True).
Proof. now exists a. Qed.

Lemma yields_print_all (lines : list string) :
  yields (print_all lines) (fun _ => True).
Proof. exists tt. split; auto. apply snd_print_all. Qed.

Lemma yields_weaken {A : Type} (m : io A) (P Q : A -> Prop) :
  yields m P -> (forall a, P a -> Q a) -> yields m Q.
Proof. intros (a & Ha & HP) H. exists a. auto. Qed.

(** A header followed by a computation that prints none. *)
Lemma phases_header {A : Type} (h : string) (m : io A) :
  is_phase_header h = true -> quiet m ->
  phases (fst (print h >> m)) = [h].
Proof.
  intros Hh Hm. rewrite phases_bind, phases_print, Hh. simpl.
  now rewrite Hm.
Qed.

Ltac quiet_step :=
  first
    [ apply quiet_print; reflexivity
    | apply quiet_call
    | apply quiet_ret
    | apply quiet_bullets
    | apply quiet_bind; [|intros ?]
    | match goal with
      | |- quiet (if ?c then _ else _) => destruct c
      | |- quiet (match ?x with Some _ => _ | None => _ end) => destruct x
      | |- quiet (let (_, _) := ?p in _) => destruct p
      end ].

Ltac quiet_all := repeat quiet_step.

(** Follow a computation in which every call returns; the outcomes of
    the calls are among the hypotheses. *)
Ltac follow :=
  cbv beta;
  lazymatch goal with
  | |- yields (bind _ _) _ =>
      eapply yields_bind; [follow | intros ? ?; cbv beta in *; subst; follow]
  | |- yields (print _) _ => apply yields_print
  | |- yields (print_all _) _ => apply yields_print_all
  | |- yields (call _) _ => apply yields_call; eassumption
  | |- yields (ret _) _ => first [apply yields_ret | apply yields_ret_any]
  | |- yields (if ?c then _ else _) _ =>
      destruct c eqn:?; try congruence; follow
  | |- yields (match ?x with Some _ => _ | None => _ end) _ =>
      destruct x; follow
  | |- yields (let (_, _) := ?p in _) _ => destruct p; follow
  end.

Section Phases.
Variable fs : filesystem.
Variable data_root : string.
Variable o : outcomes.

Lemma quiet_banner : quiet (banner o).
Proof. unfold banner. quiet_all. Qed.

(** Each phase prints its own header and no other. *)
Lemma phases_phase_1 :
  phases (fst (phase_1 fs data_root o)) = ["PHASE 1: DATA PROCESSING"].
Proof. unfold phase_1. apply phases_header; [reflexivity|]. quiet_all. Qed.

Lemma phases_phase_2 :
  phases (fst (phase_2 o)) = ["PHASE 2: BRAIN IMAGE PROCESSING"].
Proof. unfold phase_2. apply phases_header; [reflexivity|]. quiet_all. Qed.

Lemma phases_phase_3 :
  phases (fst (phase_3 o)) = ["PHASE 3: STATISTICAL ANALYSIS"].
Proof. unfold phase_3. apply phases_header; [reflexivity|]. quiet_all. Qed.

Lemma phases_phase_4 :
  phases (fst (phase_4 o)) = ["PHASE 4: VISUALIZATION & RESULTS"].
Proof. unfold phase_4. apply phases_header; [reflexivity|]. quiet_all. Qed.

Lemma phases_phase_5 (df : DataFrame.t) (exported : list (string * string))
  (results : nat * string) (plots files : list (string * string))
  (path : string) :
  phases (fst (phase_5 o df exported results plots files path))
  = ["PHASE 5: SUMMARY & DELIVERABLES"].
Proof. unfold phase_5. apply phases_header; [reflexivity|]. quiet_all. Qed.

(** The headers that [main] prints, phase by phase. *)
Lemma phases_main :
  phases (fst (main fs data_root o))
  = "PHASE 1: DATA PROCESSING"
    :: match snd (phase_1 fs data_root o) with
       | inl (Some _) =>
           "PHASE 2: BRAIN IMAGE PROCESSING"
           :: match snd (phase_2 o) with
              | inl _ =>
                  "PHASE 3: STATISTICAL ANALYSIS"
                  :: match snd (phase_3 o) with
                     | inl _ =>
                         "PHASE 4: VISUALIZATION & RESULTS"
                         :: match snd (phase_4 o) with
                            | inl _ => ["PHASE 5: SUMMARY & DELIVERABLES"]
                            | inr _ => []
                            end
                     | inr _ => []
                     end
              | inr _ => []
              end
       | _ => []
       end.
Proof.
  unfold main. rewrite phases_bind, quiet_banner.
  assert (Hb : snd (banner o) = inl tt).
  { assert (Y : yields (banner o) (fun _ => True))
      by (unfold banner; follow).
    destruct Y as ([] & -> & _). reflexivity. }
  rewrite Hb. rewrite phases_bind, phases_phase_1. cbn [app].
  destruct (snd (phase_1 fs data_root o)) as [[[df exported]|]|e];
    [|reflexivity..].
  rewrite phases_bind, phases_phase_2. cbn [app].
  destruct (snd (phase_2 o)) as [results|e]; [|reflexivity].
  rewrite phases_bind, phases_phase_3. cbn [app].
  destruct (snd (phase_3 o)) as [[]|e]; [|reflexivity].
  rewrite phases_bind, phases_phase_4. cbn [app].
  destruct (snd (phase_4 o)) as [r4|e]; [|reflexivity].
  now rewrite phases_phase_5.
Qed.

End Phases.

(** Every call outside the model returns. *)
Definition all_return (o : outcomes) : Prop :=
  (exists a, new_processor o = inl a)
  /\ (exists a, quality_report o = inl a)
  /\ (exists a, exported_files o = inl a)
  /\ (exists a, brain_results o = inl a)
  /\ (exists a, comprehensive_report o = inl a)
  /\ (exists a, research_questions o = inl a)
  /\ (exists a, tools_vs_shapes o = inl a)
  /\ (exists a, exported_plots o = inl a)
  /\ (exists a, summary_stats o = inl a)
  /\ (exists a, results_table o = inl a)
  /\ (exists a, publication_files o = inl a)
  /\ (exists a, report_path o = inl a).

(** C6, as the code has it. The parser declares one argument, the flag
    [--verbose]. The phases are announced on standard output in the
    order 1 to 5, each at most once: what is printed of them is always
    the first phase, or the first two, and so on. When the data frame of
    S01 is not empty and no call raises, the five phases run and [main]
    returns. When the data frame of S01 is empty, [main] prints an error
    and returns after the first phase. *)
Theorem main_runs_phases_in_order (fs : filesystem) (data_root : string)
  (o : outcomes) :
  map arg_name parser_arguments = ["--verbose"]
  /\ map arg_action parser_arguments = ["store_true"]
  /\ (exists n, (1 <= n <= 5)%nat
                /\ phases (fst (main fs data_root o)) = firstn n all_phases)
  /\ (forall df,
        fst (create_trial_dataframe fs (raw_data_path data_root) (Some "S01"))
        = inl df ->
        df_empty df = false ->
        all_return o ->
        phases (fst (main fs data_root o)) = all_phases
        /\ snd (main fs data_root o) = inl tt)
  /\ (forall df,
        fst (create_trial_dataframe fs (raw_data_path data_root) (Some "S01"))
        = inl df ->
        df_empty df = true ->
        (exists a, new_processor o = inl a) ->
        phases (fst (main fs data_root o)) = ["PHASE 1: DATA PROCESSING"]
        /\ snd (main fs data_root o) = inl tt
        /\ last (fst (main fs data_root o))
           = Some "ERROR: No S01 data could be processed!").
Proof.
  split; [reflexivity|]. split; [reflexivity|]. split; [|split].
  - rewrite phases_main.
    destruct (snd (phase_1 fs data_root o)) as [[[df exported]|]|e];
      [|exists 1%nat; split; [lia|reflexivity]..].
    destruct (snd (phase_2 o)) as [results|e];
      [|exists 2%nat; split; [lia|reflexivity]].
    destruct (snd (phase_3 o)) as [[]|e];
      [|exists 3%nat; split; [lia|reflexivity]].
    destruct (snd (phase_4 o)) as [r4|e];
      [exists 5%nat|exists 4%nat]; split; (lia || reflexivity).
  - intros df Hdf Hne
      (([] & H1) & (q & H2) & (files & H3) & (results & H4) & ([] & H5)
       & (rq & H6) & (tt' & H7) & (plots & H8) & ([] & H9) & (rows & H10)
       & (pubs & H11) & (path & H12)).
    assert (Y1 : yields (phase_1 fs data_root o)
                   (fun r => r = Some (df, files)))
      by (unfold phase_1; follow).
    assert (Y2 : yields (phase_2 o) (fun r => r = results))
      by (unfold phase_2; follow).
    assert (Y3 : yields (phase_3 o) (fun _ => True))
      by (unfold phase_3; follow).
    assert (Y4 : yields (phase_4 o) (fun r => r = (plots, pubs, path)))
      by (unfold phase_4; follow).
    split.
    + rewrite phases_main.
      destruct Y1 as (? & -> & ->), Y2 as (? & -> & _), Y3 as (? & -> & _),
               Y4 as (? & -> & _).
      reflexivity.
    + assert (Y : yields (main fs data_root o) (fun _ => True)).
      { unfold main. eapply yields_bind; [unfold banner; follow|intros ? _].
        eapply yields_bind; [exact Y1|intros ? ->].
        eapply yields_bind; [exact Y2|intros ? ->].
        eapply yields_bind; [exact Y3|intros ? _].
        eapply yields_bind; [exact Y4|intros ? ->].
        unfold phase_5. follow. }
      destruct Y as ([] & -> & _). reflexivity.
  - intros df Hdf He ([] & H1).
    assert (Y1 : yields (phase_1 fs data_root o) (fun r => r = None))
      by (unfold phase_1; follow).
    split; [|split].
    + rewrite phases_main. now destruct Y1 as (? & -> & ->).
    + assert (Y : yields (main fs data_root o) (fun _ => True)).
      { unfold main. eapply yields_bind; [unfold banner; follow|intros ? _].
        eapply yields_bind; [exact Y1|intros ? ->]. apply yields_ret_any. }
      destruct Y as ([] & -> & _). reflexivity.
    + unfold main, banner, phase_1, bind, print, call, ret.
      cbn [fst snd]. rewrite H1. cbn [fst snd]. rewrite Hdf, He.
      cbn [fst snd app]. reflexivity.
Qed.

Lemma inl_of_is_inl {A B : Type} (x : A + B) (d : A) :
  match x with inl _ => true | inr _ => false end = true ->
  x = inl match x with inl a => a | inr _ => d end.
Proof. destruct x; [reflexivity|discriminate]. Qed.

Lemma main_runs_phases_in_order_witness :
  phases (fst (main Samples.data_fs "data" Samples.sample_outcomes))
  = all_phases
  /\ snd (main Samples.data_fs "data" Samples.sample_outcomes) = inl tt.
Proof.
  apply (proj1 (proj2 (proj2 (proj2
           (main_runs_phases_in_order Samples.data_fs "data"
              Samples.sample_outcomes))))
           match fst (create_trial_dataframe Samples.data_fs
                        (raw_data_path "data") (Some "S01")) with
           | inl df => df
           | inr _ => make_dataframe []
           end).
  - apply inl_of_is_inl. vm_compute. reflexivity.
  - vm_compute. reflexivity.
  - unfold all_return. repeat split; eexists; reflexivity.
Defined.

(** With no data of S01 the data frame is empty: [main] announces the
    first phase, prints an error and returns; the other four phases do
    not run. *)
Lemma empty_data_stops_after_phase_1 :
  fst (main Samples.empty_fs "data" Samples.sample_outcomes)
  = [rule "=" 80;
     "fMRI Tool Representation Study - Complete Analysis Pipeline";
     rule "=" 80;
     "Started: 2024-01-01 10:00:00";
     "";
     "PHASE 1: DATA PROCESSING";
     rule "-" 40;
     "Processing S01 representative subject data...";
     "ERROR: No S01 data could be processed!"]
  /\ snd (main Samples.empty_fs "data" Samples.sample_outcomes) = inl tt
  /\ phases (fst (main Samples.empty_fs "data" Samples.sample_outcomes))
     = ["PHASE 1: DATA PROCESSING"]
  /\ phases (fst (main Samples.empty_fs "data" Samples.sample_outcomes))
     <> all_phases.
Proof.
  split; [|split; [|split]]; try (vm_compute; reflexivity).
  vm_compute. discriminate.
Qed.

End Pipeline.

Module RegexSemantics.
Import PyStr Regex RegexFacts.

(** What it means for a regular expression to match the text [w] at
    offset [pos], capturing the groups [caps]. *)
Inductive matches : regex -> nat -> string -> list string -> Prop :=
| matches_lit (l : string) (pos : nat) : matches (Lit l) pos l []
| matches_plus (p : ascii -> bool) (pos : nat) (w : string) :
    run_of p w -> matches (Plus p) pos w []
| matches_seq (r1 r2 : regex) (pos : nat) (w1 w2 : string) (c1 c2 : list string) :
    matches r1 pos w1 c1 ->
    matches r2 (pos + String.length w1) w2 c2 ->
    matches (Seq r1 r2) pos (w1 +:+ w2) (c1 ++ c2)
| matches_group (r : regex) (pos : nat) (w : string) (c : list string) :
    matches r pos w c -> matches (Group r) pos w (w :: c)
| matches_bol : matches Bol 0 EmptyString [].

Lemma app_cons (x : ascii) (a b : string) :
  String x a +:+ b = String x (a +:+ b).
Proof. reflexivity. Qed.

Lemma app_assoc_s (a b c : string) : (a +:+ b) +:+ c = a +:+ (b +:+ c).
Proof.
  induction a as [|x a IH]; [reflexivity|]. rewrite !app_cons. now rewrite IH.
Qed.

Lemma app_empty_r (a : string) : a +:+ EmptyString = a.
Proof.
  induction a as [|x a IH]; [reflexivity|]. rewrite app_cons. now rewrite IH.
Qed.

Lemma drop_prefix_spec (l s rest : string) :
  drop_prefix l s = Some rest <-> s = l +:+ rest.
Proof.
  revert s. induction l as [|a l IH]; intros s; simpl.
  - split; [now intros [= ->] | now intros ->].
  - destruct s as [|b s]; [split; discriminate|].
    unfold chr_eqb. destruct (N.eqb_spec (code a) (code b)) as [E|E].
    + apply (f_equal ascii_of_N) in E. unfold code in E.
      rewrite !ascii_N_embedding in E. subst b. rewrite IH.
      split; [now intros -> | now intros [= ->]].
    + split; [discriminate|]. intros [= -> _]. now contradiction E.
Qed.

Lemma star_rests_iff (p : ascii -> bool) (s rest : string) :
  rest ∈ star_rests p s <-> exists w, s = w +:+ rest /\ all_chars p w = true.
Proof.
  split; [apply star_rests_spec|].
  intros (w & -> & Hw). induction w as [|c w IH]; simpl in *.
  - destruct rest as [|c rest]; simpl; [left|].
    destruct (p c); [apply elem_of_app; right; left | left].
  - apply andb_true_iff in Hw as [Hc Hw]. rewrite Hc.
    apply elem_of_app. left. auto.
Qed.

Lemma plus_rests_iff (p : ascii -> bool) (s rest : string) :
  rest ∈ plus_rests p s <-> exists w, s = w +:+ rest /\ run_of p w.
Proof.
  split.
  - intros H. destruct (plus_rests_spec _ _ _ H) as (w & -> & Hw & Hne).
    exists w. repeat split; auto.
  - intros (w & -> & Hne & Hw). destruct w as [|c w]; [congruence|].
    simpl in *. apply andb_true_iff in Hw as [Hc Hw]. rewrite Hc.
    apply star_rests_iff. eauto.
Qed.

(** The matcher enumerates exactly the matches: a pair of captured
    groups and text left is among its results when and only when the
    text consumed matches. *)
Lemma exec_iff (r : regex) (pos : nat) (s rest : string) (c : list string) :
  (c, rest) ∈ exec r pos s
  <-> exists w, s = w +:+ rest /\ matches r pos w c.
Proof.
  revert pos s rest c.
  induction r as [l|p|r1 IH1 r2 IH2|r IH|]; intros pos s rest c; simpl.
  - destruct (drop_prefix l s) as [rest'|] eqn:E.
    + apply drop_prefix_spec in E. rewrite list_elem_of_singleton. split.
      * intros [= -> ->]. exists l. split; [exact E | constructor].
      * intros (w & -> & H). inversion H; subst.
        f_equal. apply drop_prefix_spec in E.
        assert (Hd : drop_prefix w (w +:+ rest) = Some rest)
          by now apply drop_prefix_spec.
        congruence.
    + split; [intros H; now apply elem_of_nil in H|].
      intros (w & -> & H). inversion H; subst.
      assert (Hd : drop_prefix w (w +:+ rest) = Some rest)
        by now apply drop_prefix_spec.
      congruence.
  - rewrite list_elem_of_fmap. split.
    + intros (r0 & [= -> ->] & Hin). apply plus_rests_iff in Hin as (w & -> & Hw).
      exists w. split; [reflexivity | now constructor].
    + intros (w & -> & H). inversion H; subst. exists rest. split; [reflexivity|].
      apply plus_rests_iff. eauto.
  - rewrite list_elem_of_In, in_flat_map. split.
    + intros ([c1 s1] & H1 & H2). apply list_elem_of_In in H1, H2.
      apply list_elem_of_fmap in H2 as ([c2 s2] & [= -> ->] & H2).
      apply IH1 in H1 as (w1 & -> & M1). apply IH2 in H2 as (w2 & -> & M2).
      exists (w1 +:+ w2). split; [now rewrite app_assoc_s|].
      constructor; [exact M1|].
      rewrite length_app in M2.
      replace (pos + (String.length w1 + String.length (w2 +:+ s2)
                      - String.length (w2 +:+ s2)))%nat
        with (pos + String.length w1)%nat in M2 by lia.
      exact M2.
    + intros (w & -> & H). inversion H; subst.
      exists (c1, w2 +:+ rest). split.
      * apply list_elem_of_In, IH1. exists w1. split; [apply app_assoc_s | assumption].
      * apply list_elem_of_In, list_elem_of_fmap. exists (c2, rest).
        split; [reflexivity|]. apply IH2. exists w2. split; [reflexivity|].
        rewrite app_assoc_s, length_app.
        replace (pos + (String.length w1 + String.length (w2 +:+ rest)
                        - String.length (w2 +:+ rest)))%nat
          with (pos + String.length w1)%nat by lia.
        assumption.
  - rewrite list_elem_of_fmap. split.
    + intros ([c0 r0] & [= -> ->] & Hin). apply IH in Hin as (w & -> & M).
      exists w. split; [reflexivity|]. rewrite consumed_app. now constructor.
    + intros (w & -> & H). inversion H; subst. exists (c0, rest).
      split; [now rewrite consumed_app|]. apply IH. eauto.
  - destruct (Nat.eqb_spec pos 0) as [->|Hne].
    + rewrite list_elem_of_singleton. split.
      * intros [= -> ->]. exists EmptyString. split; [reflexivity | constructor].
      * intros (w & -> & H). inversion H; subst. reflexivity.
    + split; [intros H; now apply elem_of_nil in H|].
      intros (w & -> & H). inversion H; subst. congruence.
Qed.

(** [re.match] and [re.search] find a match when and only when there is
    one. *)
Lemma re_match_some (r : regex) (s : string) (c : list string) :
  re_match r s = Some c -> exists w rest, s = w +:+ rest /\ matches r 0 w c.
Proof.
  intros H. apply re_match_spec in H as (rest & H).
  apply exec_iff in H as (w & -> & M). eauto.
Qed.

Lemma re_match_none (r : regex) (s : string) :
  re_match r s = None ->
  forall w rest c, s = w +:+ rest -> ~ matches r 0 w c.
Proof.
  unfold re_match. intros H w rest c -> M.
  assert (Hin : (c, rest) ∈ exec r 0 (w +:+ rest)) by (apply exec_iff; eauto).
  destruct (exec r 0 (w +:+ rest)) as [|[c0 r0] l]; [|discriminate].
  now apply elem_of_nil in Hin.
Qed.

Lemma search_from_some (r : regex) (pos : nat) (s : string) (c : list string) :
  search_from r pos s = Some c ->
  exists pre w rest,
    s = pre +:+ w +:+ rest /\ matches r (pos + String.length pre) w c.
Proof.
  revert pos. induction s as [|a s IH]; intros pos; simpl.
  - destruct (exec r pos EmptyString) as [|[c0 r0] l] eqn:E; [discriminate|].
    intros [= <-].
    assert (Hin : (c0, r0) ∈ exec r pos EmptyString) by (rewrite E; left).
    apply exec_iff in Hin as (w & Hw & M).
    exists EmptyString, w, r0. simpl. rewrite Nat.add_0_r. auto.
  - destruct (exec r pos (String a s)) as [|[c0 r0] l] eqn:E.
    + intros H. apply IH in H as (pre & w & rest & -> & M).
      exists (String a pre), w, rest. split; [reflexivity|].
      simpl. now rewrite Nat.add_succ_r.
    + intros [= <-].
      assert (Hin : (c0, r0) ∈ exec r pos (String a s)) by (rewrite E; left).
      apply exec_iff in Hin as (w & Hw & M).
      exists EmptyString, w, r0. simpl. rewrite Nat.add_0_r. auto.
Qed.

Lemma search_from_none (r : regex) (pos : nat) (s : string) :
  search_from r pos s = None ->
  forall pre w rest c,
    s = pre +:+ w +:+ rest -> ~ matches r (pos + String.length pre) w c.
Proof.
  revert pos. induction s as [|a s IH]; intros pos; simpl.
  - destruct (exec r pos EmptyString) as [|[c0 r0] l] eqn:E; [|discriminate].
    intros _ pre w rest c Hs M.
    destruct pre as [|b pre]; [|discriminate]. simpl in *.
    rewrite Nat.add_0_r in M.
    assert (Hin : (c, rest) ∈ exec r pos EmptyString)
      by (apply exec_iff; eauto).
    rewrite E in Hin. now apply elem_of_nil in Hin.
  - destruct (exec r pos (String a s)) as [|[c0 r0] l] eqn:E; [|discriminate].
    intros H pre w rest c Hs M. destruct pre as [|b pre].
    + simpl in *. rewrite Nat.add_0_r in M.
      assert (Hin : (c, rest) ∈ exec r pos (String a s))
        by (apply exec_iff; eauto).
      rewrite E in Hin. now apply elem_of_nil in Hin.
    + rewrite app_cons in Hs. injection Hs as -> ->.
      apply (IH (S pos) H pre w rest c eq_refl).
      simpl in M. now rewrite Nat.add_succ_r in M.
Qed.

End RegexSemantics.

Module FileNames.
Import PyStr Regex RegexFacts RegexSemantics Preprocessing.

Ltac inv_matches :=
  repeat match goal with
         | H : matches (Seq _ _) _ _ _ |- _ => inversion H; clear H; subst
         | H : matches (Lit _) _ _ _ |- _ => inversion H; clear H; subst
         | H : matches (Group _) _ _ _ |- _ => inversion H; clear H; subst
         | H : matches (Plus _) _ _ _ |- _ => inversion H; clear H; subst
         | H : matches Bol _ _ _ |- _ => inversion H; clear H; subst
         end.

(** ** The name of a condition file *)

(** A name that reads [S<digits>_<condition>_<stimulus>.txt], possibly
    with more text after it. *)
Definition condition_name (filename condition stimulus : string) : Prop :=
  exists digits rest,
    filename = "S" +:+ digits +:+ "_" +:+ condition +:+ "_" +:+ stimulus
               +:+ ".txt" +:+ rest
    /\ run_of is_digit digits /\ run_of is_word condition
    /\ run_of is_word stimulus.

Lemma matches_condition_filename (w : string) (c : list string) :
  matches re_condition_filename 0 w c
  <-> exists digits condition stimulus,
        w = "S" +:+ digits +:+ "_" +:+ condition +:+ "_" +:+ stimulus +:+ ".txt"
        /\ c = [condition; stimulus]
        /\ run_of is_digit digits /\ run_of is_word condition
        /\ run_of is_word stimulus.
Proof.
  unfold re_condition_filename. split.
  - intros H. inv_matches. eauto 10.
  - intros (ds & cn & st & -> & -> & Hd & Hc & Hs).
    change [cn; st] with ([] ++ [] ++ [] ++ (cn :: []) ++ [] ++ (st :: []) ++ []).
    repeat (constructor; auto).
Qed.

(** X1. A name of the form [S<digits>_<condition>_<stimulus>.txt],
    where the condition and the stimulus are runs of letters, digits and
    underscores, is parsed into a condition and a stimulus in which it
    can be so read; any other name gives [unknown] twice. A name with a
    single underscore, such as [S01_clench.txt], is of the second
    kind. *)
Theorem parse_condition_filename_spec (filename : string) :
  ((exists condition stimulus, condition_name filename condition stimulus) ->
   condition_name filename (fst (_parse_condition_filename filename))
     (snd (_parse_condition_filename filename)))
  /\ (~ (exists condition stimulus, condition_name filename condition stimulus) ->
      _parse_condition_filename filename = ("unknown", "unknown")).
Proof.
  unfold _parse_condition_filename.
  destruct (re_match re_condition_filename filename) as [m|] eqn:E.
  - apply re_match_some in E as (w & rest & -> & M).
    apply matches_condition_filename in M
      as (ds & cn & st & -> & -> & Hd & Hc & Hs).
    assert (Hn : condition_name
                   (("S" +:+ ds +:+ "_" +:+ cn +:+ "_" +:+ st +:+ ".txt")
                    +:+ rest) cn st).
    { exists ds, rest. repeat split; try apply Hd; try apply Hc; try apply Hs.
      rewrite !app_assoc_s. reflexivity. }
    split; [intros _; exact Hn|].
    intros Hno. contradiction Hno. eauto.
  - split; [|reflexivity].
    intros (cn & st & ds & rest & -> & Hd & Hc & Hs). exfalso.
    eapply (re_match_none _ _ E
              ("S" +:+ ds +:+ "_" +:+ cn +:+ "_" +:+ st +:+ ".txt") rest).
    + rewrite !app_assoc_s. reflexivity.
    + apply matches_condition_filename. eauto 10.
Qed.

Lemma parse_condition_filename_spec_witness :
  condition_name "S01_PV_SCR_tool.txt"
    (fst (_parse_condition_filename "S01_PV_SCR_tool.txt"))
    (snd (_parse_condition_filename "S01_PV_SCR_tool.txt")).
Proof.
  apply (proj1 (parse_condition_filename_spec "S01_PV_SCR_tool.txt")).
  exists "PV", "SCR_tool", "01", "".
  repeat split; try reflexivity; discriminate.
Defined.

Example parse_condition_filename_examples :
  _parse_condition_filename "S01_PV_SCR_tool.txt" = ("PV_SCR", "tool")
  /\ _parse_condition_filename "S01_clench.txt" = ("unknown", "unknown")
  /\ _parse_condition_filename "S12_IG_shape.txt.bak" = ("IG", "shape").
Proof. vm_compute. auto. Qed.

(** ** The participant of a file name *)

(** An [S] followed by a digit occurs in the text. *)
Fixpoint has_S_digit (s : string) : bool :=
  match s with
  | EmptyString => false
  | String a s' =>
      (chr_eqb a "S"%char
       && match s' with String b _ => is_digit b | EmptyString => false end)
      || has_S_digit s'
  end.

Definition starts_with_digit (s : string) : bool :=
  match s with String b _ => is_digit b | EmptyString => false end.

(** The greedy run comes first among the remainders. *)
Lemma star_rests_head (p : ascii -> bool) (w rest : string) :
  all_chars p w = true -> match rest with
                          | String b _ => p b = false
                          | EmptyString => True
                          end ->
  exists l, star_rests p (w +:+ rest) = rest :: l.
Proof.
  intros Hw Hr. induction w as [|a w IH].
  - change (EmptyString +:+ rest) with rest.
    destruct rest as [|b rest]; [simpl; eauto|]. simpl. rewrite Hr. eauto.
  - cbn [all_chars] in Hw. apply andb_true_iff in Hw as [Ha Hw].
    rewrite app_cons. cbn [star_rests]. rewrite Ha.
    destruct (IH Hw) as [l ->]. simpl. eauto.
Qed.

Lemma exec_S_digits_head (pos : nat) (digits rest : string) :
  run_of is_digit digits -> starts_with_digit rest = false ->
  exists l,
    exec re_S_digits pos ("S" +:+ digits +:+ rest) = ([digits], rest) :: l.
Proof.
  intros [Hne Hd] Hr. unfold re_S_digits.
  destruct digits as [|d ds]; [congruence|].
  simpl in Hd. apply andb_true_iff in Hd as [Hd Hds].
  assert (Hh : match rest with
               | String b _ => is_digit b = false
               | EmptyString => True
               end) by (destruct rest; auto).
  destruct (star_rests_head is_digit ds rest Hds Hh) as [l Hl].
  cbn [exec]. change ("S" +:+ String d ds +:+ rest)
    with (String "S" (String d (ds +:+ rest))).
  cbn [drop_prefix]. replace (chr_eqb "S" "S") with true by reflexivity.
  cbn [drop_prefix flat_map plus_rests]. rewrite Hd, Hl.
  rewrite app_nil_r. cbn [map]. eexists.
  change (String d (ds +:+ rest)) with (String d ds +:+ rest).
  rewrite consumed_app. reflexivity.
Qed.

Lemma exec_S_digits_none (pos : nat) (a : ascii) (s : string) :
  (chr_eqb a "S"%char && starts_with_digit s) = false ->
  exec re_S_digits pos (String a s) = [].
Proof.
  intros H. unfold re_S_digits. cbn [exec drop_prefix].
  replace (chr_eqb "S" a) with (chr_eqb a "S")
    by (unfold chr_eqb; apply N.eqb_sym).
  destruct (chr_eqb a "S"); [|reflexivity]. simpl in H.
  cbn [flat_map]. rewrite app_nil_r.
  destruct s as [|b s]; [reflexivity|]. simpl in H.
  cbn [exec plus_rests]. now rewrite H.
Qed.

Lemma starts_with_digit_app (a b : string) :
  a <> EmptyString -> starts_with_digit (a +:+ b) = starts_with_digit a.
Proof. destruct a; [congruence | reflexivity]. Qed.

Lemma search_S_digits (pos : nat) (pre digits rest : string) :
  has_S_digit (pre +:+ "S") = false ->
  run_of is_digit digits -> starts_with_digit rest = false ->
  search_from re_S_digits pos (pre +:+ "S" +:+ digits +:+ rest)
  = Some [digits].
Proof.
  intros Hpre Hd Hr. revert pos. induction pre as [|a pre IH]; intros pos.
  - destruct (exec_S_digits_head pos digits rest Hd Hr) as [l Hl].
    change (EmptyString +:+ "S" +:+ digits +:+ rest)
      with (String "S" (digits +:+ rest)) in *.
    change ("S" +:+ digits +:+ rest) with (String "S" (digits +:+ rest)) in Hl.
    cbn [search_from]. now rewrite Hl.
  - rewrite app_cons in *. cbn [has_S_digit] in Hpre.
    apply orb_false_iff in Hpre as [Ha Hpre].
    cbn [search_from]. rewrite exec_S_digits_none; [now apply IH|].
    destruct (chr_eqb a "S"); [|reflexivity]. simpl in *.
    destruct pre as [|b pre]; [reflexivity|]. exact Ha.
Qed.

(** X2. The participant of a file name is read at the first [S] that a
    digit follows: when no [S] before it is followed by a digit, and
    the digits after it are followed by no further digit, the
    participant is [S] and that whole run of digits, padded with zeros
    on the left to two digits. A later [S] with other digits is not
    looked at. *)
Theorem participant_id_of_first_S (pre digits rest : string) :
  has_S_digit (pre +:+ "S") = false ->
  run_of is_digit digits -> starts_with_digit rest = false ->
  _extract_participant_id (pre +:+ "S" +:+ digits +:+ rest)
  = "S" +:+ zfill 2 digits.
Proof.
  intros Hpre Hd Hr. unfold _extract_participant_id, re_search.
  now rewrite (search_S_digits 0 pre digits rest Hpre Hd Hr).
Qed.

Lemma participant_id_of_first_S_witness :
  _extract_participant_id ("Session_" +:+ "S" +:+ "7" +:+ "_S12_run.log")
  = "S" +:+ zfill 2 "7".
Proof.
  apply (participant_id_of_first_S "Session_" "7" "_S12_run.log").
  - reflexivity.
  - split; [discriminate | reflexivity].
  - reflexivity.
Defined.

(** The three places where a participant number is looked for. *)
Definition has_S_number (filename : string) : Prop :=
  exists pre digits rest,
    filename = pre +:+ "S" +:+ digits +:+ rest /\ run_of is_digit digits.

Definition has_leading_number (filename : string) : Prop :=
  exists digits rest,
    filename = digits +:+ "_" +:+ rest /\ run_of is_digit digits.

Definition has_name_and_number (filename : string) : Prop :=
  exists pre name digits rest,
    filename = pre +:+ name +:+ "_" +:+ digits +:+ "_" +:+ rest
    /\ run_of is_word name /\ run_of is_digit digits.

Lemma search_iff (r : regex) (s : string) :
  re_search r s = None
  <-> ~ exists pre w rest c,
        s = pre +:+ w +:+ rest /\ matches r (String.length pre) w c.
Proof.
  unfold re_search. split.
  - intros H (pre & w & rest & c & Hs & M).
    exact (search_from_none r 0 s H pre w rest c Hs M).
  - intros H. destruct (search_from r 0 s) as [c|] eqn:E; [|reflexivity].
    contradiction H. apply search_from_some in E as (pre & w & rest & Hs & M).
    eauto 10.
Qed.

Lemma matches_S_digits (pos : nat) (w : string) (c : list string) :
  matches re_S_digits pos w c
  <-> exists digits, w = "S" +:+ digits /\ c = [digits] /\ run_of is_digit digits.
Proof.
  unfold re_S_digits. split.
  - intros H. inv_matches. eauto.
  - intros (ds & -> & -> & Hd). change [ds] with ([] ++ [ds]).
    repeat (constructor; auto).
Qed.

Lemma matches_leading_digits (pos : nat) (w : string) (c : list string) :
  matches re_leading_digits pos w c
  <-> pos = 0%nat
      /\ exists digits,
           w = digits +:+ "_" /\ c = [digits] /\ run_of is_digit digits.
Proof.
  unfold re_leading_digits. split.
  - intros H. inv_matches. split; [reflexivity|]. eauto.
  - intros (-> & ds & -> & -> & Hd).
    change [ds] with ([] ++ [ds] ++ []).
    change (ds +:+ "_") with (EmptyString +:+ ds +:+ "_").
    repeat (constructor; auto).
Qed.

Lemma matches_name_digits (pos : nat) (w : string) (c : list string) :
  matches re_name_digits pos w c
  <-> exists name digits,
        w = name +:+ "_" +:+ digits +:+ "_" /\ c = [name; digits]
        /\ run_of is_word name /\ run_of is_digit digits.
Proof.
  unfold re_name_digits. split.
  - intros H. inv_matches. eauto 10.
  - intros (name & ds & -> & -> & Hn & Hd).
    change [name; ds] with ([name] ++ [] ++ [ds] ++ []).
    repeat (constructor; auto).
Qed.

(** X3. The participant is [Unknown] exactly when the name has no [S]
    followed by a digit, does not begin with digits followed by an
    underscore, and has no letter, digit or underscore followed by an
    underscore, digits and another underscore. *)
Theorem participant_id_unknown_iff (filename : string) :
  _extract_participant_id filename = "Unknown"
  <-> ~ has_S_number filename /\ ~ has_leading_number filename
      /\ ~ has_name_and_number filename.
Proof.
  assert (H1 : re_search re_S_digits filename = None
               <-> ~ has_S_number filename).
  { rewrite search_iff. unfold has_S_number. split.
    - intros H (pre & ds & rest & -> & Hd). apply H.
      exists pre, ("S" +:+ ds), rest, [ds]. split.
      + now rewrite !app_assoc_s.
      + apply matches_S_digits. eauto.
    - intros H (pre & w & rest & c & -> & M). apply H.
      apply matches_S_digits in M as (ds & -> & -> & Hd).
      exists pre, ds, rest. rewrite !app_assoc_s. auto. }
  assert (H2 : re_search re_leading_digits filename = None
               <-> ~ has_leading_number filename).
  { rewrite search_iff. unfold has_leading_number. split.
    - intros H (ds & rest & -> & Hd). apply H.
      exists "", (ds +:+ "_"), rest, [ds]. split.
      + simpl. now rewrite !app_assoc_s.
      + apply matches_leading_digits. eauto.
    - intros H (pre & w & rest & c & -> & M). apply H.
      apply matches_leading_digits in M as (Hp & ds & -> & -> & Hd).
      destruct pre; [|discriminate]. simpl.
      exists ds, rest. rewrite !app_assoc_s. auto. }
  assert (H3 : re_search re_name_digits filename = None
               <-> ~ has_name_and_number filename).
  { rewrite search_iff. unfold has_name_and_number. split.
    - intros H (pre & name & ds & rest & -> & Hn & Hd). apply H.
      exists pre, (name +:+ "_" +:+ ds +:+ "_"), rest, [name; ds]. split.
      + now rewrite !app_assoc_s.
      + apply matches_name_digits. eauto 10.
    - intros H (pre & w & rest & c & -> & M). apply H.
      apply matches_name_digits in M as (name & ds & -> & -> & Hn & Hd).
      exists pre, name, ds, rest. rewrite !app_assoc_s. auto. }
  unfold _extract_participant_id.
  destruct (re_search re_S_digits filename) as [m1|].
  { split; [discriminate|]. intros [H _]. apply H1 in H. discriminate. }
  destruct (re_search re_leading_digits filename) as [m2|].
  { split; [discriminate|]. intros (_ & H & _). apply H2 in H. discriminate. }
  destruct (re_search re_name_digits filename) as [m3|].
  { split; [discriminate|]. intros (_ & _ & H). apply H3 in H. discriminate. }
  split; [|reflexivity]. intros _.
  split; [now apply H1|split; [now apply H2 | now apply H3]].
Qed.

End FileNames.

Module LineFields.
Import PyStr PyFloat Regex Env Preprocessing.

Lemma chr_eqb_eq (a b : ascii) : chr_eqb a b = true <-> a = b.
Proof.
  unfold chr_eqb, code. rewrite N.eqb_eq. split; [|now intros ->].
  intros E. apply (f_equal ascii_of_N) in E.
  now rewrite !ascii_N_embedding in E.
Qed.

Lemma split_on_nonempty (sep : ascii) (s : string) : split_on sep s <> [].
Proof.
  destruct s as [|c s]; simpl; [discriminate|].
  destruct (chr_eqb c sep); [discriminate|].
  destruct (split_on sep s); discriminate.
Qed.

Definition no_chr (c : ascii) (s : string) : bool :=
  all_chars (fun x => negb (chr_eqb x c)) s.

(** Splitting on a character and joining with it gives the text back,
    and no field holds the character. *)
Lemma join_cons (sep x : string) (l : list string) :
  l <> [] -> join sep (x :: l) = x +:+ sep +:+ join sep l.
Proof. destruct l; [congruence | reflexivity]. Qed.

Lemma join_split_on (sep : ascii) (s : string) :
  join (String sep "") (split_on sep s) = s
  /\ Forall (fun f => no_chr sep f = true) (split_on sep s).
Proof.
  induction s as [|c s [IH1 IH2]]; cbn [split_on].
  - split; [reflexivity | repeat constructor].
  - pose proof (split_on_nonempty sep s) as Hne.
    destruct (chr_eqb c sep) eqn:E.
    + apply chr_eqb_eq in E as ->. split.
      * rewrite join_cons by assumption. now rewrite IH1.
      * constructor; [reflexivity | exact IH2].
    + destruct (split_on sep s) as [|f fs] eqn:S; [congruence|].
      split.
      * destruct fs as [|g fs].
        { cbn [join] in *. now rewrite IH1. }
        rewrite join_cons in * by discriminate.
        change (String c f +:+ String sep "" +:+ join (String sep "") (g :: fs))
          with (String c (f +:+ String sep "" +:+ join (String sep "") (g :: fs))).
        now rewrite IH1.
      * inversion IH2; subst. constructor; [|assumption].
        unfold no_chr in *. cbn [all_chars]. rewrite E. simpl. assumption.
Qed.

(** A text has a separator exactly when it has more than one field. *)
Lemma split_on_single (sep : ascii) (s : string) :
  no_chr sep s = true <-> split_on sep s = [s].
Proof.
  induction s as [|c s IH]; simpl.
  - split; reflexivity.
  - unfold no_chr in *. simpl. destruct (chr_eqb c sep); simpl.
    + split; [discriminate|]. intros [=].
    + rewrite IH. destruct (split_on sep s) as [|f fs] eqn:S.
      * now apply split_on_nonempty in S.
      * split; [now intros [= -> ->] | now intros [= -> ->]].
Qed.

(** X4. The fields of a line. A line is passed over exactly when, with
    the surrounding whitespace stripped, it holds no tab. Otherwise the
    time stamp and the level are its first two fields, neither holding a
    tab, and the content is all that follows the second tab, further
    tabs included: the stripped line is the three joined by tabs. *)
Theorem line_fields_round_trip (raw : string) :
  (line_fields raw = None <-> no_chr tab (strip raw) = true)
  /\ (forall timestamp log_level content,
        line_fields raw = Some (timestamp, log_level, content) ->
        no_chr tab timestamp = true /\ no_chr tab log_level = true
        /\ ((strip raw = timestamp +:+ String tab "" +:+ log_level
             /\ content = "")
            \/ strip raw
               = timestamp +:+ String tab "" +:+ log_level
                 +:+ String tab "" +:+ content)).
Proof.
  unfold line_fields.
  destruct (join_split_on tab (strip raw)) as [J F].
  pose proof (split_on_single tab (strip raw)) as Hs.
  destruct (string_eqb (strip raw) "") eqn:Em.
  - apply String.eqb_eq in Em. rewrite Em. split; [|discriminate].
    split; reflexivity.
  - destruct (split_on tab (strip raw)) as [|a [|b rest]] eqn:S.
    + now apply split_on_nonempty in S.
    + simpl. split.
      * split; [intros _|reflexivity]. apply Hs. f_equal.
        simpl in J. congruence.
      * discriminate.
    + cbn [length Nat.ltb Nat.leb nth drop]. split.
      * split; [discriminate|]. intros H. apply Hs in H. discriminate.
      * intros timestamp log_level content [= <- <- <-].
        inversion F as [|? ? Fa F']; subst. inversion F' as [|? ? Fb _]; subst.
        split; [exact Fa|]. split; [exact Fb|].
        destruct rest as [|c rest]; simpl in *; [left; auto|right].
        now rewrite J.
Qed.

Lemma line_fields_round_trip_witness :
  no_chr tab "2.0" = true /\ no_chr tab "EXP" = true
  /\ ((strip (Samples.log_line "2.0" "EXP" ("a" +:+ String tab "b"))
       = "2.0" +:+ String tab "" +:+ "EXP"
       /\ ("a" +:+ String tab "b") = "")
      \/ strip (Samples.log_line "2.0" "EXP" ("a" +:+ String tab "b"))
         = "2.0" +:+ String tab "" +:+ "EXP" +:+ String tab "" +:+ ("a" +:+ String tab "b")).
Proof.
  apply (proj2 (line_fields_round_trip (Samples.log_line "2.0" "EXP" ("a" +:+ String tab "b")))).
  vm_compute. reflexivity.
Defined.

End LineFields.

Module LogInvariants.
Import PyStr PyFloat Regex Env Preprocessing.

(** ** An induction principle for the loop over the lines *)

Section Invariant.

(** A property of the dictionary and of the flag [scan_started]. *)
Variable P : LogData.t -> bool -> Prop.

Hypothesis P_start :
  forall d b f, P d b -> P (set_scan_start f d) true.
Hypothesis P_end :
  forall d f, P d true -> P (set_scan_end f d) true.
Hypothesis P_trial :
  forall d t, P d true -> P (set_trials (LogData.trials d ++ [t]) d) true.
Hypothesis P_timings :
  forall d l, P d true -> P (set_stimulus_timings l d) true.
Hypothesis P_keys :
  forall d l, P d true -> P (set_keypresses l d) true.

Definition holds (st : pstate) : Prop := P (pdata st) (scan_started st).

Lemma holds_stimulus (content timestamp : string) (st : pstate) :
  holds st -> scan_started st = true ->
  holds (fst (_parse_stimulus_presentation content timestamp st))
  /\ scan_started (fst (_parse_stimulus_presentation content timestamp st))
     = true.
Proof.
  unfold holds, _parse_stimulus_presentation. intros H Hs.
  destruct (re_search re_autodraw content) as [m|]; [|split; assumption].
  unfold then_, modify, with_float. simpl.
  destruct (float_of timestamp) as [f|e]; simpl; rewrite Hs in *.
  - split; [|reflexivity]. apply P_timings.
    destruct (LogData.stimulus_timings (pdata st)); auto.
  - split; [|reflexivity].
    destruct (LogData.stimulus_timings (pdata st)); auto.
Qed.

Lemma holds_keypress (content timestamp : string) (st : pstate) :
  holds st -> scan_started st = true ->
  holds (fst (_parse_keypress content timestamp st)).
Proof.
  unfold holds, _parse_keypress. intros H Hs.
  destruct (re_search re_keypress content) as [m|]; [|assumption].
  unfold then_, modify, with_float. simpl.
  destruct (float_of timestamp) as [f|e]; simpl; rewrite Hs in *.
  - apply P_keys. destruct (LogData.keypresses (pdata st)); auto.
  - destruct (LogData.keypresses (pdata st)); auto.
Qed.

Lemma holds_process_line (raw : string) (st : pstate) :
  holds st -> holds (fst (process_line raw st)).
Proof.
  intros H. unfold process_line.
  destruct (line_fields raw) as [[[timestamp level] content]|]; [|exact H].
  (* the start of the scan *)
  unfold then_ at 1.
  set (a1 := when _ _ st).
  assert (H1 : holds (fst a1)
               /\ (snd a1 = None ->
                   scan_started (fst a1)
                   = (contains "start of scan" content || scan_started st))).
  { subst a1. unfold when, with_float.
    destruct (contains "start of scan" content); [|auto].
    destruct (float_of timestamp) as [f|e]; [|simpl; split; [auto|discriminate]].
    unfold then_, modify, set_started, emit, holds. simpl.
    split; [|reflexivity]. eapply P_start, H. }
  destruct a1 as [st1 [e|]]; [apply H1|]. destruct H1 as [H1 _].
  simpl in H1. clear H st.
  (* the end of the scan *)
  unfold then_ at 1.
  set (a2 := when _ _ st1).
  assert (H2 : holds (fst a2) /\ scan_started (fst a2) = scan_started st1).
  { subst a2. unfold when, with_float.
    destruct (contains "window1: mouseVisible = True" content); [|auto].
    destruct (scan_started st1) eqn:Hs; [|auto]. simpl.
    destruct (float_of timestamp) as [f|e]; [|simpl; auto].
    unfold then_, modify, emit, holds. simpl. rewrite Hs.
    split; [|reflexivity]. apply P_end. unfold holds in H1. now rewrite Hs in H1. }
  destruct a2 as [st2 [e|]]; [apply H2|]. destruct H2 as [H2 E2].
  simpl in H2, E2. clear H1.
  (* a trial *)
  unfold then_ at 1.
  set (a3 := when _ _ st2).
  assert (H3 : holds (fst a3) /\ scan_started (fst a3) = scan_started st2).
  { subst a3. unfold when.
    destruct (scan_started st2) eqn:Hs; [|simpl; auto]. simpl.
    destruct (contains "New trial" content); [|simpl; auto].
    destruct (_parse_trial_line content timestamp) as [t|e];
      [|simpl; auto].
    unfold modify, holds. simpl. rewrite Hs. split; [|reflexivity].
    apply P_trial. unfold holds in H2. now rewrite Hs in H2. }
  destruct a3 as [st3 [e|]]; [apply H3|]. destruct H3 as [H3 E3].
  simpl in H3, E3. clear H2.
  (* a stimulus *)
  unfold then_ at 1.
  set (a4 := when _ _ st3).
  assert (H4 : holds (fst a4) /\ scan_started (fst a4) = scan_started st3).
  { subst a4. unfold when.
    destruct (scan_started st3) eqn:Hs; [|simpl; auto]. simpl.
    destruct (contains "autoDraw = True" content); [|simpl; auto].
    now apply holds_stimulus. }
  destruct a4 as [st4 [e|]]; [apply H4|]. destruct H4 as [H4 E4].
  simpl in H4, E4. clear H3.
  (* a key press *)
  unfold when.
  destruct (scan_started st4) eqn:Hs; [|exact H4]. simpl.
  destruct (contains "Keypress:" content); [|exact H4].
  now apply holds_keypress.
Qed.

Lemma holds_run_lines (lines : list string) (st : pstate) :
  holds st -> holds (fst (run_lines lines st)).
Proof.
  revert st. induction lines as [|l lines IH]; intros st H; [exact H|].
  simpl. unfold then_.
  pose proof (holds_process_line l st H) as H1.
  destruct (process_line l st) as [st1 [e|]]; [exact H1|]. now apply IH.
Qed.

(** The property holds of the dictionary returned when it holds of the
    dictionary with which the loop is entered. *)
Lemma holds_parse (fs : filesystem) (path text : string) :
  fs_open fs path = inl text ->
  P (set_ids (_extract_participant_id (basename path))
       (_extract_condition (basename path)) (initial_log_data path)) false ->
  exists b, P (fst (parse_psychopy_logs fs path)) b.
Proof.
  intros Ho H0.
  rewrite (PsychopyLogs.parse_psychopy_logs_read fs path text Ho).
  eexists. apply holds_run_lines. exact H0.
Qed.

End Invariant.

(** ** The scan start comes first *)

Definition started_first (d : LogData.t) (started : bool) : Prop :=
  (started = true -> LogData.scan_start d <> None)
  /\ (started = false ->
      LogData.scan_end d = None /\ LogData.trials d = []
      /\ LogData.stimulus_timings d = None /\ LogData.keypresses d = None).

Lemma parse_started_first (fs : filesystem) (path : string) :
  exists started, started_first (fst (parse_psychopy_logs fs path)) started.
Proof.
  destruct (fs_open fs path) as [text|err] eqn:Ho.
  - apply (holds_parse started_first) with (text := text); auto;
      unfold started_first; simpl; intuition congruence.
  - exists false. unfold parse_psychopy_logs, parse_psychopy_logs_body.
    rewrite Ho. unfold started_first. simpl. auto.
Qed.

(** X5. Whatever the file holds, a dictionary returned without a scan
    start has no scan end, no trial, no stimulus timing and no key
    press: nothing is recorded before a start of scan whose time stamp
    converts. *)
Theorem no_record_without_scan_start (fs : filesystem) (path : string) :
  let d := fst (parse_psychopy_logs fs path) in
  LogData.scan_start d = None ->
  LogData.scan_end d = None /\ LogData.trials d = []
  /\ LogData.stimulus_timings d = None /\ LogData.keypresses d = None.
Proof.
  intros d Hn. subst d.
  destruct (parse_started_first fs path) as [b [H1 H2]].
  destruct b; [now contradiction (H1 eq_refl) | now apply H2].
Qed.

Lemma no_record_without_scan_start_witness :
  let d := fst (parse_psychopy_logs
                  (Samples.single_file Samples.log_path
                     Samples.unstarted_log_text) Samples.log_path) in
  LogData.scan_end d = None /\ LogData.trials d = []
  /\ LogData.stimulus_timings d = None /\ LogData.keypresses d = None.
Proof.
  apply (no_record_without_scan_start
           (Samples.single_file Samples.log_path Samples.unstarted_log_text)
           Samples.log_path).
  vm_compute. reflexivity.
Defined.

(** ** Where the identifiers come from *)

Definition named (pid cond : string) (d : LogData.t) (started : bool) : Prop :=
  LogData.participant_id d = Some pid /\ LogData.condition d = Some cond.

Lemma parse_named (fs : filesystem) (path text : string) :
  fs_open fs path = inl text ->
  LogData.participant_id (fst (parse_psychopy_logs fs path))
  = Some (_extract_participant_id (basename path))
  /\ LogData.condition (fst (parse_psychopy_logs fs path))
     = Some (_extract_condition (basename path)).
Proof.
  intros Ho.
  destruct (holds_parse
              (named (_extract_participant_id (basename path))
                     (_extract_condition (basename path))))
    with (fs := fs) (path := path) (text := text) as [b H]; auto;
    unfold named; simpl; intuition.
Qed.

Lemma parse_unopened (fs : filesystem) (path err : string) :
  fs_open fs path = inr err ->
  fst (parse_psychopy_logs fs path) = initial_log_data path.
Proof.
  intros Ho. unfold parse_psychopy_logs, parse_psychopy_logs_body.
  now rewrite Ho.
Qed.

Lemma parse_condition_named (fs : filesystem) (path : string) :
  CondData.participant_id (fst (parse_condition_files fs path))
  = Some (_extract_participant_id (basename path))
  /\ CondData.condition_type (fst (parse_condition_files fs path))
     = Some (fst (_parse_condition_filename (basename path)))
  /\ CondData.stimulus_type (fst (parse_condition_files fs path))
     = Some (snd (_parse_condition_filename (basename path))).
Proof.
  rewrite ConditionFiles.parse_condition_files_fst.
  unfold parse_condition_files_body.
  destruct (_parse_condition_filename (basename path)) as [ctype stype].
  destruct (fs_open fs path) as [text|err]; [|simpl; auto].
  repeat case_match; simpl; auto.
Qed.

(** X6. The participant and the condition of a log are read off the name
    of the file once the file is open, whatever its lines hold and
    whether or not they can all be parsed; a log that cannot be opened is
    returned as the initial dictionary, with neither. A condition file
    has its participant, condition type and stimulus type read off its
    name before it is opened, so that it has them even when it cannot be
    opened. *)
Theorem identifiers_come_from_the_name (fs : filesystem) (path : string) :
  (forall text,
      fs_open fs path = inl text ->
      LogData.participant_id (fst (parse_psychopy_logs fs path))
      = Some (_extract_participant_id (basename path))
      /\ LogData.condition (fst (parse_psychopy_logs fs path))
         = Some (_extract_condition (basename path)))
  /\ (forall err,
        fs_open fs path = inr err ->
        fst (parse_psychopy_logs fs path) = initial_log_data path)
  /\ CondData.participant_id (fst (parse_condition_files fs path))
     = Some (_extract_participant_id (basename path))
  /\ CondData.condition_type (fst (parse_condition_files fs path))
     = Some (fst (_parse_condition_filename (basename path)))
  /\ CondData.stimulus_type (fst (parse_condition_files fs path))
     = Some (snd (_parse_condition_filename (basename path))).
Proof.
  split; [|split].
  - apply parse_named.
  - apply parse_unopened.
  - apply parse_condition_named.
Qed.

Lemma identifiers_come_from_the_name_witness :
  (LogData.participant_id
     (fst (parse_psychopy_logs
             (Samples.single_file Samples.log_path Samples.broken_log_text)
             Samples.log_path))
   = Some (_extract_participant_id (basename Samples.log_path))
   /\ LogData.condition
        (fst (parse_psychopy_logs
                (Samples.single_file Samples.log_path Samples.broken_log_text)
                Samples.log_path))
      = Some (_extract_condition (basename Samples.log_path)))
  /\ fst (parse_psychopy_logs Samples.empty_fs Samples.log_path)
     = initial_log_data Samples.log_path.
Proof.
  split.
  - apply (proj1 (identifiers_come_from_the_name
                    (Samples.single_file Samples.log_path
                       Samples.broken_log_text) Samples.log_path)
             Samples.broken_log_text).
    reflexivity.
  - apply (proj1 (proj2 (identifiers_come_from_the_name
                           Samples.empty_fs Samples.log_path))
             ("[Errno 2] No such file or directory: "
              +:+ PyFloat.repr Samples.log_path)).
    reflexivity.
Defined.

End LogInvariants.

Module LogContents.
Import PyStr PyFloat Regex Env Preprocessing PsychopyLogs.

(** ** What one line contributes once the scan has started *)

Definition trial_of_line (raw : string) : option LogData.trial_info :=
  match line_fields raw with
  | Some (timestamp, _, content) =>
      if contains "New trial" content then
        match _parse_trial_line content timestamp with
        | inl trial_info => Some trial_info
        | inr _ => None
        end
      else None
  | None => None
  end.

Definition stimulus_of_line (raw : string) : option LogData.stimulus_timing :=
  match line_fields raw with
  | Some (timestamp, _, content) =>
      if contains "autoDraw = True" content then
        match re_search re_autodraw content, py_float timestamp with
        | Some m, Some f =>
            Some {| LogData.stimulus := group 1 m; LogData.onset := f |}
        | _, _ => None
        end
      else None
  | None => None
  end.

Definition keypress_of_line (raw : string) : option LogData.keypress :=
  match line_fields raw with
  | Some (timestamp, _, content) =>
      if contains "Keypress:" content then
        match re_search re_keypress content, py_float timestamp with
        | Some m, Some f =>
            Some {| LogData.key := group 1 m; LogData.timestamp := f |}
        | _, _ => None
        end
      else None
  | None => None
  end.

(** The lines from the first one that starts the scan. *)
Fixpoint from_start (lines : list string) : list string :=
  match lines with
  | [] => []
  | line :: rest => if is_scan_start line then lines else from_start rest
  end.

(** The three lists of a dictionary. *)
Definition lists_of (d : LogData.t)
  : list LogData.trial_info * list LogData.stimulus_timing
    * list LogData.keypress :=
  (LogData.trials d, default [] (LogData.stimulus_timings d),
   default [] (LogData.keypresses d)).

Definition extend (raw : string)
  (l : list LogData.trial_info * list LogData.stimulus_timing
       * list LogData.keypress) :=
  (l.1.1 ++ option_list (trial_of_line raw),
   l.1.2 ++ option_list (stimulus_of_line raw),
   l.2 ++ option_list (keypress_of_line raw)).

Lemma float_of_inl (s : string) (f : float) :
  float_of s = inl f -> py_float s = Some f.
Proof. unfold float_of. destruct (py_float s); congruence. Qed.

Lemma float_of_inr (s : string) (e : exn) :
  float_of s = inr e -> py_float s = None.
Proof. unfold float_of. destruct (py_float s); congruence. Qed.

Ltac fields st :=
  simpl;
  destruct (LogData.stimulus_timings (pdata st)) eqn:?E1; simpl;
  rewrite ?E1; simpl;
  destruct (LogData.keypresses (pdata st)) eqn:?E2; simpl;
  rewrite ?E1, ?E2; simpl; rewrite ?app_nil_r; reflexivity.

(** A line met when the scan has started, or that starts it: if
    nothing is raised, each list gains what the line contributes; if
    something is raised, which is when the time stamp is no number, the
    lists are as before. *)
Lemma process_line_lists (raw : string) (st : pstate) :
  scan_started st = true \/ is_scan_start raw = true ->
  let r := process_line raw st in
  match snd r with
  | None =>
      scan_started (fst r) = true
      /\ lists_of (pdata (fst r)) = extend raw (lists_of (pdata st))
  | Some _ => lists_of (pdata (fst r)) = lists_of (pdata st)
  end.
Proof.
  intros Hs. unfold process_line, extend, lists_of, trial_of_line,
    stimulus_of_line, keypress_of_line, is_scan_start in *.
  destruct (line_fields raw) as [[[timestamp level] content]|].
  { unfold _parse_trial_line, _parse_stimulus_presentation, _parse_keypress,
      then_, when, with_float, modify, set_started, emit, skip.
    destruct (float_of timestamp) as [f|e] eqn:F.
    - rewrite (float_of_inl _ _ F).
      destruct (contains "start of scan" content) eqn:C1;
        [|destruct Hs as [Hs|Hs]; [|discriminate]];
        cbn [pdata scan_started fst snd];
        destruct (contains "window1: mouseVisible = True" content);
        cbn [andb pdata scan_started fst snd]; rewrite ?Hs;
        cbn [andb pdata scan_started fst snd];
        destruct (contains "New trial" content);
        cbn [andb pdata scan_started fst snd]; rewrite ?Hs;
        cbn [andb pdata scan_started fst snd];
        destruct (contains "autoDraw = True" content);
        cbn [andb pdata scan_started fst snd]; rewrite ?Hs;
        cbn [andb pdata scan_started fst snd];
        destruct (re_search re_autodraw content);
        cbn [andb pdata scan_started fst snd]; rewrite ?Hs;
        cbn [andb pdata scan_started fst snd];
        destruct (contains "Keypress:" content);
        cbn [andb pdata scan_started fst snd]; rewrite ?Hs;
        cbn [andb pdata scan_started fst snd];
        destruct (re_search re_keypress content);
        cbn [andb pdata scan_started fst snd]; rewrite ?Hs;
        cbn [andb pdata scan_started fst snd];
        (split; [reflexivity|]); fields st.
    - destruct (contains "start of scan" content) eqn:C1;
        [reflexivity|destruct Hs as [Hs|Hs]; [|discriminate]].
      cbn [pdata scan_started fst snd].
      destruct (contains "window1: mouseVisible = True" content);
        cbn [andb pdata scan_started fst snd]; rewrite ?Hs;
        cbn [andb pdata scan_started fst snd]; [reflexivity|].
      destruct (contains "New trial" content);
        cbn [andb pdata scan_started fst snd]; [reflexivity|].
      rewrite (float_of_inr _ _ F).
      destruct (contains "autoDraw = True" content);
        cbn [andb pdata scan_started fst snd]; rewrite ?Hs;
        cbn [andb pdata scan_started fst snd];
        destruct (re_search re_autodraw content);
        cbn [andb pdata scan_started fst snd]; rewrite ?Hs;
        cbn [andb pdata scan_started fst snd];
        try (progress fields st);
        destruct (contains "Keypress:" content);
        cbn [andb pdata scan_started fst snd]; rewrite ?Hs;
        cbn [andb pdata scan_started fst snd];
        destruct (re_search re_keypress content);
        cbn [andb pdata scan_started fst snd]; rewrite ?Hs;
        cbn [andb pdata scan_started fst snd];
        first [ fields st
              | split; [first [reflexivity | exact Hs]
                       |first [fields st
                              | simpl; rewrite ?app_nil_r; reflexivity]] ]. }
  destruct Hs as [Hs|Hs]; [|discriminate]. simpl.
  rewrite !app_nil_r. split; [exact Hs|].
  now destruct (LogData.trials (pdata st)).
Qed.

(** What a list of lines contributes. *)
Definition contribution (lines : list string) :=
  (omap trial_of_line lines, omap stimulus_of_line lines,
   omap keypress_of_line lines).

Definition app3 {A B C : Type} (l k : list A * list B * list C) :=
  (l.1.1 ++ k.1.1, l.1.2 ++ k.1.2, l.2 ++ k.2).

Lemma extend_app3 (raw : string) l :
  extend raw l = app3 l (contribution [raw]).
Proof.
  unfold extend, app3, contribution. simpl.
  destruct (trial_of_line raw), (stimulus_of_line raw), (keypress_of_line raw);
    reflexivity.
Qed.

Lemma contribution_cons (raw : string) (lines : list string) :
  contribution (raw :: lines) = app3 (contribution [raw]) (contribution lines).
Proof.
  unfold app3, contribution. simpl.
  destruct (trial_of_line raw), (stimulus_of_line raw), (keypress_of_line raw);
    reflexivity.
Qed.

Lemma app3_assoc {A B C : Type} (a b c : list A * list B * list C) :
  app3 (app3 a b) c = app3 a (app3 b c).
Proof. unfold app3. simpl. now rewrite !app_assoc. Qed.

Lemma app3_nil_r {A B C : Type} (a : list A * list B * list C) :
  app3 a ([], [], []) = a.
Proof. destruct a as [[x y] z]. unfold app3. simpl. now rewrite !app_nil_r. Qed.

(** The loop, entered when the scan has started, or on a line that
    starts it: the lists gain what the lines processed contribute, and
    these are all the lines unless one of them raises. *)
Lemma run_lines_lists (lines : list string) (st : pstate) :
  scan_started st = true
  \/ (exists line rest, lines = line :: rest /\ is_scan_start line = true) ->
  exists n,
    lists_of (pdata (fst (run_lines lines st)))
    = app3 (lists_of (pdata st)) (contribution (firstn n lines))
    /\ (snd (run_lines lines st) = None -> n = length lines).
Proof.
  revert st. induction lines as [|l lines IH]; intros st Hs.
  - exists 0%nat. cbn [firstn run_lines skip fst snd].
    change (contribution []) with (@nil LogData.trial_info,
      @nil LogData.stimulus_timing, @nil LogData.keypress).
    now rewrite app3_nil_r.
  - assert (Hl : scan_started st = true \/ is_scan_start l = true).
    { destruct Hs as [Hs|(l' & r' & [= <- <-] & Hs)]; auto. }
    pose proof (process_line_lists l st Hl) as H. cbv zeta in H.
    cbn [run_lines]. unfold then_.
    destruct (process_line l st) as [st1 [e|]]; cbn [fst snd] in *.
    + exists 0%nat. rewrite H. cbn [firstn].
      change (contribution []) with (@nil LogData.trial_info,
        @nil LogData.stimulus_timing, @nil LogData.keypress).
      rewrite app3_nil_r. split; [reflexivity|]. discriminate.
    + destruct H as [H1 H2].
      destruct (IH st1 (or_introl H1)) as (n & Hn & Hall).
      exists (S n). rewrite Hn, H2, extend_app3, app3_assoc.
      cbn [firstn]. rewrite <- contribution_cons. split; [reflexivity|].
      intros Hr. simpl. f_equal. auto.
Qed.

Lemma from_start_split (lines : list string) :
  exists pre,
    lines = pre ++ from_start lines
    /\ before_start pre = true
    /\ (from_start lines = []
        \/ exists line rest,
             from_start lines = line :: rest /\ is_scan_start line = true).
Proof.
  induction lines as [|l lines (pre & E & B & H)]; simpl.
  - exists []. auto.
  - destruct (is_scan_start l) eqn:S.
    + exists []. repeat split; eauto.
    + exists (l :: pre). simpl. rewrite S. simpl. repeat split; auto.
      now f_equal.
Qed.

Lemma loop_entry_started (path : string) :
  scan_started (loop_entry path) = false.
Proof. reflexivity. Qed.

Lemma loop_entry_lists (path : string) :
  lists_of (pdata (loop_entry path)) = ([], [], []).
Proof. reflexivity. Qed.

(** The pair returned, in terms of the loop. *)
Lemma parse_psychopy_logs_loop (fs : filesystem) (path text : string) :
  fs_open fs path = inl text ->
  let r := run_lines (readlines text) (loop_entry path) in
  fst (parse_psychopy_logs fs path) = pdata (fst r)
  /\ (Forall (fun e => lvl e <> ERROR) (snd (parse_psychopy_logs fs path)) ->
      snd r = None).
Proof.
  intros Ho r. split.
  - now apply parse_psychopy_logs_read.
  - subst r. unfold parse_psychopy_logs, parse_psychopy_logs_body.
    rewrite Ho. unfold then_ at 1. unfold loop_entry.
    destruct (modify _ (initial_pstate path)) as [st1 r1] eqn:E1.
    inversion E1; subst. simpl fst. unfold then_.
    destruct (run_lines (readlines text) _) as [st2 [e|]]; [|reflexivity].
    simpl. intros H. apply Forall_app in H as [_ H].
    inversion H as [|? ? Hne _]; subst. now contradiction Hne.
Qed.

(** X7. Once a log is open, the trials, the stimulus timings and the key
    presses returned are those of the lines from the first one whose
    content holds [start of scan], in the order of the file, up to the
    line at which parsing stopped; when no error is logged, they are
    those of all these lines. *)
Theorem lists_follow_the_lines (fs : filesystem) (path text : string) :
  fs_open fs path = inl text ->
  let d := fst (parse_psychopy_logs fs path) in
  let started := from_start (readlines text) in
  (exists n,
      LogData.trials d = omap trial_of_line (firstn n started)
      /\ default [] (LogData.stimulus_timings d)
         = omap stimulus_of_line (firstn n started)
      /\ default [] (LogData.keypresses d)
         = omap keypress_of_line (firstn n started))
  /\ (Forall (fun e => lvl e <> ERROR) (snd (parse_psychopy_logs fs path)) ->
      LogData.trials d = omap trial_of_line started
      /\ default [] (LogData.stimulus_timings d)
         = omap stimulus_of_line started
      /\ default [] (LogData.keypresses d) = omap keypress_of_line started).
Proof.
  intros Ho d started.
  destruct (parse_psychopy_logs_loop fs path text Ho) as [Hd Herr].
  cbv zeta in Hd, Herr. fold d in Hd.
  destruct (from_start_split (readlines text)) as (pre & E & B & Hcase).
  fold started in E, Hcase.
  assert (Hrun : run_lines (readlines text) (loop_entry path)
                 = run_lines started (loop_entry path)).
  { rewrite E at 1. rewrite run_lines_app.
    now rewrite run_lines_before_start by auto. }
  rewrite Hrun in Hd, Herr.
  assert (Hn : exists n,
             lists_of d = contribution (firstn n started)
             /\ (snd (run_lines started (loop_entry path)) = None ->
                 n = length started)).
  { destruct Hcase as [Hnil|Hcons].
    - exists 0%nat. rewrite Hd, Hnil. split; reflexivity.
    - destruct (run_lines_lists started (loop_entry path) (or_intror Hcons))
        as (n & Hn & Hall).
      exists n. rewrite Hd, Hn. split; [|exact Hall].
      rewrite loop_entry_lists. unfold app3. reflexivity. }
  destruct Hn as (n & Hn & Hall). unfold lists_of, contribution in Hn.
  injection Hn as H1 H2 H3. split.
  - exists n. auto.
  - intros Hok. specialize (Hall (Herr Hok)). subst n.
    rewrite firstn_all in H1, H2, H3. auto.
Qed.

Lemma lists_follow_the_lines_witness :
  let d := fst (parse_psychopy_logs
                  (Samples.single_file Samples.log_path Samples.log_text)
                  Samples.log_path) in
  let started := from_start (readlines Samples.log_text) in
  LogData.trials d = omap trial_of_line started
  /\ default [] (LogData.stimulus_timings d) = omap stimulus_of_line started
  /\ default [] (LogData.keypresses d) = omap keypress_of_line started.
Proof.
  apply (proj2 (lists_follow_the_lines
                  (Samples.single_file Samples.log_path Samples.log_text)
                  Samples.log_path Samples.log_text eq_refl)).
  vm_compute. repeat constructor; discriminate.
Defined.

(** On the sample log: one trial, and the stimulus shown before the
    start is left out. *)
Example lists_of_the_sample_log :
  let started := from_start (readlines Samples.log_text) in
  length (readlines Samples.log_text) = 5%nat
  /\ length started = 4%nat
  /\ length (omap trial_of_line started) = 1%nat
  /\ map LogData.stimulus (omap stimulus_of_line started) = ["image_2"]
  /\ map LogData.key (omap keypress_of_line started) = ["5"].
Proof. vm_compute. repeat split; reflexivity. Qed.

End LogContents.

Module Participants.
Import PyStr PyFloat Env Preprocessing.

Lemma insert_sorted_perm (x : string) (l : list string) :
  insert_sorted x l ≡ₚ x :: l.
Proof.
  induction l as [|y l IH]; simpl; [reflexivity|].
  destruct (String.leb x y); [reflexivity|].
  rewrite IH. apply Permutation_swap.
Qed.

Lemma sorted_set_perm (l : list string) : sorted_set l ≡ₚ remove_dups l.
Proof.
  unfold sorted_set. induction (remove_dups l) as [|x k IH]; simpl;
    [reflexivity|].
  now rewrite insert_sorted_perm, IH.
Qed.

Definition leq (a b : string) : Prop := String.leb a b = true.

Lemma insert_sorted_sorted (x : string) (l : list string) :
  Sorted leq l -> Sorted leq (insert_sorted x l).
Proof.
  assert (Htot : forall a b, String.leb a b = false -> leq b a).
  { intros a b H. destruct (String.leb_total a b) as [H'|H']; [congruence|].
    exact H'. }
  induction 1 as [|y l Hs IH Hh]; simpl; [repeat constructor|].
  destruct (String.leb x y) eqn:E.
  - constructor; [now constructor|]. now constructor.
  - constructor; [exact IH|].
    destruct l as [|z l]; simpl.
    + constructor. now apply Htot.
    + destruct (String.leb x z); constructor.
      * now apply Htot.
      * now inversion Hh.
Qed.

Lemma sorted_set_sorted (l : list string) : Sorted leq (sorted_set l).
Proof.
  unfold sorted_set. induction (remove_dups l) as [|x k IH]; simpl;
    [constructor|].
  now apply insert_sorted_sorted.
Qed.

(** X8. The participants are the names of the directories of the raw
    data whose name starts with [S], each once, in increasing order of
    their names; when the directory of the raw data cannot be listed the
    error is not caught. *)
Theorem participants_are_sorted (fs : filesystem) (raw_data_path : string) :
  (forall items,
      fs_iterdir fs raw_data_path = inl items ->
      exists participants,
        _get_all_participants fs raw_data_path = inl participants
        /\ Sorted leq participants
        /\ NoDup participants
        /\ forall p,
             p ∈ participants
             <-> (p, true) ∈ items /\ startswith "S" p = true)
  /\ (forall text,
        fs_iterdir fs raw_data_path = inr text ->
        _get_all_participants fs raw_data_path = inr (OSError text)).
Proof.
  unfold _get_all_participants. split.
  - intros items ->. eexists. split; [reflexivity|].
    split; [apply sorted_set_sorted|]. split.
    + rewrite sorted_set_perm. apply NoDup_remove_dups.
    + intros p. rewrite sorted_set_perm, elem_of_remove_dups.
      rewrite list_elem_of_fmap. split.
      * intros ([name dir] & -> & Hin). apply list_elem_of_filter in Hin
          as [Hc Hin]. cbn [fst snd] in *.
          apply andb_prop_elim in Hc as [Hd Hs].
          apply Is_true_true in Hd, Hs. subst. auto.
      * intros [Hin Hs]. exists (p, true). split; [reflexivity|].
        apply list_elem_of_filter. split; [|exact Hin].
        cbn [fst snd andb]. now rewrite Hs.
  - intros text ->. reflexivity.
Qed.

Definition sample_dirs : filesystem :=
  {| fs_exists := fun _ => false;
     fs_open := fun p => inr "";
     fs_iterdir := fun _ =>
       inl [("S10", true); ("S02", true); ("notes", true); ("S03.txt", false);
            ("S02", true)];
     fs_glob := fun _ _ => [] |}.

Lemma participants_are_sorted_witness :
  exists participants,
    _get_all_participants sample_dirs "raw" = inl participants
    /\ Sorted leq participants
    /\ NoDup participants
    /\ forall p,
         p ∈ participants
         <-> (p, true) ∈ [("S10", true); ("S02", true); ("notes", true);
                          ("S03.txt", false); ("S02", true)]
             /\ startswith "S" p = true.
Proof.
  apply (proj1 (participants_are_sorted sample_dirs "raw")). reflexivity.
Defined.

Example participants_of_the_sample :
  _get_all_participants sample_dirs "raw" = inl ["S02"; "S10"].
Proof. reflexivity. Qed.

End Participants.

Module Combining.
Import PyStr PyFloat Env Preprocessing.

(** X9. Combining a log with a condition file gives one record for each
    trial of the log, in order, numbered from 1. A record has the time
    stamp and the image of its trial. Its stimulus type is the one of the
    condition file: the type that the trial line of the log names is not
    carried over. *)
Theorem combine_numbers_the_trials (log_data : LogData.t)
  (cond_data : CondData.t) :
  length (_combine_log_condition_data log_data cond_data)
  = length (LogData.trials log_data)
  /\ forall i r,
       _combine_log_condition_data log_data cond_data !! i = Some r ->
       exists trial,
         LogData.trials log_data !! i = Some trial
         /\ r !! "trial_number" = Some (VInt (Z.of_nat i + 1))
         /\ r !! "trial_timestamp"
            = Some (VFloat (LogData.trial_timestamp trial))
         /\ r !! "image_file" = Some (of_opt_str (LogData.image_file trial))
         /\ r !! "stimulus_type"
            = Some (of_opt_str (CondData.stimulus_type cond_data)).
Proof.
  unfold _combine_log_condition_data. split; [apply length_imap|].
  intros i r H. rewrite list_lookup_imap in H.
  destruct (LogData.trials log_data !! i) as [trial|]; [|discriminate].
  injection H as <-. exists trial. split; [reflexivity|].
  unfold trial_record.
  destruct (LogData.stimulus_timings log_data) as [ts|];
    [destruct (ts !! i)|]; simplify_map_eq; auto.
Qed.

Lemma lookup_nth {A : Type} (l : list A) (i : nat) (d : A) :
  (i <? length l)%nat = true -> l !! i = Some (nth i l d).
Proof.
  revert i. induction l as [|a l IH]; intros [|i]; simpl; try discriminate;
    auto.
Qed.

Lemma combine_numbers_the_trials_witness :
  let log_data :=
    fst (parse_psychopy_logs Samples.two_trials_fs Samples.log_path) in
  let cond_data :=
    fst (parse_condition_files Samples.two_trials_fs Samples.condition_path) in
  exists trial,
    LogData.trials log_data !! 1%nat = Some trial
    /\ nth 1 (_combine_log_condition_data log_data cond_data) ∅
       !! "trial_number" = Some (VInt (Z.of_nat 1 + 1))
    /\ nth 1 (_combine_log_condition_data log_data cond_data) ∅
       !! "trial_timestamp" = Some (VFloat (LogData.trial_timestamp trial))
    /\ nth 1 (_combine_log_condition_data log_data cond_data) ∅
       !! "image_file" = Some (of_opt_str (LogData.image_file trial))
    /\ nth 1 (_combine_log_condition_data log_data cond_data) ∅
       !! "stimulus_type"
       = Some (of_opt_str (CondData.stimulus_type cond_data)).
Proof.
  cbv zeta.
  apply (proj2 (combine_numbers_the_trials
                  (fst (parse_psychopy_logs Samples.two_trials_fs
                          Samples.log_path))
                  (fst (parse_condition_files Samples.two_trials_fs
                          Samples.condition_path)))
           1%nat).
  apply lookup_nth. vm_compute. reflexivity.
Defined.

(** The second trial of the sample shows a shape; its record, combined
    with the condition file of the tools, says tool. *)
Example stimulus_type_of_the_sample :
  let log_data :=
    fst (parse_psychopy_logs Samples.two_trials_fs Samples.log_path) in
  let cond_data :=
    fst (parse_condition_files Samples.two_trials_fs Samples.condition_path) in
  (LogData.stimulus_type <$> LogData.trials log_data !! 1%nat)
  = Some (Some "shape")
  /\ nth 1 (_combine_log_condition_data log_data cond_data) ∅ !! "stimulus_type"
     = Some (VStr "tool").
Proof. cbv zeta. split; vm_compute; reflexivity. Qed.

End Combining.

Module Conditions.
Import PyStr PyFloat Env Preprocessing.

Lemma lower_app (a b : string) : lower (a +:+ b) = lower a +:+ lower b.
Proof.
  induction a as [|c a IH]; [reflexivity|].
  change (String c a +:+ b) with (String c (a +:+ b)). cbn [lower].
  now rewrite IH.
Qed.

Lemma chr_eqb_refl (a : ascii) : chr_eqb a a = true.
Proof. unfold chr_eqb. apply N.eqb_refl. Qed.

Lemma startswith_app (sub rest : string) : startswith sub (sub +:+ rest) = true.
Proof.
  induction sub as [|c sub IH]; [reflexivity|].
  change (String c sub +:+ rest) with (String c (sub +:+ rest)).
  cbn [startswith]. now rewrite chr_eqb_refl, IH.
Qed.

Lemma contains_startswith (sub s : string) :
  startswith sub s = true -> contains sub s = true.
Proof. intros H. destruct s; cbn [contains]; now rewrite H. Qed.

Lemma contains_app (sub pre rest : string) :
  contains sub (pre +:+ sub +:+ rest) = true.
Proof.
  induction pre as [|c pre IH].
  - change (EmptyString +:+ sub +:+ rest) with (sub +:+ rest).
    apply contains_startswith, startswith_app.
  - change (String c pre +:+ sub +:+ rest)
      with (String c (pre +:+ sub +:+ rest)).
    cbn [contains]. rewrite IH. apply orb_true_r.
Qed.

Lemma app_assoc_string (a b c : string) : (a +:+ b) +:+ c = a +:+ (b +:+ c).
Proof.
  induction a as [|x a IH]; [reflexivity|].
  change ((String x a +:+ b) +:+ c) with (String x ((a +:+ b) +:+ c)).
  change (String x a +:+ (b +:+ c)) with (String x (a +:+ (b +:+ c))).
  now rewrite IH.
Qed.

(** X10. A file name that holds the words [imagined_grasp], in whatever
    case, is never given the condition [imagined_grasp]: the word
    [grasp] is looked for first, so that the condition is
    [active_grasp], or [passive_viewing] when the name also holds
    [passive] or [pv]. The log of the second run of S01 has such a
    name. *)
Theorem imagined_grasp_is_read_as_active (pre name rest : string) :
  lower name = "imagined_grasp" ->
  let condition := _extract_condition (pre +:+ name +:+ rest) in
  (condition = "passive_viewing" \/ condition = "active_grasp")
  /\ condition <> "imagined_grasp".
Proof.
  intros Hn. cbv zeta. unfold _extract_condition.
  assert (Hg : contains "grasp" (lower (pre +:+ name +:+ rest)) = true).
  { rewrite !lower_app, Hn.
    change "imagined_grasp" with ("imagined_" +:+ "grasp").
    rewrite (app_assoc_string "imagined_" "grasp").
    rewrite <- (app_assoc_string (lower pre) "imagined_").
    apply contains_app. }
  rewrite Hg, orb_true_r.
  destruct (contains "passive" _ || contains "pv" _);
    split; auto; discriminate.
Qed.

Lemma imagined_grasp_is_read_as_active_witness :
  let condition :=
    _extract_condition
      ("S01_run02_" +:+ "imagined_grasp" +:+ "_2020_Mar_11_1335.log") in
  (condition = "passive_viewing" \/ condition = "active_grasp")
  /\ condition <> "imagined_grasp".
Proof.
  apply (imagined_grasp_is_read_as_active "S01_run02_" "imagined_grasp"
           "_2020_Mar_11_1335.log").
  reflexivity.
Defined.

End Conditions.

Module S01Design.
Import PyStr PyFloat Env Preprocessing.

Section Runs.
Variable fs : filesystem.
Variable raw_data_path : string.

Definition log_path_of (run_info : RunInfo.t) : string :=
  path_join raw_data_path (RunInfo.log_file run_info).

Definition condition_files_of (run_info : RunInfo.t) : list string :=
  fst (_get_s01_condition_files fs raw_data_path (RunInfo.condition run_info)).

(** The trials of one run: those of its log, once for every condition
    file found, each with the four fields of the run. *)
Definition run_trials (run_info : RunInfo.t) : list record :=
  if fs_exists fs (log_path_of run_info) then
    concat
      (map (fun condition_file =>
              add_run_information run_info
                <$> _combine_log_condition_data
                      (fst (parse_psychopy_logs fs (log_path_of run_info)))
                      (fst (parse_condition_files fs condition_file)))
         (condition_files_of run_info))
  else [].

Lemma process_condition_files_var (log_data : LogData.t)
  (run_info : RunInfo.t) (condition_files : list string) (st : s01_state) :
  is_Some (trials_var
             (process_condition_files fs log_data run_info condition_files st))
  <-> is_Some (trials_var st) \/ condition_files <> [].
Proof.
  revert st. induction condition_files as [|cf rest IH]; intros st; simpl.
  - split; [auto | intros [H|H]; [auto | congruence]].
  - destruct (parse_condition_files fs cf) as [cond_data log].
    rewrite IH. simpl. split; [intros _; right; discriminate|].
    intros _. left. eauto.
Qed.

(** One turn of the loop over the runs. *)
Lemma process_run_spec (run_info : RunInfo.t) (st : s01_state) :
  let r := process_run fs raw_data_path run_info st in
  all_trials (fst r) = all_trials st ++ run_trials run_info
  /\ (snd r = None ->
      is_Some (trials_var (fst r))
      <-> is_Some (trials_var st)
          \/ (fs_exists fs (log_path_of run_info) = true
              /\ condition_files_of run_info <> []))
  /\ (snd r = None
      <-> fs_exists fs (log_path_of run_info) = false
          \/ is_Some (trials_var st) \/ condition_files_of run_info <> []).
Proof.
  unfold process_run, run_trials, condition_files_of, log_path_of.
  destruct (fs_exists fs (path_join raw_data_path (RunInfo.log_file run_info)))
    eqn:Ex.
  - destruct (parse_psychopy_logs fs _) as [log_data log1] eqn:P.
    destruct (_get_s01_condition_files fs raw_data_path _) as [cfs log2].
    cbn [fst].
    match goal with
    | |- context [process_condition_files ?a ?c ?d ?e ?s] =>
        pose proof (Matching.process_condition_files_all a c d e s) as Ht;
        pose proof (process_condition_files_var c d e s) as Hv;
        destruct (process_condition_files a c d e s) as [tr tv lg]
    end.
    cbn [all_trials trials_var] in *.
    destruct tv as [trials|]; cbn [fst snd all_trials trials_var].
    + assert (Hs : is_Some (trials_var st) \/ cfs <> [])
        by (apply Hv; eauto).
      split; [exact Ht|]. split.
      * intros _. split; [intros _|intros _; eexists; reflexivity].
        destruct Hs as [H|H]; auto.
      * split; [intros _|reflexivity]. right. exact Hs.
    + split; [exact Ht|]. split; [discriminate|].
      split; [discriminate|].
      intros [H|H]; [discriminate|]. apply Hv in H.
      destruct H as [x H]. discriminate.
  - cbn [fst snd all_trials trials_var]. rewrite app_nil_r.
    split; [reflexivity|]. split.
    + intros _. split; [auto|]. intros [H|[H _]]; [auto|discriminate].
    + split; auto.
Qed.

(** The loop stops on the first run whose log exists when none of its
    condition files does, unless the local variable is bound by then. *)
Fixpoint raises (runs : list RunInfo.t) : bool :=
  match runs with
  | [] => false
  | run_info :: rest =>
      if fs_exists fs (log_path_of run_info)
      then negb (nonempty (condition_files_of run_info))
      else raises rest
  end.

Lemma nonempty_true {A : Type} (l : list A) : nonempty l = true <-> l <> [].
Proof. destruct l; simpl; split; congruence. Qed.

Lemma process_runs_spec (runs : list RunInfo.t) (st : s01_state) :
  let r := process_runs fs raw_data_path runs st in
  (snd r = None <-> is_Some (trials_var st) \/ raises runs = false)
  /\ (snd r = None ->
      all_trials (fst r) = all_trials st ++ concat (run_trials <$> runs)).
Proof.
  revert st. induction runs as [|run_info rest IH]; intros st.
  - simpl. rewrite app_nil_r. split; [split; auto|auto].
  - cbn [process_runs raises fmap list_fmap concat].
    destruct (process_run_spec run_info st) as (Ht & Hv & Hn).
    cbv zeta in *.
    destruct (process_run fs raw_data_path run_info st) as [st1 [e|]];
      cbn [fst snd] in *.
    + destruct (fs_exists fs (log_path_of run_info)) eqn:Ex.
      * destruct (condition_files_of run_info) as [|cf cfs] eqn:C.
        -- simpl. split; [|discriminate]. split; [discriminate|].
           intros [H|H]; [|discriminate].
           assert (Some e = None) by (apply Hn; auto). discriminate.
        -- assert (Some e = None) by (apply Hn; right; right; discriminate).
           discriminate.
      * assert (Some e = None) by (apply Hn; auto). discriminate.
    + destruct (IH st1) as [IH1 IH2]. cbv zeta in *.
      specialize (Hv eq_refl). split.
      * rewrite IH1, Hv.
        destruct (fs_exists fs (log_path_of run_info)) eqn:Ex.
        -- destruct (condition_files_of run_info) as [|cf cfs] eqn:C; simpl.
           ++ assert (Hb : is_Some (trials_var st)).
              { destruct (proj1 Hn eq_refl) as [H|[H|H]];
                  first [discriminate | exact H | congruence]. }
              split; auto.
           ++ split; [auto|]. intros _. left. right. split; [reflexivity|].
              discriminate.
        -- split.
           ++ intros [[H|[H _]]|H]; auto. discriminate.
           ++ intros [H|H]; auto.
      * intros Hr. rewrite (IH2 Hr), Ht. now rewrite <- app_assoc.
Qed.

Definition unbound_trials : exn :=
  UnboundLocalError
    "cannot access local variable 'trials' where it is not associated with a value".

Lemma process_run_exn (run_info : RunInfo.t) (st : s01_state) (e : exn) :
  snd (process_run fs raw_data_path run_info st) = Some e -> e = unbound_trials.
Proof.
  unfold process_run.
  destruct (fs_exists fs _); [|discriminate].
  destruct (parse_psychopy_logs fs _) as [log_data log1].
  destruct (_get_s01_condition_files fs raw_data_path _) as [cfs log2].
  destruct (trials_var (process_condition_files _ _ _ _ _));
    [discriminate|].
  now intros [= <-].
Qed.

Lemma process_runs_exn (runs : list RunInfo.t) (st : s01_state) (e : exn) :
  snd (process_runs fs raw_data_path runs st) = Some e -> e = unbound_trials.
Proof.
  revert st. induction runs as [|run_info rest IH]; intros st; simpl.
  - discriminate.
  - pose proof (process_run_exn run_info st) as H.
    destruct (process_run fs raw_data_path run_info st) as [st1 [e1|]];
      simpl in *.
    + intros [= <-]. auto.
    + apply IH.
Qed.

(** What the method returns. *)
Lemma process_s01_spec :
  fst (_process_s01_complete_design fs raw_data_path)
  = if raises s01_runs then inr unbound_trials
    else inl (concat (run_trials <$> s01_runs)).
Proof.
  unfold _process_s01_complete_design.
  match goal with
  | |- context [process_runs ?a ?b ?c ?s] =>
      destruct (process_runs_spec c s) as [H1 H2];
      pose proof (process_runs_exn c s) as H3;
      destruct (process_runs a b c s) as [st [e|]] eqn:E
  end; cbn [fst snd all_trials trials_var] in *.
  - rewrite (H3 e eq_refl). destruct (raises s01_runs); [reflexivity|].
    assert (Some e = None) by (apply H1; auto). discriminate.
  - specialize (H2 eq_refl). rewrite H2. cbn [app].
    destruct (raises s01_runs); [|reflexivity].
    destruct (proj1 H1 eq_refl) as [[x H]|H]; discriminate.
Qed.

Lemma raises_iff (runs : list RunInfo.t) :
  raises runs = true
  <-> exists pre run_info rest,
        runs = pre ++ run_info :: rest
        /\ Forall (fun r => fs_exists fs (log_path_of r) = false) pre
        /\ fs_exists fs (log_path_of run_info) = true
        /\ condition_files_of run_info = [].
Proof.
  induction runs as [|r runs IH]; simpl.
  - split; [discriminate|]. intros (pre & x & rest & H & _).
    destruct pre; discriminate.
  - destruct (fs_exists fs (log_path_of r)) eqn:Ex.
    + split.
      * intros H. apply negb_true_iff in H.
        exists [], r, runs. repeat split; auto.
        destruct (condition_files_of r); [reflexivity | discriminate].
      * intros (pre & x & rest & H & Hpre & Hx & Hc).
        destruct pre as [|p pre]; simpl in H; injection H as -> ->.
        -- now rewrite Hc.
        -- inversion Hpre; subst. congruence.
    + rewrite IH. split.
      * intros (pre & x & rest & -> & Hpre & Hx & Hc).
        exists (r :: pre), x, rest. repeat split; auto.
      * intros (pre & x & rest & H & Hpre & Hx & Hc).
        destruct pre as [|p pre]; simpl in H; injection H as -> ->.
        -- congruence.
        -- inversion Hpre; subst. eauto 10.
Qed.

Lemma length_run_trials (run_info : RunInfo.t) :
  length (run_trials run_info)
  = if fs_exists fs (log_path_of run_info)
    then (length (LogData.trials
                    (fst (parse_psychopy_logs fs (log_path_of run_info))))
          * length (condition_files_of run_info))%nat
    else 0%nat.
Proof.
  unfold run_trials. destruct (fs_exists fs (log_path_of run_info)); auto.
  induction (condition_files_of run_info) as [|cf cfs IH]; simpl; [lia|].
  rewrite length_app, IH, length_fmap.
  unfold _combine_log_condition_data. rewrite length_imap. lia.
Qed.

Lemma run_trials_fields (run_info : RunInfo.t) (r : record) :
  r ∈ run_trials run_info ->
  fs_exists fs (log_path_of run_info) = true
  /\ r !! "participant_id" = Some (VStr "S01")
  /\ r !! "condition" = Some (VStr (RunInfo.condition run_info))
  /\ r !! "run_number" = Some (VInt (RunInfo.run_number run_info))
  /\ r !! "run_description" = Some (VStr (RunInfo.description run_info)).
Proof.
  unfold run_trials. destruct (fs_exists fs (log_path_of run_info)).
  - intros H. apply list_elem_of_In, in_concat in H as (l & Hl & Hr).
    apply in_map_iff in Hl as (cf & <- & _). apply list_elem_of_In in Hr.
    apply list_elem_of_fmap in Hr as (r0 & -> & _).
    unfold add_run_information. repeat split; now simplify_map_eq.
  - intros H. now apply elem_of_nil in H.
Qed.

End Runs.

(** X11. The method for S01 raises exactly when the first of the three
    runs whose log exists has none of its condition files: the line
    logged after the inner loop then reads a variable to which nothing
    was assigned. In every other case it returns. *)
Theorem s01_raises_iff (fs : filesystem) (raw_data_path : string) :
  let result := fst (_process_s01_complete_design fs raw_data_path) in
  ((exists e, result = inr e)
   <-> exists pre run_info rest,
         s01_runs = pre ++ run_info :: rest
         /\ Forall (fun r => fs_exists fs (log_path_of raw_data_path r) = false)
              pre
         /\ fs_exists fs (log_path_of raw_data_path run_info) = true
         /\ condition_files_of fs raw_data_path run_info = [])
  /\ (forall e, result = inr e -> e = unbound_trials).
Proof.
  cbv zeta. rewrite process_s01_spec, <- raises_iff.
  destruct (raises fs raw_data_path s01_runs); split.
  - split; [reflexivity | eauto].
  - now intros e [= <-].
  - split; [intros [e H]|]; discriminate.
  - discriminate.
Qed.

Lemma s01_raises_iff_witness :
  exists e,
    fst (_process_s01_complete_design Samples.s01_clench_only_log_fs "raw")
    = inr e.
Proof.
  apply (proj2 (proj1 (s01_raises_iff Samples.s01_clench_only_log_fs "raw"))).
  eexists [_; _], _, _. split; [reflexivity|].
  split; [repeat constructor|split]; reflexivity.
Defined.

(** X12. When the method for S01 returns, every trial of the log of a run
    is returned once for each condition file found for that run: the
    number of trials returned is the sum, over the runs whose log
    exists, of the number of trials of the log times the number of
    condition files found. *)
Theorem s01_trials_count (fs : filesystem) (raw_data_path : string)
  (trials : list record) :
  fst (_process_s01_complete_design fs raw_data_path) = inl trials ->
  length trials
  = sum_list
      ((fun run_info =>
          if fs_exists fs (log_path_of raw_data_path run_info)
          then (length (LogData.trials
                          (fst (parse_psychopy_logs fs
                                  (log_path_of raw_data_path run_info))))
                * length (condition_files_of fs raw_data_path run_info))%nat
          else 0%nat) <$> s01_runs).
Proof.
  rewrite process_s01_spec.
  destruct (raises fs raw_data_path s01_runs); [discriminate|].
  intros H.
  assert (E : trials = concat (run_trials fs raw_data_path <$> s01_runs))
    by congruence.
  rewrite E. clear. generalize s01_runs as runs.
  induction runs as [|r runs IH]; [reflexivity|].
  cbn [fmap list_fmap concat sum_list sum_list_with].
  rewrite length_app, length_run_trials. f_equal. exact IH.
Qed.

Lemma s01_returns_sample :
  fst (_process_s01_complete_design Samples.s01_clench_fs "raw")
  = inl (concat (run_trials Samples.s01_clench_fs "raw" <$> s01_runs)).
Proof.
  rewrite process_s01_spec.
  replace (raises Samples.s01_clench_fs "raw" s01_runs) with false
    by (vm_compute; reflexivity).
  reflexivity.
Defined.

Lemma s01_trials_count_witness :
  length (concat (run_trials Samples.s01_clench_fs "raw" <$> s01_runs))
  = sum_list
      ((fun run_info =>
          if fs_exists Samples.s01_clench_fs (log_path_of "raw" run_info)
          then (length (LogData.trials
                          (fst (parse_psychopy_logs Samples.s01_clench_fs
                                  (log_path_of "raw" run_info))))
                * length (condition_files_of Samples.s01_clench_fs "raw"
                            run_info))%nat
          else 0%nat) <$> s01_runs).
Proof.
  apply (s01_trials_count Samples.s01_clench_fs "raw"). apply s01_returns_sample.
Defined.

(** X13. Every trial that the method for S01 returns is a trial of S01
    and carries the condition, the number and the description of one of
    the three runs, a run whose log exists: what the name of the log
    says of the participant or of the condition is overwritten. *)
Theorem s01_trials_fields (fs : filesystem) (raw_data_path : string)
  (trials : list record) (r : record) :
  fst (_process_s01_complete_design fs raw_data_path) = inl trials ->
  r ∈ trials ->
  r !! "participant_id" = Some (VStr "S01")
  /\ exists run_info,
       run_info ∈ s01_runs
       /\ fs_exists fs (log_path_of raw_data_path run_info) = true
       /\ r !! "condition" = Some (VStr (RunInfo.condition run_info))
       /\ r !! "run_number" = Some (VInt (RunInfo.run_number run_info))
       /\ r !! "run_description"
          = Some (VStr (RunInfo.description run_info)).
Proof.
  rewrite process_s01_spec.
  destruct (raises fs raw_data_path s01_runs); [discriminate|].
  intros H Hr.
  assert (E : trials = concat (run_trials fs raw_data_path <$> s01_runs))
    by congruence.
  rewrite E in Hr. clear H E.
  apply list_elem_of_In, in_concat in Hr as (l & Hl & Hr).
  apply list_elem_of_In, list_elem_of_fmap in Hl as (run_info & -> & Hrun).
  apply list_elem_of_In, run_trials_fields in Hr as (Hex & H1 & H2 & H3 & H4).
  split; [exact H1|]. exists run_info. auto.
Qed.

Lemma s01_trials_fields_witness :
  let trials := concat (run_trials Samples.s01_clench_fs "raw" <$> s01_runs) in
  hd ∅ trials !! "participant_id" = Some (VStr "S01")
  /\ exists run_info,
       run_info ∈ s01_runs
       /\ fs_exists Samples.s01_clench_fs (log_path_of "raw" run_info) = true
       /\ hd ∅ trials !! "condition" = Some (VStr (RunInfo.condition run_info))
       /\ hd ∅ trials !! "run_number"
          = Some (VInt (RunInfo.run_number run_info))
       /\ hd ∅ trials !! "run_description"
          = Some (VStr (RunInfo.description run_info)).
Proof.
  apply (s01_trials_fields Samples.s01_clench_fs "raw"
           (concat (run_trials Samples.s01_clench_fs "raw" <$> s01_runs))).
  - apply s01_returns_sample.
  - apply Matching.hd_elem_of. vm_compute. reflexivity.
Defined.

End S01Design.

Module Frames.
Import PyStr PyFloat Env Preprocessing TrialColumns LogInvariants S01Design.

(** ** Where the records collected come from *)

Section Collected.
Variable fs : filesystem.
Variable raw_data_path : string.
Variable P : record -> Prop.

Hypothesis P_s01 :
  forall run_info r,
    run_info ∈ s01_runs -> r ∈ run_trials fs raw_data_path run_info -> P r.
Hypothesis P_standard :
  forall log_file condition_file r,
    _match_log_condition (fst (parse_psychopy_logs fs log_file))
      (fst (parse_condition_files fs condition_file)) = true ->
    r ∈ _combine_log_condition_data (fst (parse_psychopy_logs fs log_file))
          (fst (parse_condition_files fs condition_file)) ->
    P r.

Lemma process_participant_forall (pid : string) (trials : list record) :
  fst (process_participant fs raw_data_path pid) = inl trials ->
  Forall P trials.
Proof.
  unfold process_participant. destruct (string_eqb pid "S01").
  - pose proof (process_s01_spec fs raw_data_path) as Hs.
    destruct (_process_s01_complete_design fs raw_data_path) as [r lg].
    cbn [fst] in *. rewrite Hs.
    destruct (raises fs raw_data_path s01_runs); [discriminate|].
    intros H.
    assert (E : trials = concat (run_trials fs raw_data_path <$> s01_runs))
      by congruence.
    rewrite E. apply Forall_forall. intros r' Hr.
    apply list_elem_of_In, in_concat in Hr as (l & Hl & Hr).
    apply list_elem_of_In, list_elem_of_fmap in Hl as (run_info & -> & Hrun).
    apply list_elem_of_In in Hr. eauto.
  - pose proof (fun r => Matching.process_log_files_elem fs
                  (_get_participant_log_files fs raw_data_path pid)
                  (_get_participant_condition_files fs raw_data_path pid) r)
      as He.
    destruct (process_log_files fs _ _) as [ts lg]. cbn [fst] in *.
    intros [= <-]. apply Forall_forall. intros r Hr.
    destruct (He r Hr) as (lf & cf & _ & _ & Hm & Hin). eauto.
Qed.

Lemma process_participants_forall (participants : list string)
  (trials : list record) :
  fst (process_participants fs raw_data_path participants) = inl trials ->
  Forall P trials.
Proof.
  revert trials. induction participants as [|pid rest IH]; intros trials; simpl.
  - intros [= <-]. constructor.
  - pose proof (process_participant_forall pid) as Hp.
    destruct (process_participant fs raw_data_path pid) as [[ts|e] lg];
      [|discriminate].
    destruct (process_participants fs raw_data_path rest) as [[more|e] lg'];
      [|discriminate].
    cbn [fst] in *. intros [= <-]. apply Forall_app. split; auto.
Qed.

Lemma collect_all_trials_forall (participant_id : option string)
  (trials : list record) :
  fst (collect_all_trials fs raw_data_path participant_id) = inl trials ->
  Forall P trials.
Proof.
  unfold collect_all_trials.
  destruct (match participant_id with
            | Some p => if string_eqb p "" then _ else _
            | None => _
            end) as [ps|e]; [|discriminate].
  pose proof (process_participants_forall ps) as Hp.
  destruct (process_participants fs raw_data_path ps) as [r lg].
  cbn [fst] in *. exact (Hp trials).
Qed.

End Collected.

(** ** What every record collected holds *)

Lemma trial_record_keys (log_data : LogData.t) (cond_data : CondData.t)
  (i : nat) (trial : LogData.trial_info) :
  let r := trial_record log_data cond_data i trial in
  r !! "participant_id"
  = Some (of_opt_str (LogData.participant_id log_data))
  /\ r !! "condition" = Some (of_opt_str (LogData.condition log_data))
  /\ r !! "stimulus_type"
     = Some (of_opt_str (CondData.stimulus_type cond_data))
  /\ r !! "trial_number" = Some (VInt (Z.of_nat i + 1))
  /\ r !! "trial_timestamp" = Some (VFloat (LogData.trial_timestamp trial))
  /\ r !! "scan_start" = Some (of_opt_float (LogData.scan_start log_data))
  /\ r !! "stimulus_offset" = None /\ r !! "stimulus_duration" = None
  /\ r !! "relative_onset" = None /\ r !! "condition_stimulus" = None
  /\ r !! "run_number" = None.
Proof.
  cbv zeta. unfold trial_record.
  destruct (LogData.stimulus_timings log_data) as [ts|];
    [destruct (ts !! i)|]; simplify_map_eq; auto 12.
Qed.

(** The columns of a record that the pipeline collects: strings for the
    participant, the condition and the stimulus type, an integer for
    the number of the trial, a float for the start of the scan, a float
    for the onset when there is one, and none of the derived columns. *)
Definition complete (r : record) : Prop :=
  (exists p, r !! "participant_id" = Some (VStr p))
  /\ (exists n, r !! "trial_number" = Some (VInt n))
  /\ (exists c, r !! "condition" = Some (VStr c))
  /\ (exists s, r !! "stimulus_type" = Some (VStr s))
  /\ (exists start, r !! "scan_start" = Some (VFloat start))
  /\ (r !! "stimulus_onset" = None
      \/ exists onset, r !! "stimulus_onset" = Some (VFloat onset))
  /\ r !! "stimulus_offset" = None /\ r !! "stimulus_duration" = None
  /\ r !! "relative_onset" = None /\ r !! "condition_stimulus" = None.

Lemma onset_kind (log_data : LogData.t) (cond_data : CondData.t)
  (i : nat) (trial : LogData.trial_info) :
  let r := trial_record log_data cond_data i trial in
  r !! "stimulus_onset" = None
  \/ exists onset, r !! "stimulus_onset" = Some (VFloat onset).
Proof.
  cbv zeta. rewrite trial_record_onset.
  destruct (LogData.stimulus_timings log_data) as [ts|]; [|now left].
  destruct (ts !! i); simpl; eauto.
Qed.

Section Complete.
Variable fs : filesystem.
Variable raw_data_path : string.

(** A log with a trial has a scan start. *)
Lemma trial_scan_start (path : string) (i : nat) (trial : LogData.trial_info) :
  LogData.trials (fst (parse_psychopy_logs fs path)) !! i = Some trial ->
  exists start,
    LogData.scan_start (fst (parse_psychopy_logs fs path)) = Some start.
Proof.
  intros Ht. destruct (parse_started_first fs path) as [b [H1 H2]].
  destruct b.
  - destruct (LogData.scan_start _); [eauto | now contradiction (H1 eq_refl)].
  - destruct (H2 eq_refl) as (_ & E & _). now rewrite E in Ht.
Qed.

Lemma combine_elem (log_data : LogData.t) (cond_data : CondData.t) (r : record) :
  r ∈ _combine_log_condition_data log_data cond_data ->
  exists i trial,
    LogData.trials log_data !! i = Some trial
    /\ r = trial_record log_data cond_data i trial.
Proof.
  intros Hr. apply elem_of_lookup_imap_1 in Hr as (i & trial & -> & Ht). eauto.
Qed.

Lemma s01_complete (run_info : RunInfo.t) (r : record) :
  r ∈ run_trials fs raw_data_path run_info -> complete r.
Proof.
  unfold run_trials. destruct (fs_exists fs _); [|intros H; inversion H].
  intros H. apply list_elem_of_In, in_concat in H as (l & Hl & Hr).
  apply in_map_iff in Hl as (cf & <- & _). apply list_elem_of_In in Hr.
  apply list_elem_of_fmap in Hr as (r0 & -> & Hr).
  apply combine_elem in Hr as (i & trial & Ht & ->).
  destruct (trial_scan_start _ _ _ Ht) as [start Hs].
  destruct (parse_condition_named fs cf) as (_ & _ & Hst).
  destruct (trial_record_keys
              (fst (parse_psychopy_logs fs (log_path_of raw_data_path run_info)))
              (fst (parse_condition_files fs cf)) i trial)
    as (K1 & K2 & K3 & K4 & K5 & K6 & K7 & K8 & K9 & K10 & K11).
  pose proof (onset_kind
                (fst (parse_psychopy_logs fs (log_path_of raw_data_path run_info)))
                (fst (parse_condition_files fs cf)) i trial) as Ko.
  cbv zeta in *. rewrite Hs in K6. rewrite Hst in K3. simpl in K3, K6.
  unfold complete, add_run_information.
  repeat split; simplify_map_eq; eauto.
Qed.

Lemma standard_complete (log_file condition_file : string) (r : record) :
  _match_log_condition (fst (parse_psychopy_logs fs log_file))
    (fst (parse_condition_files fs condition_file)) = true ->
  r ∈ _combine_log_condition_data (fst (parse_psychopy_logs fs log_file))
        (fst (parse_condition_files fs condition_file)) ->
  complete r.
Proof.
  intros Hm Hr. apply combine_elem in Hr as (i & trial & Ht & ->).
  destruct (trial_scan_start _ _ _ Ht) as [start Hs].
  destruct (parse_condition_named fs condition_file) as (Hp & _ & Hst).
  apply Matching.match_log_condition_iff in Hm as [Hpid _].
  rewrite Hp in Hpid.
  assert (Hc : exists c, LogData.condition (fst (parse_psychopy_logs fs log_file))
                          = Some c).
  { destruct (fs_open fs log_file) as [text|err] eqn:Ho.
    - destruct (parse_named fs log_file text Ho) as [_ Hc]. eauto.
    - rewrite (parse_unopened fs log_file err Ho) in Hpid. discriminate. }
  destruct Hc as [c Hc].
  destruct (trial_record_keys (fst (parse_psychopy_logs fs log_file))
              (fst (parse_condition_files fs condition_file)) i trial)
    as (K1 & K2 & K3 & K4 & K5 & K6 & K7 & K8 & K9 & K10 & K11).
  pose proof (onset_kind (fst (parse_psychopy_logs fs log_file))
                (fst (parse_condition_files fs condition_file)) i trial) as Ko.
  cbv zeta in *. rewrite Hs in K6. rewrite Hst in K3. rewrite Hpid in K1.
  rewrite Hc in K2. simpl in *.
  unfold complete. repeat split; eauto.
Qed.

Lemma collected_complete (participant_id : option string)
  (trials : list record) :
  fst (collect_all_trials fs raw_data_path participant_id) = inl trials ->
  Forall complete trials.
Proof.
  apply collect_all_trials_forall.
  - intros run_info r _. apply s01_complete.
  - apply standard_complete.
Qed.

End Complete.

(** ** The rows of the data frame *)

Lemma column_iff (records : list record) (c : string) :
  c ∈ DataFrame.columns (make_dataframe records)
  <-> exists r, r ∈ records /\ is_Some (r !! c).
Proof.
  unfold make_dataframe. simpl. rewrite elem_of_union_list. split.
  - intros (X & HX & Hc). apply list_elem_of_fmap in HX as (r & -> & Hr).
    exists r. split; [exact Hr|]. now apply elem_of_dom.
  - intros (r & Hr & Hc). exists (dom r). split.
    + apply list_elem_of_fmap. eauto.
    + now apply elem_of_dom.
Qed.

Lemma has_column_all (records : list record) (c : string) :
  records <> [] -> Forall (fun r => is_Some (r !! c)) records ->
  has_column (make_dataframe records) c = true.
Proof.
  intros Hne Hall. apply bool_decide_eq_true, column_iff.
  destruct records as [|r l]; [congruence|]. exists r. split; [left|].
  now inversion Hall.
Qed.

Lemma has_column_all_some (records : list record) (c : string) (r : record) :
  r ∈ records -> is_Some (r !! c) ->
  has_column (make_dataframe records) c = true.
Proof.
  intros Hr Hc. apply bool_decide_eq_true, column_iff. eauto.
Qed.

Lemma has_column_none (records : list record) (c : string) :
  Forall (fun r => r !! c = None) records ->
  has_column (make_dataframe records) c = false.
Proof.
  intros Hall. apply bool_decide_eq_false. rewrite column_iff.
  intros (r & Hr & Hc). rewrite Forall_forall in Hall.
  rewrite (Hall r Hr) in Hc. now destruct Hc.
Qed.

Lemma has_column_assign (c k : string) (f : record -> value) (df : DataFrame.t) :
  has_column (assign k f df) c = bool_decide (c = k) || has_column df c.
Proof.
  unfold has_column, assign. simpl.
  destruct (decide (c = k)) as [->|Hne].
  - rewrite bool_decide_eq_true_2
      by (apply elem_of_union; left; now apply elem_of_singleton).
    now rewrite (bool_decide_eq_true_2 (k = k)).
  - rewrite (bool_decide_eq_false_2 (c = k)) by assumption. simpl.
    apply bool_decide_ext. rewrite elem_of_union, elem_of_singleton.
    split; [intros [H|H]; [contradiction|exact H] | now right].
Qed.

(** The columns added to a row: the onset relative to the start of the
    scan when some record has an onset, and the condition joined to the
    stimulus type. *)
Definition derive (with_onset : bool) (r : record) : record :=
  let r1 :=
    if with_onset
    then <["relative_onset" :=
             cell_sub (cell r "stimulus_onset") (cell r "scan_start")]> r
    else r in
  <["condition_stimulus" :=
      cell_join (cell r1 "condition") (cell r1 "stimulus_type")]> r1.

Lemma add_derived_rows (trials : list record) :
  Forall complete trials -> trials <> [] ->
  DataFrame.rows (_add_derived_columns (make_dataframe trials))
  = derive (has_column (make_dataframe trials) "stimulus_onset") <$> trials.
Proof.
  intros Hc Hne. unfold _add_derived_columns.
  assert (Hall : forall c, (forall r, complete r -> is_Some (r !! c)) ->
                           has_column (make_dataframe trials) c = true).
  { intros c H. apply has_column_all; [exact Hne|].
    eapply Forall_impl; [exact Hc|]. exact H. }
  assert (Hcond : has_column (make_dataframe trials) "condition" = true).
  { apply Hall. intros r (_ & _ & [c H] & _). rewrite H. eauto. }
  assert (Hst : has_column (make_dataframe trials) "stimulus_type" = true).
  { apply Hall. intros r (_ & _ & _ & [c H] & _). rewrite H. eauto. }
  assert (Hss : has_column (make_dataframe trials) "scan_start" = true).
  { apply Hall. intros r (_ & _ & _ & _ & [c H] & _). rewrite H. eauto. }
  assert (Hoff : has_column (make_dataframe trials) "stimulus_offset" = false).
  { apply has_column_none. eapply Forall_impl; [exact Hc|].
    intros r H. apply H. }
  assert (Hem : df_empty (make_dataframe trials) = false).
  { unfold df_empty. apply orb_false_iff. split.
    - simpl. destruct trials; [congruence | reflexivity].
    - apply bool_decide_eq_false. intros E.
      apply bool_decide_eq_true in Hcond. rewrite E in Hcond.
      now apply not_elem_of_empty in Hcond. }
  rewrite Hem. cbv zeta. rewrite Hoff, andb_false_r, Hss. cbn [andb].
  destruct (has_column (make_dataframe trials) "stimulus_onset") eqn:Hon.
  - rewrite !has_column_assign, Hcond, Hst. simpl.
    rewrite <- list_fmap_compose. reflexivity.
  - rewrite Hcond, Hst. reflexivity.
Qed.

(** What a row derived from a record holds. *)
Lemma derive_lookup (w : bool) (r : record) (k : string) :
  k <> "relative_onset" -> k <> "condition_stimulus" ->
  derive w r !! k = r !! k.
Proof.
  intros H1 H2. unfold derive. destruct w; now simplify_map_eq.
Qed.

Lemma derive_condition_stimulus (w : bool) (r : record) (c s : string) :
  r !! "condition" = Some (VStr c) -> r !! "stimulus_type" = Some (VStr s) ->
  derive w r !! "condition_stimulus" = Some (VStr (c +:+ "_" +:+ s)).
Proof.
  intros Hc Hs. unfold derive, cell.
  destruct w; simplify_map_eq; reflexivity.
Qed.

Lemma derive_relative_onset (w : bool) (r : record) :
  r !! "relative_onset" = None ->
  derive w r !! "relative_onset"
  = if w then Some (cell_sub (cell r "stimulus_onset") (cell r "scan_start"))
    else None.
Proof.
  intros Hn. unfold derive. destruct w; now simplify_map_eq.
Qed.

(** ** Sorting *)

Lemma insert_row_perm (r : record) (l : list record) :
  insert_row r l ≡ₚ r :: l.
Proof.
  induction l as [|r' l IH]; simpl; [reflexivity|].
  destruct (row_leb r r'); [reflexivity|].
  rewrite IH. apply Permutation_swap.
Qed.

Lemma sort_perm (l : list record) : foldr insert_row [] l ≡ₚ l.
Proof.
  induction l as [|r l IH]; simpl; [reflexivity|].
  now rewrite insert_row_perm, IH.
Qed.

Definition ordered (a b : record) : Prop := row_leb a b = true.

Lemma row_leb_total (a b : record) : row_leb a b = false -> row_leb b a = true.
Proof.
  unfold row_leb.
  assert (Hanti : forall x y, cell_compare x y = Gt -> cell_compare y x = Lt).
  { intros x y. destruct x, y; simpl; try discriminate; auto.
    - intros H. rewrite String.compare_antisym, H. reflexivity.
    - intros H. rewrite Z.compare_antisym, H. reflexivity. }
  assert (Heq : forall x y, cell_compare x y = Eq -> cell_compare y x = Eq).
  { intros x y. destruct x, y; simpl; try discriminate; auto.
    - intros H. rewrite String.compare_antisym, H. reflexivity.
    - intros H. rewrite Z.compare_antisym, H. reflexivity. }
  destruct (cell_compare (cell a "participant_id") (cell b "participant_id"))
    eqn:E1; [|discriminate|].
  - rewrite (Heq _ _ E1).
    destruct (cell_compare (cell a "trial_number") (cell b "trial_number"))
      eqn:E2; try discriminate.
    intros _. now rewrite (Hanti _ _ E2).
  - intros _. now rewrite (Hanti _ _ E1).
Qed.

Lemma insert_row_sorted (r : record) (l : list record) :
  Sorted ordered l -> Sorted ordered (insert_row r l).
Proof.
  induction 1 as [|r' l Hs IH Hh]; simpl; [repeat constructor|].
  destruct (row_leb r r') eqn:E.
  - constructor; [now constructor|]. now constructor.
  - constructor; [exact IH|].
    destruct l as [|r'' l]; simpl.
    + constructor. now apply row_leb_total.
    + destruct (row_leb r r''); constructor.
      * now apply row_leb_total.
      * now inversion Hh.
Qed.

Lemma sort_sorted (l : list record) : Sorted ordered (foldr insert_row [] l).
Proof.
  induction l as [|r l IH]; simpl; [constructor|].
  now apply insert_row_sorted.
Qed.

(** ** The data frame returned *)



Section Created.
Variable fs : filesystem.
Variable raw_data_path : string.

Lemma created_rows (participant_id : option string) (df : DataFrame.t) :
  fst (create_trial_dataframe fs raw_data_path participant_id) = inl df ->
  exists trials,
    fst (collect_all_trials fs raw_data_path participant_id) = inl trials
    /\ Forall complete trials
    /\ DataFrame.rows df
       ≡ₚ derive (has_column (make_dataframe trials) "stimulus_onset")
            <$> trials
    /\ Sorted ordered (DataFrame.rows df).
Proof.
  unfold create_trial_dataframe.
  pose proof (collected_complete fs raw_data_path participant_id) as Hc.
  destruct (collect_all_trials fs raw_data_path participant_id)
    as [[trials|e] lg]; [|discriminate].
  intros H. cbn [fst] in Hc. specialize (Hc trials eq_refl).
  exists trials. split; [reflexivity|]. split; [exact Hc|].
  destruct trials as [|t trials].
  - simpl in H. injection H as <-. simpl. split; [reflexivity | constructor].
  - assert (Hem : df_empty (make_dataframe (t :: trials)) = false).
    { unfold df_empty. apply orb_false_iff. split; [reflexivity|].
      apply bool_decide_eq_false. intros E.
      assert (Hin : "condition" ∈ DataFrame.columns (make_dataframe (t :: trials))).
      { apply column_iff. exists t. split; [left|].
        inversion Hc as [|? ? (_ & _ & [c Hcond] & _) _]; subst.
        rewrite Hcond. eauto. }
      rewrite E in Hin. now apply not_elem_of_empty in Hin. }
    rewrite Hem in H. cbn [negb fst] in H. injection H as <-.
    unfold sort_values. cbn [DataFrame.rows].
    rewrite add_derived_rows by (auto; discriminate).
    split; [apply sort_perm | apply sort_sorted].
Qed.

Lemma add_derived_columns_has (df : DataFrame.t) (c : string) :
  has_column df c = true -> has_column (_add_derived_columns df) c = true.
Proof.
  intros H. unfold _add_derived_columns.
  repeat first [ rewrite has_column_assign | case_match ];
    rewrite ?H, ?orb_true_r; auto.
Qed.

(** A data frame returned is the empty one, without rows or columns, or
    is not empty. *)
Lemma created_cases (participant_id : option string) (df : DataFrame.t) :
  fst (create_trial_dataframe fs raw_data_path participant_id) = inl df ->
  df = make_dataframe [] \/ df_empty df = false.
Proof.
  intros H. destruct (created_rows participant_id df H)
    as (trials & Ht & Hc & Hp & _).
  unfold create_trial_dataframe in H.
  rewrite (surjective_pairing
             (collect_all_trials fs raw_data_path participant_id)) in H.
  rewrite Ht in H. destruct trials as [|t trials].
  - left. cbn in H. now apply (inj inl) in H.
  - right.
    assert (Hcond : has_column (make_dataframe (t :: trials)) "condition" = true).
    { apply has_column_all; [discriminate|].
      eapply Forall_impl; [exact Hc|].
      intros r (_ & _ & [c0 E] & _). rewrite E. eauto. }
    assert (Hem : df_empty (make_dataframe (t :: trials)) = false).
    { unfold df_empty. apply orb_false_iff. split; [reflexivity|].
      apply bool_decide_eq_false. intros E.
      apply bool_decide_eq_true in Hcond. rewrite E in Hcond.
      now apply not_elem_of_empty in Hcond. }
    rewrite Hem in H. cbn [negb fst] in H. apply (inj inl) in H. subst df.
    unfold df_empty. apply orb_false_iff. split.
    + apply Permutation_length in Hp. cbn [fmap list_fmap length] in Hp.
      destruct (DataFrame.rows _); [discriminate | reflexivity].
    + apply bool_decide_eq_false. intros E.
      assert (Hin : has_column
                      (sort_values (_add_derived_columns
                                      (make_dataframe (t :: trials))))
                      "condition" = true).
      { unfold has_column, sort_values. cbn [DataFrame.columns].
        now apply add_derived_columns_has. }
      apply bool_decide_eq_true in Hin. rewrite E in Hin.
      now apply not_elem_of_empty in Hin.
Qed.

(** A data frame returned that is not empty has every column that all
    records have. *)
Lemma created_has_column (participant_id : option string) (df : DataFrame.t)
  (c : string) :
  fst (create_trial_dataframe fs raw_data_path participant_id) = inl df ->
  df_empty df = false ->
  (forall r, complete r -> is_Some (r !! c)) ->
  has_column df c = true.
Proof.
  unfold create_trial_dataframe.
  pose proof (collected_complete fs raw_data_path participant_id) as Hc.
  destruct (collect_all_trials fs raw_data_path participant_id)
    as [[trials|e] lg]; [|discriminate].
  cbn [fst] in Hc. specialize (Hc trials eq_refl).
  destruct (negb (df_empty (make_dataframe trials))) eqn:Hem;
    cbn [fst]; intros H; apply (inj inl) in H; subst df.
  - intros _ Hall.
    assert (Hne : trials <> []) by (intros ->; discriminate).
    unfold has_column, sort_values. cbn [DataFrame.columns].
    apply add_derived_columns_has, has_column_all; [exact Hne|].
    eapply Forall_impl; [exact Hc|]. exact Hall.
  - apply negb_false_iff in Hem. congruence.
Qed.






(** X15. In the data frame returned, every row has a condition and a
    stimulus type that are strings, and its column [condition_stimulus]
    is the one, an underscore and the other. *)
Theorem frame_condition_stimulus (participant_id : option string)
  (df : DataFrame.t) (r : record) :
  fst (create_trial_dataframe fs raw_data_path participant_id) = inl df ->
  r ∈ DataFrame.rows df ->
  exists c s,
    r !! "condition" = Some (VStr c)
    /\ r !! "stimulus_type" = Some (VStr s)
    /\ r !! "condition_stimulus" = Some (VStr (c +:+ "_" +:+ s)).
Proof.
  intros H Hr. destruct (created_rows participant_id df H)
    as (trials & Ht & Hc & Hp & Hs).
  rewrite Hp in Hr. apply list_elem_of_fmap in Hr as (r0 & -> & Hr0).
  rewrite Forall_forall in Hc.
  destruct (Hc r0 Hr0) as (_ & _ & [c Hcond] & [s Hst] & _).
  exists c, s. rewrite !derive_lookup by discriminate.
  split; [exact Hcond|]. split; [exact Hst|].
  now apply derive_condition_stimulus.
Qed.

(** X16. In the data frame returned, a row with a stimulus onset has a
    start of scan, both floats, and its column [relative_onset] is the
    onset minus the start. A row without an onset has no relative
    onset, or a missing one when another row has an onset. *)
Theorem frame_relative_onset (participant_id : option string)
  (df : DataFrame.t) (r : record) :
  fst (create_trial_dataframe fs raw_data_path participant_id) = inl df ->
  r ∈ DataFrame.rows df ->
  (forall v,
      r !! "stimulus_onset" = Some v ->
      exists onset start,
        v = VFloat onset
        /\ r !! "scan_start" = Some (VFloat start)
        /\ r !! "relative_onset" = Some (VFloat (fsub onset start)))
  /\ (r !! "stimulus_onset" = None ->
      r !! "relative_onset" = None \/ r !! "relative_onset" = Some missing).
Proof.
  intros H Hr. destruct (created_rows participant_id df H)
    as (trials & Ht & Hc & Hp & Hs).
  rewrite Hp in Hr. apply list_elem_of_fmap in Hr as (r0 & -> & Hr0).
  rewrite Forall_forall in Hc.
  destruct (Hc r0 Hr0)
    as (_ & _ & _ & _ & [start Hstart] & Hon & _ & _ & Hrel & _).
  rewrite !derive_lookup by discriminate.
  rewrite derive_relative_onset by assumption. split.
  - intros v Hv. destruct Hon as [Hon|[onset Hon]]; [congruence|].
    exists onset, start. split; [congruence|]. split; [exact Hstart|].
    rewrite (has_column_all_some trials "stimulus_onset" r0) by eauto.
    unfold cell. rewrite Hon, Hstart. reflexivity.
  - intros Hn. destruct (has_column _ _); [right|now left].
    unfold cell. rewrite Hn, Hstart. reflexivity.
Qed.

Lemma collect_s01 (trials : list record) :
  fst (collect_all_trials fs raw_data_path (Some "S01")) = inl trials ->
  trials = concat (run_trials fs raw_data_path <$> s01_runs).
Proof.
  unfold collect_all_trials. cbn [string_eqb String.eqb Ascii.eqb Bool.eqb].
  cbn [process_participants]. unfold process_participant.
  cbn [string_eqb String.eqb Ascii.eqb Bool.eqb].
  pose proof (process_s01_spec fs raw_data_path) as Hs.
  destruct (_process_s01_complete_design fs raw_data_path) as [[ts|e] lg];
    cbn [fst] in *; [|discriminate].
  rewrite app_nil_r. intros [= <-].
  destruct (raises fs raw_data_path s01_runs); congruence.
Qed.

Lemma group_sizes (c : string) (rows : list record) :
  Forall (fun r => exists n,
              r !! c = Some (VInt n) /\ (n = 1 \/ n = 2 \/ n = 3)%Z) rows ->
  (length (List.filter (fun r => bool_decide (r !! c = Some (VInt 1))) rows)
   + length (List.filter (fun r => bool_decide (r !! c = Some (VInt 2))) rows)
   + length (List.filter (fun r => bool_decide (r !! c = Some (VInt 3))) rows)
   = length rows)%nat.
Proof.
  induction 1 as [|r rows (n & Hn & Hcase) Hall IH]; [reflexivity|].
  cbn [List.filter]. rewrite Hn.
  destruct Hcase as [-> | [-> | ->]];
    repeat match goal with
           | |- context [bool_decide ?P] =>
               first [ rewrite (bool_decide_eq_true_2 P) by reflexivity
                     | rewrite (bool_decide_eq_false_2 P) by discriminate ]
           end;
    cbn [length]; lia.
Qed.

(** X17. In the data frame made for S01, every row belongs to one of the
    three runs: the numbers of trials that [main] prints for run 1, run
    2 and run 3 add up to the number of trials it prints first; and a
    data frame that is not empty has the column [run_number], so that
    these three numbers are printed. *)
Theorem s01_run_counts (df : DataFrame.t) :
  fst (create_trial_dataframe fs raw_data_path (Some "S01")) = inl df ->
  (group_size df "run_number" (VInt 1) + group_size df "run_number" (VInt 2)
   + group_size df "run_number" (VInt 3)
   = length (DataFrame.rows df))%nat
  /\ (df_empty df = false -> has_column df "run_number" = true).
Proof.
  intros H. destruct (created_rows (Some "S01") df H)
    as (trials & Ht & Hc & Hp & Hs).
  pose proof (collect_s01 trials Ht) as E.
  assert (Hrun : Forall (fun r => exists n,
                            r !! "run_number" = Some (VInt n)
                            /\ (n = 1 \/ n = 2 \/ n = 3)%Z) trials).
  { rewrite E. apply Forall_forall. intros r Hr.
    apply list_elem_of_In, in_concat in Hr as (l & Hl & Hr).
    apply list_elem_of_In, list_elem_of_fmap in Hl as (run_info & -> & Hrun).
    apply list_elem_of_In, run_trials_fields in Hr as (_ & _ & _ & Hn & _).
    exists (RunInfo.run_number run_info). split; [exact Hn|].
    unfold s01_runs in Hrun.
    repeat (apply elem_of_cons in Hrun as [->|Hrun]; [simpl; auto|]).
    now apply elem_of_nil in Hrun. }
  split.
  - unfold group_size. apply group_sizes.
    rewrite Hp. apply Forall_fmap. eapply Forall_impl; [exact Hrun|].
    intros r (n & Hn & Hcase). exists n. split; [|exact Hcase].
    simpl. now rewrite derive_lookup by discriminate.
  - unfold create_trial_dataframe in H. rewrite (surjective_pairing
      (collect_all_trials fs raw_data_path (Some "S01"))) in H.
    rewrite Ht in H.
    destruct (negb (df_empty (make_dataframe trials))) eqn:Hem;
      cbn [fst] in H; injection H as <-.
    + intros _.
      assert (Hne : trials <> []).
      { intros ->. discriminate. }
      unfold has_column, sort_values. cbn [DataFrame.columns].
      apply add_derived_columns_has, has_column_all; [exact Hne|].
      eapply Forall_impl; [exact Hrun|]. intros r (n & Hn & _).
      rewrite Hn. eauto.
    + apply negb_false_iff in Hem. congruence.
Qed.

End Created.

(** The data frames of the samples. *)
Definition frame_of (fs : filesystem) (participant_id : string) : DataFrame.t :=
  match fst (create_trial_dataframe fs "raw" (Some participant_id)) with
  | inl df => df
  | inr _ => make_dataframe []
  end.

Lemma frame_of_s02 :
  fst (create_trial_dataframe Samples.s02_fs "raw" (Some "S02"))
  = inl (frame_of Samples.s02_fs "S02").
Proof. apply Pipeline.inl_of_is_inl. vm_compute. reflexivity. Defined.

Lemma frame_of_s01 :
  fst (create_trial_dataframe Samples.s01_clench_fs "raw" (Some "S01"))
  = inl (frame_of Samples.s01_clench_fs "S01").
Proof. apply Pipeline.inl_of_is_inl. vm_compute. reflexivity. Defined.


Lemma frame_condition_stimulus_witness :
  let r := hd ∅ (DataFrame.rows (frame_of Samples.s02_fs "S02")) in
  exists c s,
    r !! "condition" = Some (VStr c)
    /\ r !! "stimulus_type" = Some (VStr s)
    /\ r !! "condition_stimulus" = Some (VStr (c +:+ "_" +:+ s)).
Proof.
  apply (frame_condition_stimulus Samples.s02_fs "raw" (Some "S02")
           (frame_of Samples.s02_fs "S02")).
  - apply frame_of_s02.
  - apply Matching.hd_elem_of. vm_compute. reflexivity.
Defined.

Example condition_stimulus_of_the_sample :
  hd ∅ (DataFrame.rows (frame_of Samples.s02_fs "S02")) !! "condition_stimulus"
  = Some (VStr "passive_viewing_tool").
Proof. vm_compute. reflexivity. Qed.

Lemma frame_relative_onset_witness :
  let r := hd ∅ (DataFrame.rows (frame_of Samples.s02_fs "S02")) in
  (forall v,
      r !! "stimulus_onset" = Some v ->
      exists onset start,
        v = VFloat onset
        /\ r !! "scan_start" = Some (VFloat start)
        /\ r !! "relative_onset" = Some (VFloat (fsub onset start)))
  /\ (r !! "stimulus_onset" = None ->
      r !! "relative_onset" = None \/ r !! "relative_onset" = Some missing).
Proof.
  apply (frame_relative_onset Samples.s02_fs "raw" (Some "S02")
           (frame_of Samples.s02_fs "S02")).
  - apply frame_of_s02.
  - apply Matching.hd_elem_of. vm_compute. reflexivity.
Defined.

(** The stimulus is shown at 2.5 and the scan starts at 1.0. *)
Example relative_onset_of_the_sample :
  hd ∅ (DataFrame.rows (frame_of Samples.s02_fs "S02")) !! "relative_onset"
  = Some (VFloat (BrainImages.lit "1.5")).
Proof. vm_compute. reflexivity. Qed.

Lemma s01_run_counts_witness :
  let df := frame_of Samples.s01_clench_fs "S01" in
  (group_size df "run_number" (VInt 1) + group_size df "run_number" (VInt 2)
   + group_size df "run_number" (VInt 3)
   = length (DataFrame.rows df))%nat
  /\ (df_empty df = false -> has_column df "run_number" = true).
Proof.
  apply (s01_run_counts Samples.s01_clench_fs "raw"). apply frame_of_s01.
Defined.

End Frames.

Module QualityFacts.
Import PyStr PyFloat Env Preprocessing TrialColumns Frames Quality.

Section Reports.
Variable fs : filesystem.
Variable raw_data_path : string.
Variable stats : Type.
Variable describe : list value -> stats.
Variable stats_mean stats_std stats_min stats_max : stats -> float.
Variable format_3f : float -> string.
Variable now : string.

Lemma created_frame_ok (participant_id : option string) (df : DataFrame.t) :
  fst (create_trial_dataframe fs raw_data_path participant_id) = inl df ->
  frame_ok df.
Proof.
  unfold create_trial_dataframe.
  destruct (collect_all_trials fs raw_data_path participant_id)
    as [[trials|e] lg] eqn:E; [|discriminate].
  apply collect_all_trials_well_formed in E.
  apply make_dataframe_ok in E.
  destruct (negb (df_empty (make_dataframe trials))); cbn [fst];
    intros H; apply (inj inl) in H; subst df; auto.
  apply sort_values_ok, add_derived_columns_ok, E.
Qed.

(** The entry for the onsets that are missing. *)
Definition missing_onsets (df : DataFrame.t) : list string :=
  if has_column df "stimulus_onset"
  then issue (count_rows (fun r => is_missing (cell r "stimulus_onset")) df)
         " trials with missing stimulus onset"
  else [].

Lemma empty_frame_columns (participant_id : option string) (df : DataFrame.t)
  (c : string) :
  fst (create_trial_dataframe fs raw_data_path participant_id) = inl df ->
  df_empty df = true -> has_column df c = false.
Proof.
  intros H He.
  destruct (created_cases fs raw_data_path participant_id df H) as [->|Hne];
    [|congruence].
  apply bool_decide_eq_false. apply not_elem_of_empty.
Qed.

(** The issues that the validation finds in a data frame that was
    created, for the report. *)
Lemma validate_created_issues (participant_id : option string)
  (df : DataFrame.t) :
  fst (create_trial_dataframe fs raw_data_path participant_id) = inl df ->
  let validation :=
    fst (validate_timing_consistency stats describe stats_mean stats_std df) in
  Validation.timing_errors validation = []
  /\ Validation.outliers validation = []
  /\ Validation.missing_data validation = missing_onsets df.
Proof.
  intros H. destruct (created_frame_ok participant_id df H) as (Ho & Hd & _).
  cbv zeta. unfold validate_timing_consistency, missing_onsets.
  destruct (df_empty df) eqn:He.
  - rewrite (empty_frame_columns participant_id df "stimulus_onset" H He).
    cbn. auto.
  - rewrite (has_column_false df "stimulus_offset" Ho).
    rewrite (has_column_false df "stimulus_duration" Hd).
    cbn [fst Validation.total_trials Validation.timing_errors
           Validation.outliers Validation.summary_stats
           Validation.missing_data].
    rewrite app_nil_r. auto.
Qed.

(** X18. Validating a data frame that the pipeline returns never reports
    a timing error nor an outlier and gathers no statistics, whatever the
    data: the column [stimulus_duration] that these checks read is never
    there. All that can be reported is the number of trials without a
    stimulus onset. *)
Theorem validation_of_created_frames (participant_id : option string)
  (df : DataFrame.t) :
  fst (create_trial_dataframe fs raw_data_path participant_id) = inl df ->
  let validation :=
    fst (validate_timing_consistency stats describe stats_mean stats_std df) in
  Validation.total_trials validation = length (DataFrame.rows df)
  /\ Validation.timing_errors validation = []
  /\ Validation.outliers validation = []
  /\ Validation.summary_stats validation = []
  /\ Validation.missing_data validation = missing_onsets df.
Proof.
  intros H. destruct (created_frame_ok participant_id df H) as (Ho & Hd & _).
  cbv zeta. unfold validate_timing_consistency, missing_onsets.
  destruct (df_empty df) eqn:He.
  - rewrite (empty_frame_columns participant_id df "stimulus_onset" H He).
    cbn. auto.
  - rewrite (has_column_false df "stimulus_offset" Ho).
    rewrite (has_column_false df "stimulus_duration" Hd).
    cbn [fst Validation.total_trials Validation.timing_errors
           Validation.outliers Validation.summary_stats
           Validation.missing_data].
    rewrite app_nil_r. auto.
Qed.

(** The report on a data frame without the column of the durations. *)
Definition plain_report (df : DataFrame.t) : string :=
  join (String newline "")
    ([repeat_chr "=" 60;
      "fMRI Tool Representation Study - Data Quality Report";
      repeat_chr "=" 60;
      "Generated: " +:+ now;
      "";
      "BASIC STATISTICS";
      repeat_chr "-" 20;
      "Total trials: " +:+ pretty (length (DataFrame.rows df));
      "Participants: " +:+ pretty (nunique df "participant_id");
      "Conditions: " +:+ pretty (nunique df "condition");
      "Stimulus types: " +:+ pretty (nunique df "stimulus_type");
      "";
      "DATA QUALITY ISSUES";
      repeat_chr "-" 20;
      "No timing errors detected"]
     ++ issues_section "Missing Data:" "No missing data detected"
          (missing_onsets df)
     ++ ["No outliers detected"; ""; repeat_chr "=" 60]).

Lemma nunique_or_zero_created (participant_id : option string)
  (df : DataFrame.t) (c : string) :
  fst (create_trial_dataframe fs raw_data_path participant_id) = inl df ->
  (forall r, complete r -> is_Some (r !! c)) ->
  nunique_or_zero df c = inl (nunique df c).
Proof.
  intros H Hall. unfold nunique_or_zero.
  destruct (created_cases fs raw_data_path participant_id df H) as [->|Hne].
  - reflexivity.
  - rewrite Hne.
    now rewrite (created_has_column fs raw_data_path participant_id df c H Hne
                   Hall).
Qed.

(** X19. The quality report on a data frame that the pipeline returns is
    always made, no column that it reads being absent, and always has
    the same shape: the basic statistics, no section of timing
    statistics, the line saying that no timing error was detected, the
    trials without a stimulus onset if there are any, and the line
    saying that no outlier was detected. *)
Theorem report_of_created_frames (participant_id : option string)
  (df : DataFrame.t) :
  fst (create_trial_dataframe fs raw_data_path participant_id) = inl df ->
  fst (generate_data_quality_report stats describe stats_mean stats_std
         stats_min stats_max format_3f now df)
  = inl (plain_report df).
Proof.
  intros H. unfold generate_data_quality_report.
  rewrite (nunique_or_zero_created participant_id df "participant_id" H)
    by (intros r ([p E] & _); rewrite E; eauto).
  rewrite (nunique_or_zero_created participant_id df "condition" H)
    by (intros r (_ & _ & [p E] & _); rewrite E; eauto).
  rewrite (nunique_or_zero_created participant_id df "stimulus_type" H)
    by (intros r (_ & _ & _ & [p E] & _); rewrite E; eauto).
  destruct (created_frame_ok participant_id df H) as (_ & Hd & _).
  rewrite (has_column_false df "stimulus_duration" Hd), andb_false_r.
  pose proof (validate_created_issues participant_id df H)
    as (He & Ho & Hm).
  destruct (validate_timing_consistency stats describe stats_mean stats_std df)
    as [validation log1].
  cbn [fst] in *. rewrite He, Ho, Hm. reflexivity.
Qed.

End Reports.

(** Statistics that are never looked at. *)
Definition no_stats (cells : list value) : unit := tt.
Definition no_float (s : unit) : float := fnan.
Definition no_format (x : float) : string := "nan".

Lemma validation_of_created_frames_witness :
  let df := frame_of Samples.s02_fs "S02" in
  let validation :=
    fst (validate_timing_consistency unit no_stats no_float no_float df) in
  Validation.total_trials validation = length (DataFrame.rows df)
  /\ Validation.timing_errors validation = []
  /\ Validation.outliers validation = []
  /\ Validation.summary_stats validation = []
  /\ Validation.missing_data validation = missing_onsets df.
Proof.
  apply (validation_of_created_frames Samples.s02_fs "raw" unit no_stats
           no_float no_float (Some "S02")).
  apply frame_of_s02.
Defined.

Lemma report_of_created_frames_witness :
  fst (generate_data_quality_report unit no_stats no_float no_float no_float
         no_float no_format "2024-01-01 10:00:00"
         (frame_of Samples.s02_fs "S02"))
  = inl (plain_report "2024-01-01 10:00:00" (frame_of Samples.s02_fs "S02")).
Proof.
  apply (report_of_created_frames Samples.s02_fs "raw" unit no_stats no_float
           no_float no_float no_float no_format "2024-01-01 10:00:00"
           (Some "S02")).
  apply frame_of_s02.
Defined.

(** The report on the sample. *)
Example report_sample :
  plain_report "2024-01-01 10:00:00" (frame_of Samples.s02_fs "S02")
  = join (String newline "")
      [repeat_chr "=" 60;
       "fMRI Tool Representation Study - Data Quality Report";
       repeat_chr "=" 60;
       "Generated: 2024-01-01 10:00:00";
       "";
       "BASIC STATISTICS";
       repeat_chr "-" 20;
       "Total trials: 1";
       "Participants: 1";
       "Conditions: 1";
       "Stimulus types: 1";
       "";
       "DATA QUALITY ISSUES";
       repeat_chr "-" 20;
       "No timing errors detected";
       "No missing data detected";
       "No outliers detected";
       "";
       repeat_chr "=" 60].
Proof. vm_compute. reflexivity. Qed.

End QualityFacts.

Module BrainFacts.
Import PyStr PyFloat Env BrainImages BrainProcessing MissingFiles
  StatisticalTables.

Section Entries.
Variable image : Type.

Lemma index_inl {A : Type} (l : list A) (i : nat) :
  (exists a, index l i = inl a) <-> (i < length l)%nat.
Proof.
  unfold index. rewrite <- lookup_lt_is_Some.
  destruct (l !! i); split; eauto; intros [a H]; discriminate.
Qed.

Lemma coordinate_lines_inl (i : nat) (regions : list string)
  (coords : list coord) :
  (exists lines, coordinate_lines i regions coords = inl lines)
  <-> (i + length coords <= length regions)%nat \/ coords = [].
Proof.
  revert i. induction coords as [|c rest IH]; intros i; simpl.
  - split; eauto.
  - pose proof (index_inl regions i) as Hi.
    destruct (index regions i) as [region|e].
    + assert (Hlt : (i < length regions)%nat) by (apply Hi; eauto).
      specialize (IH (S i)).
      destruct (coordinate_lines (S i) regions rest) as [lines|e].
      * split; [intros _|eauto]. left.
        destruct (proj1 IH ltac:(eauto)) as [H | ->]; simpl; lia.
      * split; [intros [l H]; discriminate|].
        intros [H|H]; [|discriminate].
        assert (Hex : exists lines : list string, @inr (list string) exn e = inl lines)
          by (apply IH; left; lia).
        destruct Hex as [l Hl]. discriminate.
    + split; [intros [l H]; discriminate|].
      intros [H|H]; [|discriminate].
      assert (Hex : exists a : string, @inr string exn e = inl a)
        by (apply Hi; lia).
      destruct Hex as [a Ha]. discriminate.
Qed.

Lemma length_coordinate_lines (i : nat) (regions : list string)
  (coords : list coord) (lines : list string) :
  coordinate_lines i regions coords = inl lines ->
  length lines = length coords.
Proof.
  revert i lines. induction coords as [|c rest IH]; intros i lines; simpl.
  - now intros [= <-].
  - destruct (index regions i) as [region|e]; [|discriminate].
    destruct (coordinate_lines (S i) regions rest) as [more|e] eqn:E;
      [|discriminate].
    intros [= <-]. simpl. f_equal. eauto.
Qed.

Lemma rows_from_inl (i : nat) (regions : list string) (coords : list coord)
  (stats : list stat) :
  (exists rows, rows_from i regions coords (Many stats) = inl rows)
  <-> ((i + length regions <= length coords)%nat
       /\ (i + length regions <= length stats)%nat)
      \/ regions = [].
Proof.
  revert i. induction regions as [|region rest IH]; intros i; simpl.
  - split; eauto.
  - pose proof (index_inl coords i) as Hc.
    pose proof (index_inl stats i) as Hs.
    destruct (index coords i) as [c|e].
    + assert (Hlt : (i < length coords)%nat) by (apply Hc; eauto).
      destruct (index stats i) as [s|e].
      * assert (Hlt' : (i < length stats)%nat) by (apply Hs; eauto).
        specialize (IH (S i)).
        destruct (rows_from (S i) rest coords (Many stats)) as [rows|e].
        -- split; [intros _|eauto]. left.
           destruct (proj1 IH ltac:(eauto)) as [H | ->]; simpl; lia.
        -- split; [intros [l H]; discriminate|].
           intros [H|H]; [|discriminate].
           assert (Hex : exists rows : list Row.t,
                      @inr (list Row.t) exn e = inl rows)
             by (apply IH; left; lia).
           destruct Hex as [l Hl]. discriminate.
      * split; [intros [l H]; discriminate|].
        intros [H|H]; [|discriminate].
        assert (Hex : exists a : stat, @inr stat exn e = inl a)
          by (apply Hs; lia).
        destruct Hex as [a Ha]. discriminate.
    + split; [intros [l H]; discriminate|].
      intros [H|H]; [|discriminate].
      assert (Hex : exists a : coord, @inr coord exn e = inl a)
        by (apply Hc; lia).
      destruct Hex as [a Ha]. discriminate.
Qed.

Lemma length_rows_from (i : nat) (regions : list string) (coords : list coord)
  (stats : one_or_list stat) (rows : list Row.t) :
  rows_from i regions coords stats = inl rows ->
  length rows = length regions.
Proof.
  revert i rows. induction regions as [|region rest IH]; intros i rows; simpl.
  - now intros [= <-].
  - destruct (index coords i) as [c|e]; [|discriminate].
    destruct stats as [s|l]; [discriminate|].
    destruct (index l i) as [s|e]; [|discriminate].
    destruct (rows_from (S i) rest coords (Many l)) as [more|e] eqn:E;
      [|discriminate].
    intros [= <-]. simpl. f_equal. eauto.
Qed.

(** X20. An entry whose coordinates and statistics are lists. The summary
    goes through the coordinates and names each by the region of the
    same index: it is made exactly when there are no more coordinates
    than regions. The statistical table goes through the regions and
    takes the coordinates and the statistics of the same index: it is
    made exactly when there are no more regions than coordinates, and
    than statistics. A list of coordinates longer than the list of
    regions thus breaks the first and not the second, a shorter one the
    second and not the first. *)
Theorem summary_and_table_of_lists (data : Data.t image)
  (coords : list coord) (stats : list stat) :
  Data.mni_coords data = Many coords ->
  Data.stats data = Many stats ->
  ((exists lines, condition_lines image data = inl lines)
   <-> (length coords <= length (Data.regions data))%nat)
  /\ ((exists rows, table_of image data = inl rows)
      <-> (length (Data.regions data) <= length coords)%nat
          /\ (length (Data.regions data) <= length stats)%nat)
  /\ (forall lines,
        condition_lines image data = inl lines ->
        length lines = (5 + length coords)%nat)
  /\ (forall rows,
        table_of image data = inl rows ->
        length rows = length (Data.regions data)).
Proof.
  intros Hc Hs. unfold condition_lines, table_of. rewrite Hc, Hs.
  split; [|split; [|split]].
  - pose proof (coordinate_lines_inl 0 (Data.regions data) coords) as H.
    destruct (coordinate_lines 0 (Data.regions data) coords) as [lines|e].
    + split; [intros _|eauto].
      destruct (proj1 H ltac:(eauto)) as [H' | ->]; simpl in *; lia.
    + split; [intros [l Hl]; discriminate|]. intros Hle.
      assert (Hex : exists lines : list string,
                 @inr (list string) exn e = inl lines)
        by (apply H; left; simpl; lia).
      destruct Hex as [l Hl]. discriminate.
  - rewrite rows_from_inl. simpl. split.
    + intros [H|H]; [exact H|]. rewrite H. simpl. lia.
    + auto.
  - intros lines.
    destruct (coordinate_lines 0 (Data.regions data) coords) as [ls|e] eqn:E;
      [|discriminate].
    intros [= <-]. apply length_coordinate_lines in E.
    cbn [app length]. rewrite length_app. cbn [length]. lia.
  - intros rows. apply length_rows_from.
Qed.

End Entries.

(** An entry with three coordinates and statistics for two regions. *)
Definition long_coordinates : Data.t unit :=
  {| Data.image_ := tt;
     Data.path := "raw/results.png";
     Data.condition := "Passive Viewing: Tool vs Shape";
     Data.description := "Passive viewing contrast - tools vs shapes";
     Data.regions := Info.regions passive_viewing_info;
     Data.mni_coords :=
       Many [ {| x := 22; y := 100; z := -2 |};
              {| x := 10; y := 44; z := 70 |};
              {| x := 0; y := 0; z := 0 |} ];
     Data.stats := Info.stats imagined_grasp_info;
     Data.filename := "results.png" |}.

Lemma summary_and_table_of_lists_witness :
  ((exists lines, condition_lines unit long_coordinates = inl lines)
   <-> (3 <= 2)%nat)
  /\ ((exists rows, table_of unit long_coordinates = inl rows)
      <-> (2 <= 3)%nat /\ (2 <= 3)%nat)
  /\ (forall lines,
        condition_lines unit long_coordinates = inl lines ->
        length lines = (5 + 3)%nat)
  /\ (forall rows,
        table_of unit long_coordinates = inl rows ->
        length rows = 2%nat).
Proof.
  apply (summary_and_table_of_lists unit long_coordinates
           [ {| x := 22; y := 100; z := -2 |};
             {| x := 10; y := 44; z := 70 |};
             {| x := 0; y := 0; z := 0 |} ]
           [ {| threshold := lit "3.5391"; p := lit "0.0016";
                q := lit "0.0199" |};
             {| threshold := lit "3.5391"; p := lit "0.0016";
                q := lit "0.0199" |};
             {| threshold := lit "3.1687"; p := lit "0.0016";
                q := lit "0.0199" |} ]); reflexivity.
Defined.

Example summary_fails_table_succeeds :
  condition_lines unit long_coordinates
  = inr (IndexError "list index out of range")
  /\ (length <$> match table_of unit long_coordinates with
                 | inl rows => Some rows
                 | inr _ => None
                 end) = Some 2%nat.
Proof. split; vm_compute; reflexivity. Qed.

(** ** Exporting *)

Section Exporting.
Variable image : Type.
Variable image_open : string -> image + string.
Variable image_save : image -> string -> option string.
Variable mkdir : string -> option string.
Variable fs : filesystem.
Variable raw_data_path : string.
Variable processed_data_path : string.

Definition output_path_of (dir condition : string) : string :=
  path_join dir (condition +:+ "_brain_activation.png").

(** What one entry contributes to the files exported. *)
Definition exported (dir : string) (entry : string * Data.t image)
  : option (string * string) :=
  match image_save (Data.image_ (snd entry))
          (output_path_of dir (fst entry)) with
  | None => Some (fst entry, output_path_of dir (fst entry))
  | Some _ => None
  end.

Lemma export_entries_omap (dir : string)
  (brain_data : list (string * Data.t image)) :
  fst (export_entries image image_save dir brain_data)
  = omap (exported dir) brain_data.
Proof.
  induction brain_data as [|[condition data] rest IH]; [reflexivity|].
  cbn [export_entries omap list_omap].
  destruct (export_entries image image_save dir rest) as [files log].
  cbn [fst] in IH. unfold exported at 1. cbn [fst snd]. unfold output_path_of.
  destruct (image_save (Data.image_ data) _); cbn [fst]; [exact IH|].
  f_equal. exact IH.
Qed.

Lemma export_entries_error (dir : string)
  (brain_data : list (string * Data.t image)) (condition text : string)
  (data : Data.t image) :
  (condition, data) ∈ brain_data ->
  image_save (Data.image_ data) (output_path_of dir condition) = Some text ->
  Log ERROR ("Error exporting " +:+ condition +:+ " brain image: " +:+ text)
  ∈ snd (export_entries image image_save dir brain_data).
Proof.
  intros Hin Hs. induction brain_data as [|[c d] rest IH].
  - now apply elem_of_nil in Hin.
  - cbn [export_entries].
    destruct (export_entries image image_save dir rest) as [files log].
    apply elem_of_cons in Hin as [[= <- <-]|Hin].
    + unfold output_path_of in Hs. rewrite Hs. left.
    + specialize (IH Hin). cbn [snd] in IH.
      destruct (image_save (Data.image_ d) _); cbn [snd]; now right.
Qed.

(** X21. Exporting the images. When the directory cannot be created the
    method raises before it saves anything. Otherwise it returns, for
    each condition whose image is saved, the path
    [<directory>/<condition>_brain_activation.png], in the order of the
    conditions; an image that cannot be saved is logged at level
    [ERROR] and left out, and the images after it are still saved. *)
Theorem export_brain_images_spec (brain_data : list (string * Data.t image))
  (output_dir : option string) :
  let dir := default (path_join processed_data_path "brain_images") output_dir in
  let result :=
    export_brain_images image image_save mkdir processed_data_path brain_data
      output_dir in
  (forall text, mkdir dir = Some text -> result = (inr (OSError text), []))
  /\ (mkdir dir = None ->
      fst result = inl (omap (exported dir) brain_data)
      /\ forall condition data text,
           (condition, data) ∈ brain_data ->
           image_save (Data.image_ data) (output_path_of dir condition)
           = Some text ->
           Log ERROR ("Error exporting " +:+ condition +:+ " brain image: "
                      +:+ text) ∈ snd result).
Proof.
  cbv zeta. unfold export_brain_images.
  replace (match output_dir with
           | Some d => d
           | None => path_join processed_data_path "brain_images"
           end)
    with (default (path_join processed_data_path "brain_images") output_dir)
    by now destruct output_dir.
  set (dir := default _ output_dir). split.
  - intros text ->. reflexivity.
  - intros ->.
    pose proof (export_entries_omap dir brain_data) as Ho.
    pose proof (export_entries_error dir brain_data) as He.
    destruct (export_entries image image_save dir brain_data) as [files log].
    cbn [fst snd] in *. split; [now rewrite Ho|].
    intros condition data text. apply He.
Qed.

Lemma condition_lines_loaded (item : string * Info.t) (c : string)
  (d : Data.t image) :
  item ∈ brain_image_mapping ->
  loaded image image_open fs raw_data_path item = Some (c, d) ->
  exists lines, condition_lines image d = inl lines.
Proof.
  intros Hin. unfold loaded.
  destruct (fs_exists fs _); [|discriminate].
  destruct (image_open _) as [img|]; [|discriminate].
  intros [= <- <-]. unfold condition_lines. cbn [Data.mni_coords Data.regions].
  unfold brain_image_mapping in Hin.
  repeat (apply elem_of_cons in Hin as [->|Hin];
          [cbn [snd]; eexists; reflexivity|]).
  now apply elem_of_nil in Hin.
Qed.

Lemma summary_lines_loaded (items : list (string * Info.t)) :
  (forall item, item ∈ items -> item ∈ brain_image_mapping) ->
  exists lines,
    summary_lines image
      (omap (loaded image image_open fs raw_data_path) items) = inl lines.
Proof.
  induction items as [|item rest IH]; intros Hsub; [now exists []|].
  assert (Hrest : forall i, i ∈ rest -> i ∈ brain_image_mapping).
  { intros i Hi. apply Hsub. now right. }
  destruct (IH Hrest) as [more Hmore]. cbn [omap list_omap].
  destruct (loaded image image_open fs raw_data_path item) as [[c d]|] eqn:L;
    [|eauto].
  destruct (condition_lines_loaded item c d (Hsub item ltac:(left)) L)
    as [lines Hl].
  cbn [summary_lines]. rewrite Hl.
  fold (@omap list _ _ _ (loaded image image_open fs raw_data_path) rest).
  rewrite Hmore. eauto.
Qed.

Lemma length_omap_le {A B : Type} (f : A -> option B) (l : list A) :
  (length (omap f l) <= length l)%nat.
Proof.
  induction l as [|a l IH]; [reflexivity|]. cbn [omap list_omap].
  fold (@omap list _ _ _ f l). destruct (f a); cbn [length]; lia.
Qed.

(** X22. Processing all the brain data. The method raises only when the
    directory for the exported images cannot be created. Otherwise it
    returns: the images are those of the mapping that exist and can be
    opened, [total_images] is their number, at most four; there is one
    statistical table for each of them, under the same keys in the same
    order; and the files exported are those of the images that could be
    saved. *)
Theorem process_all_brain_data_spec :
  let dir := path_join processed_data_path "brain_images" in
  let result :=
    fst (process_all_brain_data image image_open image_save mkdir fs
           raw_data_path processed_data_path) in
  (forall text, mkdir dir = Some text -> result = inr (OSError text))
  /\ (mkdir dir = None ->
      exists results,
        result = inl results
        /\ Results.brain_data results
           = omap (loaded image image_open fs raw_data_path)
               brain_image_mapping
        /\ Results.total_images results
           = length (Results.brain_data results)
        /\ (Results.total_images results <= 4)%nat
        /\ fst <$> Results.statistical_tables results
           = fst <$> Results.brain_data results
        /\ Results.exported_files results
           = omap (exported dir) (Results.brain_data results)).
Proof.
  cbv zeta. unfold process_all_brain_data.
  pose proof (load_brain_images_fst image image_open fs raw_data_path) as Hl.
  destruct (load_brain_images image image_open fs raw_data_path)
    as [brain_data log1].
  cbn [fst] in Hl. rewrite load_entries_omap in Hl. subst brain_data.
  destruct (summary_lines_loaded brain_image_mapping (fun _ H => H))
    as [lines Hlines].
  unfold create_brain_image_summary. rewrite Hlines.
  unfold export_brain_images.
  destruct (mkdir (path_join processed_data_path "brain_images")) as [text|].
  - split; [now intros ? [= <-] | discriminate].
  - split; [discriminate|]. intros _.
    pose proof (export_entries_omap
                  (path_join processed_data_path "brain_images")
                  (omap (loaded image image_open fs raw_data_path)
                     brain_image_mapping)) as He.
    destruct (export_entries image image_save _ _) as [files log2].
    cbn [fst] in He.
    pose proof (tables_of_loaded image image_open fs raw_data_path
                  brain_image_mapping (fun _ H => H)) as Ht.
    unfold generate_statistical_tables.
    destruct (tables_of image _) as [[tables|e] log3]; cbn [fst] in Ht;
      [|discriminate].
    apply (inj inl) in Ht. subst tables.
    eexists. split; [reflexivity|].
    cbn [Results.brain_data Results.total_images Results.statistical_tables
           Results.exported_files].
    split; [reflexivity|]. split; [reflexivity|]. split; [|split].
    + apply (length_omap_le _ brain_image_mapping).
    + apply tables_keys.
    + exact He.
Qed.

End Exporting.

(** Saving fails for the image of the clench localizer. *)
Definition sample_save (img : unit) (path : string) : option string :=
  if contains "clench" path
  then Some "[Errno 28] No space left on device" else None.

Definition sample_mkdir (path : string) : option string := None.

Lemma export_brain_images_spec_witness :
  let brain_data :=
    fst (load_brain_images unit Samples.open_any Samples.images_fs "raw") in
  let result :=
    export_brain_images unit sample_save sample_mkdir "processed" brain_data
      None in
  fst result
  = inl (omap (exported unit sample_save "processed/brain_images") brain_data)
  /\ forall condition data text,
       (condition, data) ∈ brain_data ->
       sample_save (Data.image_ data)
         (output_path_of "processed/brain_images" condition) = Some text ->
       Log ERROR ("Error exporting " +:+ condition +:+ " brain image: "
                  +:+ text) ∈ snd result.
Proof.
  apply (proj2 (export_brain_images_spec unit sample_save sample_mkdir
                  "processed"
                  (fst (load_brain_images unit Samples.open_any
                          Samples.images_fs "raw")) None)).
  reflexivity.
Defined.

(** Four images are loaded; three of them are exported. *)
Example exported_sample :
  let brain_data :=
    fst (load_brain_images unit Samples.open_any Samples.images_fs "raw") in
  match fst (export_brain_images unit sample_save sample_mkdir "processed"
               brain_data None) with
  | inl files => files
  | inr _ => []
  end
  = [("imagined_grasp",
      "processed/brain_images/imagined_grasp_brain_activation.png");
     ("passive_viewing",
      "processed/brain_images/passive_viewing_brain_activation.png");
     ("imagined_vs_passive",
      "processed/brain_images/imagined_vs_passive_brain_activation.png")].
Proof. vm_compute. reflexivity. Qed.

Lemma process_all_brain_data_spec_witness :
  exists results,
    fst (process_all_brain_data unit Samples.open_any sample_save sample_mkdir
           Samples.clench_image_fs "raw" "processed")
    = inl results
    /\ Results.brain_data results
       = omap (loaded unit Samples.open_any Samples.clench_image_fs "raw")
           brain_image_mapping
    /\ Results.total_images results = length (Results.brain_data results)
    /\ (Results.total_images results <= 4)%nat
    /\ fst <$> Results.statistical_tables results
       = fst <$> Results.brain_data results
    /\ Results.exported_files results
       = omap (exported unit sample_save "processed/brain_images")
           (Results.brain_data results).
Proof.
  apply (proj2 (process_all_brain_data_spec unit Samples.open_any sample_save
                  sample_mkdir Samples.clench_image_fs "raw" "processed")).
  reflexivity.
Defined.

(** With the image of the clench localizer alone: one image, and the
    summary that [main] prints. *)
Example summary_sample :
  match fst (process_all_brain_data unit Samples.open_any sample_save
               sample_mkdir Samples.clench_image_fs "raw" "processed") with
  | inl results => (Results.total_images results, Results.summary results)
  | inr _ => (0%nat, "")
  end
  = (1%nat,
     join (String newline "")
       ["BRAIN IMAGE PROCESSING SUMMARY"; repeat_chr "=" 50; "";
        "CLENCH LOCALIZER:";
        "  Description: Finger clenching task - M1 activation";
        "  Brain Regions: Primary Motor Cortex (M1), Brodmann Area 4, Brodmann Area 6";
        "  MNI Coordinates: (-40, 22, 62)"; ""]).
Proof. vm_compute. reflexivity. Qed.

End BrainFacts.

Module Script.
Import PyStr PyFloat Env Preprocessing RunAnalysis Pipeline.

(** The line that announces the success of the pipeline. *)
Definition success_line : string :=
  "ANALYSIS PIPELINE COMPLETED SUCCESSFULLY!".

Definition is_success (s : string) : bool := string_eqb s success_line.

(** A computation that does not print the line. *)
Definition silent {A : Type} (m : io A) : Prop :=
  Forall (fun s => is_success s = false) (fst m).

Lemma fst_bind {A B : Type} (m : io A) (k : A -> io B) :
  fst (bind m k)
  = fst m ++ match snd m with
             | inl a => fst (k a)
             | inr _ => []
             end.
Proof.
  unfold bind. destruct m as [lines [a|e]]; simpl.
  - now destruct (k a).
  - now rewrite app_nil_r.
Qed.

Lemma not_silent (lines : list string) :
  Forall (fun s => is_success s = false) lines -> success_line ∉ lines.
Proof.
  intros H Hin. rewrite Forall_forall in H. specialize (H _ Hin).
  discriminate.
Qed.

Lemma silent_bind {A B : Type} (m : io A) (k : A -> io B) :
  silent m -> (forall a, silent (k a)) -> silent (bind m k).
Proof.
  unfold silent. intros Hm Hk. rewrite fst_bind. apply Forall_app.
  split; [exact Hm|]. destruct (snd m); [apply Hk | constructor].
Qed.

Lemma silent_print (s : string) : is_success s = false -> silent (print s).
Proof. intros H. repeat constructor. exact H. Qed.

Lemma silent_call {A : Type} (r : A + exn) : silent (call r).
Proof. constructor. Qed.

Lemma silent_ret {A : Type} (a : A) : silent (ret a).
Proof. constructor. Qed.

Lemma silent_bullets (items : list (string * string)) :
  silent (print_all ((fun item => "   • " +:+ title (fst item) +:+ ": "
                                  +:+ snd item) <$> items)).
Proof.
  induction items as [|i rest IH]; [constructor|].
  cbn [fmap list_fmap print_all]. apply silent_bind; [|intros _; exact IH].
  now apply silent_print.
Qed.

Ltac silent_step :=
  first
    [ apply silent_print; reflexivity
    | apply silent_call
    | apply silent_ret
    | apply silent_bullets
    | apply silent_bind; [|intros ?]
    | match goal with
      | |- silent (if ?c then _ else _) => destruct c
      | |- silent (match ?x with Some _ => _ | None => _ end) => destruct x
      | |- silent (let (_, _) := ?p in _) => destruct p
      end ].

Ltac silent_all := repeat silent_step.

(** The line is printed by what follows a computation that does not
    print it, when that computation returns. *)
Lemma success_bind {A B : Type} (m : io A) (k : A -> io B) :
  silent m ->
  success_line ∈ fst (bind m k)
  <-> exists a, snd m = inl a /\ success_line ∈ fst (k a).
Proof.
  intros Hm. rewrite fst_bind, elem_of_app. split.
  - intros [H|H]; [now apply not_silent in H|].
    destruct (snd m) as [a|e]; [eauto | now apply elem_of_nil in H].
  - intros (a & -> & H). now right.
Qed.

Lemma elem_bind_r {A B : Type} (m : io A) (k : A -> io B) (a : A)
  (x : string) :
  snd m = inl a -> x ∈ fst (k a) -> x ∈ fst (bind m k).
Proof. intros Hm H. rewrite fst_bind, Hm. apply elem_of_app. now right. Qed.

Section Lines.
Variable fs : filesystem.
Variable data_root : string.
Variable o : outcomes.

Lemma silent_banner : silent (banner o).
Proof. unfold banner. silent_all. Qed.

Lemma silent_phase_1 : silent (phase_1 fs data_root o).
Proof. unfold phase_1. silent_all. Qed.

Lemma silent_phase_2 : silent (phase_2 o).
Proof. unfold phase_2. silent_all. Qed.

Lemma silent_phase_3 : silent (phase_3 o).
Proof. unfold phase_3. silent_all. Qed.

Lemma silent_phase_4 : silent (phase_4 o).
Proof. unfold phase_4. silent_all. Qed.

(** Phase 5 only prints: it returns, and the line is among what it
    prints. *)
Lemma phase_5_returns (df : DataFrame.t) (exported : list (string * string))
  (results : nat * string) (plots files : list (string * string))
  (path : string) :
  snd (phase_5 o df exported results plots files path) = inl tt.
Proof.
  assert (Y : yields (phase_5 o df exported results plots files path)
                (fun _ => True)) by (unfold phase_5; follow).
  destruct Y as ([] & -> & _). reflexivity.
Qed.

Lemma phase_5_success (df : DataFrame.t) (exported : list (string * string))
  (results : nat * string) (plots files : list (string * string))
  (path : string) :
  success_line ∈ fst (phase_5 o df exported results plots files path).
Proof.
  unfold phase_5.
  repeat lazymatch goal with
    | |- _ ∈ fst (bind (print "ANALYSIS PIPELINE COMPLETED SUCCESSFULLY!") _) =>
        fail
    | |- _ ∈ fst (bind (print _) _) =>
        apply (elem_bind_r _ _ tt); [reflexivity|]
    | |- _ ∈ fst (bind (print_all _) _) =>
        apply (elem_bind_r _ _ tt); [apply snd_print_all|]
    | |- _ ∈ fst (bind (if ?c then _ else _) _) =>
        apply (elem_bind_r _ _ tt); [destruct c; reflexivity|]
    end.
  rewrite fst_bind. apply elem_of_app. left. apply list_elem_of_here.
Qed.

(** Where the line is printed: after the four phases have returned. *)
Lemma success_main :
  success_line ∈ fst (main fs data_root o)
  <-> exists df exported results r4,
        snd (phase_1 fs data_root o) = inl (Some (df, exported))
        /\ snd (phase_2 o) = inl results
        /\ snd (phase_3 o) = inl tt
        /\ snd (phase_4 o) = inl r4.
Proof.
  unfold main. rewrite success_bind by apply silent_banner. split.
  - intros (_ & _ & H).
    apply success_bind in H as ([[df exported]|] & H1 & H);
      [|now apply elem_of_nil in H|apply silent_phase_1].
    apply success_bind in H as (results & H2 & H); [|apply silent_phase_2].
    apply success_bind in H as ([] & H3 & H); [|apply silent_phase_3].
    apply success_bind in H as (r4 & H4 & H); [|apply silent_phase_4].
    eauto 10.
  - intros (df & exported & results & r4 & H1 & H2 & H3 & H4).
    assert (Hb : snd (banner o) = inl tt).
    { assert (Y : yields (banner o) (fun _ => True))
        by (unfold banner; follow).
      destruct Y as ([] & -> & _). reflexivity. }
    exists tt. split; [exact Hb|].
    apply (elem_bind_r _ _ _ _ H1). apply (elem_bind_r _ _ _ _ H2).
    apply (elem_bind_r _ _ _ _ H3). apply (elem_bind_r _ _ _ _ H4).
    apply phase_5_success.
Qed.

Lemma main_returns_after_phase_4 (df : DataFrame.t)
  (exported : list (string * string)) (results : nat * string)
  (r4 : list (string * string) * list (string * string) * string) :
  snd (phase_1 fs data_root o) = inl (Some (df, exported)) ->
  snd (phase_2 o) = inl results ->
  snd (phase_3 o) = inl tt ->
  snd (phase_4 o) = inl r4 ->
  snd (main fs data_root o) = inl tt.
Proof.
  intros H1 H2 H3 H4. unfold main.
  assert (Hb : snd (banner o) = inl tt).
  { assert (Y : yields (banner o) (fun _ => True))
      by (unfold banner; follow).
    destruct Y as ([] & -> & _). reflexivity. }
  rewrite snd_bind, Hb, snd_bind, H1, snd_bind, H2, snd_bind, H3, snd_bind, H4.
  apply phase_5_returns.
Qed.

Lemma five_phases :
  phases (fst (main fs data_root o)) = all_phases
  <-> exists df exported results r4,
        snd (phase_1 fs data_root o) = inl (Some (df, exported))
        /\ snd (phase_2 o) = inl results
        /\ snd (phase_3 o) = inl tt
        /\ snd (phase_4 o) = inl r4.
Proof.
  rewrite phases_main.
  destruct (snd (phase_1 fs data_root o)) as [[[df exported]|]|e].
  2,3: split; [discriminate | now intros (? & ? & ? & ? & [=] & _)].
  destruct (snd (phase_2 o)) as [results|e].
  2: split; [discriminate | now intros (? & ? & ? & ? & _ & [=] & _)].
  destruct (snd (phase_3 o)) as [[]|e].
  2: split; [discriminate | now intros (? & ? & ? & ? & _ & _ & [=] & _)].
  destruct (snd (phase_4 o)) as [r4|e].
  2: split; [discriminate | now intros (? & ? & ? & ? & _ & _ & _ & [=])].
  split; [eauto 10 | reflexivity].
Qed.

(** The lines and the status of the script, from those of [main]. *)
Lemma script_lines :
  script fs data_root o
  = match snd (main fs data_root o) with
    | inl _ => (fst (main fs data_root o), 0%Z)
    | inr e => (fst (main fs data_root o) ++ [""; "ERROR: " +:+ exn_str e], 1%Z)
    end.
Proof. unfold script. now destruct (main fs data_root o) as [lines [[]|e]]. Qed.

(** X23. The script prints the line [ANALYSIS PIPELINE COMPLETED
    SUCCESSFULLY!] exactly when the headers of the five phases were
    printed, and its exit status is then 0. The status is 1 exactly when
    an exception leaves [main], and the last line printed is then
    [ERROR:] with the message of the exception. A status of 0 does not
    tell that the pipeline succeeded: it is also the status when [main]
    returns after the first phase. *)
Theorem success_line_iff_five_phases :
  let out := script fs data_root o in
  (success_line ∈ fst out <-> phases (fst out) = all_phases)
  /\ (success_line ∈ fst out -> snd out = 0%Z)
  /\ (snd out = 1%Z <-> exists e, snd (main fs data_root o) = inr e)
  /\ (forall e,
        snd (main fs data_root o) = inr e ->
        last (fst out) = Some ("ERROR: " +:+ exn_str e)).
Proof.
  cbv zeta. rewrite script_lines.
  pose proof success_main as Hs. pose proof five_phases as Hp.
  pose proof main_returns_after_phase_4 as Hr.
  destruct (snd (main fs data_root o)) as [[]|e]; cbn [fst snd].
  - split; [now rewrite Hs, Hp|]. split; [reflexivity|].
    split; [|discriminate]. split; [discriminate | now intros [e [=]]].
  - assert (Hn : ~ exists df exported results r4,
                   snd (phase_1 fs data_root o) = inl (Some (df, exported))
                   /\ snd (phase_2 o) = inl results
                   /\ snd (phase_3 o) = inl tt
                   /\ snd (phase_4 o) = inl r4).
    { intros (df & exported & results & r4 & H1 & H2 & H3 & H4).
      specialize (Hr df exported results r4 H1 H2 H3 H4). discriminate. }
    rewrite phases_app, app_nil_r, Hp, elem_of_app, Hs.
    assert (He : success_line ∉ [""; "ERROR: " +:+ exn_str e]).
    { apply not_silent. repeat constructor. }
    split; [tauto|]. split; [tauto|]. split; [split; eauto|].
    intros e' [= <-]. now rewrite last_app.
Qed.

End Lines.
End Script.
